(** * Platform-CLI: ownership-scoped access to cloud resources

    A shallow embedding of the command-line front end ([ec2.py], [s3.py],
    [route53.py]) and of the Streamlit front end ([app.py]).

    Every command is a short sequence of calls into the provider's control
    plane, of messages and of prompts.  A command is embedded as a value of
    [Prog]: a finite tree whose nodes are the events the command performs and
    whose branches are the answers it may receive.  [run] plays a command
    against an environment and records the trace of events and answers. *)

From Stdlib Require Import ZArith Ascii String.
From stdpp Require Import gmap strings list fin_maps pretty.

Open Scope string_scope.

(** ** Python values used by the commands *)

Module Py.

(** The subclasses of [Exception] the code meets.  [ClientError] is the
    provider's error response; [BotoCoreError] stands for the client
    library's other failures (transport, parameter validation);
    [IndexError] is raised by [xs[0]] on an empty list and [KeyError] by
    [d[k]] on a missing key. *)
Inductive ExnClass := ClientError | BotoCoreError | IndexError | KeyError.

#[global] Instance ExnClass_eq_dec : EqDecision ExnClass.
Proof. solve_decision. Defined.

(** An exception: its class and [str(e)]. *)
Record Exn := mkExn { exn_class : ExnClass; exn_str : string }.

#[global] Instance Exn_eq_dec : EqDecision Exn.
Proof. solve_decision. Defined.

(** What a [raise] carries: an instance of [Exception], or Streamlit's
    [RerunException], which derives from [BaseException] only so that
    [except Exception] lets it through. *)
Inductive Raised := Exception (e : Exn) | RerunException.

#[global] Instance Raised_eq_dec : EqDecision Raised.
Proof. solve_decision. Defined.

(** [c.lower()] on one character of ASCII. *)
Definition lower_ascii (c : ascii) : ascii :=
  let n := nat_of_ascii c in
  if (65 <=? n)%nat && (n <=? 90)%nat then ascii_of_nat (n + 32) else c.

(** [s.lower()] for a text of ASCII characters.  Python lowers the cased
    letters outside ASCII as well, which the bytes of a text do not show
    one by one: a statement that turns on the lowered text is made for
    ASCII texts ([ascii_only] below). *)
Fixpoint lower (s : string) : string :=
  match s with
  | EmptyString => EmptyString
  | String c s' => String (lower_ascii c) (lower s')
  end.

(** The text holds ASCII characters only. *)
Definition ascii_only (s : string) : bool :=
  forallb (fun c => (nat_of_ascii c <? 128)%nat) (list_ascii_of_string s).

(** [s.split(sep)[-1]]: what follows the last occurrence of [sep]; the
    accumulator holds the current segment. *)
Fixpoint split_last_from (sep : ascii) (s : string) (seg : string) : string :=
  match s with
  | EmptyString => seg
  | String c s' =>
      if bool_decide (c = sep) then split_last_from sep s' EmptyString
      else split_last_from sep s' (seg ++ String c EmptyString)
  end.

Definition split_last (sep : ascii) (s : string) : string :=
  split_last_from sep s EmptyString.

(** [len(s)]: the characters of a text, which is held in UTF-8; a byte of
    the form [10xxxxxx] continues a character and starts none. *)
Definition continues_char (c : ascii) : bool :=
  let n := nat_of_ascii c in (128 <=? n)%nat && (n <? 192)%nat.

Fixpoint len (s : string) : nat :=
  match s with
  | EmptyString => 0
  | String c s' => (if continues_char c then 0 else 1) + len s'
  end.

(** [f"{s:<n}"]: pad on the right with spaces up to width [n]. *)
Fixpoint spaces (n : nat) : string :=
  match n with O => EmptyString | S n' => String " " (spaces n') end.

Definition ljust (n : nat) (s : string) : string :=
  s ++ spaces (n - len s).

(** ["-" * n]. *)
Fixpoint dashes (n : nat) : string :=
  match n with O => EmptyString | S n' => String "-" (dashes n') end.

End Py.
Export Py.

(** ** The provider's client interface (boto3) *)

Module Boto.

(** [{'Key': k, 'Value': v}]. *)
Record Tag := mkTag { Key : string; Value : string }.

(** [{'Name': n, 'Values': vs}] of [describe_instances(Filters=...)]. *)
Record Filter := mkFilter { FilterName : string; FilterValues : list string }.

(** An instance as [describe_instances] returns it.  [Tags] and
    [PublicIpAddress] may be absent from the dictionary. *)
Record Instance := mkInstance {
  InstanceId : string;
  StateName : string;
  InstanceType : string;
  PublicIpAddress : option string;
  Tags : option (list Tag)
}.

Record Reservation := mkReservation { Instances : list Instance }.

Record Bucket := mkBucket { BucketName : string; CreationDate : string }.

Record HostedZone := mkHostedZone {
  ZoneId : string;
  ZoneName : string;
  ResourceRecordSetCount : nat
}.

(** A resource record set; [ResourceRecords] lists the values.  A record
    set with values of its own has one at least; one without (an alias
    record set) comes without the key [ResourceRecords] in a response, which
    is the empty list here. *)
Record RRSet := mkRRSet {
  RName : string;
  RType : string;
  TTL : option Z;
  ResourceRecords : list string
}.

(** One entry of [ChangeBatch['Changes']]. *)
Record Change := mkChange { Action : string; ResourceRecordSet : RRSet }.

#[global] Instance Tag_eq_dec : EqDecision Tag.
Proof. solve_decision. Defined.
#[global] Instance Filter_eq_dec : EqDecision Filter.
Proof. solve_decision. Defined.
#[global] Instance RRSet_eq_dec : EqDecision RRSet.
Proof. solve_decision. Defined.
#[global] Instance Change_eq_dec : EqDecision Change.
Proof. solve_decision. Defined.

(** The client methods the modelled commands invoke, with their keyword
    arguments. *)
Inductive ApiCall :=
| describe_instances (InstanceIds : list string) (Filters : list Filter)
| run_instances (ImageId InstanceType KeyName : string) (MinCount MaxCount : nat)
                (TagSpecifications : list Tag)
| start_instances (InstanceIds : list string)
| stop_instances (InstanceIds : list string)
| terminate_instances (InstanceIds : list string)
| get_parameter (Name : string)
| list_buckets
| get_bucket_tagging (Bucket : string)
| create_bucket (Bucket : string) (LocationConstraint : option (option string))
| put_bucket_tagging (Bucket : string) (TagSet : list Tag)
| delete_public_access_block (Bucket : string)
| put_public_access_block (Bucket : string)
    (BlockPublicAcls IgnorePublicAcls BlockPublicPolicy RestrictPublicBuckets : bool)
| list_hosted_zones
| list_tags_for_resource (ResourceType ResourceId : string)
| get_hosted_zone (Id : string)
| change_resource_record_sets (HostedZoneId : string) (Changes : list Change)
| list_resource_record_sets (HostedZoneId : string).

#[global] Instance ApiCall_eq_dec : EqDecision ApiCall.
Proof. solve_decision. Defined.

(** The part of each response the code reads. *)
Definition Response (c : ApiCall) : Type :=
  match c with
  | describe_instances _ _ => list Reservation     (* response['Reservations'] *)
  | run_instances _ _ _ _ _ _ => list Instance      (* response['Instances'] *)
  | get_parameter _ => string                       (* ['Parameter']['Value'] *)
  | list_buckets => list Bucket                     (* response['Buckets'] *)
  | get_bucket_tagging _ => list Tag                (* response['TagSet'] *)
  | list_hosted_zones => list HostedZone            (* response['HostedZones'] *)
  | list_tags_for_resource _ _ => list Tag          (* ['ResourceTagSet']['Tags'] *)
  | get_hosted_zone _ => string                     (* ['HostedZone']['Name'] *)
  | list_resource_record_sets _ => list RRSet       (* ['ResourceRecordSets'] *)
  | _ => unit
  end.

(** The calls that create, change or delete a resource. *)
Definition is_mutating (c : ApiCall) : bool :=
  match c with
  | run_instances _ _ _ _ _ _ | start_instances _ | stop_instances _
  | terminate_instances _ | create_bucket _ _ | put_bucket_tagging _ _
  | delete_public_access_block _ | put_public_access_block _ _ _ _ _
  | change_resource_record_sets _ _ => true
  | _ => false
  end.

End Boto.
Export Boto.

(** ** Messages of the command-line front end *)

Module Cli.

(** What [click.echo] prints, one constructor for each message of the
    three command groups; [render] gives the text. *)
Inductive Msg :=
(* ec2.py *)
| TypeNotAllowed (instance_type : string)
| LimitReached (limit : nat)
| SearchingAmi
| FoundAmi (ami : string)
| ErrorGettingAmi (e : Exn)
| Launching (instance_type name : string)
| InstanceCreated (instance_id : string)
| AwsError (e : Exn)
| InstanceHeader
| Rule (width : nat)
| InstanceRow (instance_id name state instance_type public_ip : string)
| NoActiveInstances
| InstanceNotManaged (instance_id : string)
| Stopping (instance_id : string)
| Starting (instance_id : string)
| Error (e : Exn)
| Terminating (instance_id : string)
| InstanceTerminated
(* s3.py *)
| PublicWarning (bucket_name : string)
| OperationCancelled
| BucketCreatedPublic (bucket_name : string)
| BucketCreatedPrivate (bucket_name : string)
| BucketHeader
| BucketRow (name creation_date : string)
| NoBuckets
(* route53.py *)
| ZoneHeader
| ZoneRow (zone_id name : string) (records : nat)
| NoZones
| ZoneNotManaged (zone_id : string)
| PermissionCheckError (e : Exn)
| ErrorFetchingZoneInfo (e : Exn)
| AddingRecord (full_record_name ip_address : string)
| RecordAdded
| PermissionError (e : Exn)
| ErrorFetchingZone (e : Exn)
| DeletingRecord (full_record_name ip_address : string)
| RecordDeleted.

#[global] Instance Msg_eq_dec : EqDecision Msg.
Proof. solve_decision. Defined.

Definition render (m : Msg) : string :=
  match m with
  | TypeNotAllowed t => "❌ Error: Type " ++ t ++ " is not allowed."
  | LimitReached n => "❌ Error: Limit of " ++ pretty n ++ " instances reached."
  | SearchingAmi => "🔎 Searching for latest AMI via SSM..."
  | FoundAmi ami => "✅ Found AMI: " ++ ami
  | ErrorGettingAmi e => "❌ Error getting AMI: " ++ exn_str e
  | Launching t name => "🚀 Launching " ++ t ++ " named '" ++ name ++ "'..."
  | InstanceCreated i => "✅ Success! Instance " ++ i ++ " is being created."
  | AwsError e => "AWS Error: " ++ exn_str e
  | InstanceHeader =>
      ljust 20 "ID" ++ " " ++ ljust 20 "Name" ++ " " ++ ljust 10 "State" ++ " "
      ++ ljust 10 "Type" ++ " " ++ "Public IP"
  | Rule n => dashes n
  | InstanceRow i name state t ip =>
      ljust 20 i ++ " " ++ ljust 20 name ++ " " ++ ljust 10 state ++ " "
      ++ ljust 10 t ++ " " ++ ip
  | NoActiveInstances => "No active instances found."
  | InstanceNotManaged i => "❌ Error: Instance " ++ i ++ " is not managed by platform-cli!"
  | Stopping i => "🛑 Stopping " ++ i ++ "..."
  | Starting i => "▶️ Starting " ++ i ++ "..."
  | Error e => "Error: " ++ exn_str e
  | Terminating i => "⚠️  TERMINATING " ++ i ++ ". Data will be lost."
  | InstanceTerminated => "✅ Instance terminated."
  | PublicWarning b => "⚠️  WARNING: You are about to make bucket '" ++ b ++ "' PUBLIC."
  | OperationCancelled => "Operation cancelled."
  | BucketCreatedPublic b => "🔓 Bucket '" ++ b ++ "' created (Public)."
  | BucketCreatedPrivate b => "🔒 Bucket '" ++ b ++ "' created (Private)."
  | BucketHeader => ljust 40 "Bucket Name" ++ " " ++ "Creation Date"
  | BucketRow name date => ljust 40 name ++ " " ++ date
  | NoBuckets => "No buckets found."
  | ZoneHeader => ljust 20 "Zone ID" ++ " " ++ ljust 25 "Name" ++ " " ++ "Records"
  | ZoneRow z name n => ljust 20 z ++ " " ++ ljust 25 name ++ " " ++ pretty n
  | NoZones => "No zones found."
  | ZoneNotManaged z => "❌ Error: Zone " ++ z ++ " is not managed by platform-cli!"
  | PermissionCheckError e => "Permission check error: " ++ exn_str e
  | ErrorFetchingZoneInfo e => "❌ Error fetching zone info: " ++ exn_str e
  | AddingRecord n ip => "📝 Adding record " ++ n ++ " -> " ++ ip ++ "..."
  | RecordAdded => "✅ Record added."
  | PermissionError e => "Permission error: " ++ exn_str e
  | ErrorFetchingZone e => "Error fetching zone: " ++ exn_str e
  | DeletingRecord n ip => "🗑️ Deleting record " ++ n ++ " -> " ++ ip ++ "..."
  | RecordDeleted => "✅ Record deleted."
  end.

End Cli.
Export Cli.

(** ** Widgets and output of the Streamlit front end *)

Module St.

(** A row of the instance table and of the zone table of [app.py]. *)
Record InstanceEntry := mkInstanceEntry {
  entry_ID : string; entry_Name : string; entry_State : string;
  entry_Type : string; entry_IP : string
}.

Record ZoneEntry := mkZoneEntry {
  entry_Domain : string; entry_ZoneID : string; entry_Records : nat
}.

(** The input widgets.  A button carries its optional [key]. *)
Inductive Widget :=
| selectbox (label : string) (options : list string)
| text_input (label value : string)
| checkbox (label : string)
| button (label : string) (key : option string).

(** What a widget returns in one run of the script: the position chosen
    in a selectbox, the content of a text field, whether a box is ticked,
    whether a button was clicked. *)
Definition WidgetValue (w : Widget) : Type :=
  match w with
  | selectbox _ _ => nat
  | text_input _ _ => string
  | checkbox _ => bool
  | button _ _ => bool
  end.

(** The output elements that carry a message or data. *)
Inductive Display :=
| success (body : string)
| error (body : string)
| info (body : string)
| warning (body : string)
| toast (body : string)
| text (body : string)
| dataframe (data : list InstanceEntry)
| table (data : list ZoneEntry).

#[global] Instance InstanceEntry_eq_dec : EqDecision InstanceEntry.
Proof. solve_decision. Defined.
#[global] Instance ZoneEntry_eq_dec : EqDecision ZoneEntry.
Proof. solve_decision. Defined.
#[global] Instance Widget_eq_dec : EqDecision Widget.
Proof. solve_decision. Defined.
#[global] Instance Display_eq_dec : EqDecision Display.
Proof. solve_decision. Defined.

End St.

(** ** Commands as trees of events *)

Inductive Event :=
| Api (c : ApiCall)                  (* a method of a boto3 client *)
| Echo (err : bool) (m : Msg)        (* click.echo(m, err=err) *)
| Confirm (prompt : string)          (* click.confirm(prompt) *)
| Widget (w : St.Widget)             (* a Streamlit input widget *)
| Display (d : St.Display).          (* a Streamlit output element *)

#[global] Instance Event_eq_dec : EqDecision Event.
Proof. solve_decision. Defined.

(** What the environment hands back: a provider call returns its response
    or raises. *)
Definition Answer (ev : Event) : Type :=
  match ev with
  | Api c => (Exn + Response c)%type
  | Echo _ _ => unit
  | Confirm _ => bool
  | Widget w => St.WidgetValue w
  | Display _ => unit
  end.

Inductive Prog (A : Type) : Type :=
| Ret (a : A)
| Raise (r : Raised)
| Vis (ev : Event) (k : Answer ev -> Prog A).

Arguments Ret {A} a.
Arguments Raise {A} r.
Arguments Vis {A} ev k.

Fixpoint bind {A B} (p : Prog A) (f : A -> Prog B) : Prog B :=
  match p with
  | Ret a => f a
  | Raise r => Raise r
  | Vis ev k => Vis ev (fun a => bind (k a) f)
  end.

#[global] Instance Prog_ret : MRet Prog := @Ret.
#[global] Instance Prog_bind : MBind Prog := fun A B f p => bind p f.

(** [try: body / except ...: ...].  The clause tells whether it catches
    what was raised and how it goes on. *)
Fixpoint try_except {A} (body : Prog A) (clause : Raised -> option (Prog A)) : Prog A :=
  match body with
  | Ret a => Ret a
  | Raise r => match clause r with Some handler => handler | None => Raise r end
  | Vis ev k => Vis ev (fun a => try_except (k a) clause)
  end.

(** [except ClientError as e: handler e]. *)
Definition except_ClientError {A} (handler : Exn -> Prog A) (r : Raised) : option (Prog A) :=
  match r with
  | Exception e =>
      if bool_decide (exn_class e = ClientError) then Some (handler e) else None
  | RerunException => None
  end.

(** [except Exception as e: handler e]. *)
Definition except_Exception {A} (handler : Exn -> Prog A) (r : Raised) : option (Prog A) :=
  match r with
  | Exception e => Some (handler e)
  | RerunException => None
  end.

(** A bare [except: handler]. *)
Definition except_all {A} (handler : Prog A) (r : Raised) : option (Prog A) :=
  Some handler.

(** A provider call: the response, or the exception raised. *)
Definition call (c : ApiCall) : Prog (Response c) :=
  Vis (Api c) (fun a => match a with inl e => Raise (Exception e) | inr r => Ret r end).

Definition echo (m : Msg) : Prog unit := Vis (Echo false m) Ret.
Definition echo_err (m : Msg) : Prog unit := Vis (Echo true m) Ret.

(** [click.confirm(prompt)], answered with yes or no.  A prompt that is
    broken off (end of input) raises [click.Abort] instead; that is no
    answer here, so what is said of a prompt is said of an answered one. *)
Definition confirm (prompt : string) : Prog bool := Vis (Confirm prompt) Ret.

Definition widget (w : St.Widget) : Prog (St.WidgetValue w) := Vis (Widget w) Ret.
Definition display (d : St.Display) : Prog unit := Vis (Display d) Ret.

(** [xs[0]]. *)
Definition first {A} (xs : list A) : Prog A :=
  match xs with
  | x :: _ => Ret x
  | [] => Raise (Exception (mkExn IndexError "list index out of range"))
  end.

(** [for x in xs: s = body x s], the loop's variables threaded as [s]. *)
Fixpoint for_each {A S} (xs : list A) (body : A -> S -> Prog S) (s : S) : Prog S :=
  match xs with
  | [] => Ret s
  | x :: xs' => s' ← body x s; for_each xs' body s'
  end.

(** ** Running a command *)

(** An environment answers every event from its current state: the
    provider, the terminal and the operator together. *)
Record Env := mkEnv {
  env_state : Type;
  env_step : env_state -> forall ev : Event, Answer ev * env_state
}.

(** One entry of a trace: an event and the answer it received. *)
Definition Entry : Type := { ev : Event & Answer ev }.
Definition Trace : Type := list Entry.

Fixpoint run {A} (E : Env) (p : Prog A) (s : env_state E)
    : Trace * (Raised + A) * env_state E :=
  match p with
  | Ret a => ([], inr a, s)
  | Raise r => ([], inl r, s)
  | Vis ev k =>
      let '(a, s1) := env_step E s ev in
      let '(t, r, s2) := run E (k a) s1 in
      (existT ev a :: t, r, s2)
  end.

Definition trace_of {A} (E : Env) (p : Prog A) (s : env_state E) : Trace :=
  (run E p s).1.1.

Definition final_state {A} (E : Env) (p : Prog A) (s : env_state E) : env_state E :=
  (run E p s).2.

(** The provider calls of a trace, in order. *)
Definition calls (t : Trace) : list ApiCall :=
  omap (fun en : Entry => match projT1 en with Api c => Some c | _ => None end) t.

(** The messages echoed, with their [err] flag. *)
Definition echoes (t : Trace) : list (bool * Msg) :=
  omap (fun en : Entry =>
          match projT1 en with Echo err m => Some (err, m) | _ => None end) t.

(** The confirmation prompts shown, with the operator's reply. *)
Definition confirmations (t : Trace) : list (string * bool) :=
  omap (fun en : Entry =>
          match projT1 en as ev return Answer ev -> option (string * bool) with
          | Confirm p => fun b => Some (p, b)
          | _ => fun _ => None
          end (projT2 en)) t.

(** The Streamlit output elements shown. *)
Definition displays (t : Trace) : list St.Display :=
  omap (fun en : Entry => match projT1 en with Display d => Some d | _ => None end) t.

(** The Streamlit input widgets shown. *)
Definition widgets (t : Trace) : list St.Widget :=
  omap (fun en : Entry => match projT1 en with Widget w => Some w | _ => None end) t.

(** No run of the command performs an event of the kind [P]. *)
Inductive Never (P : Event -> Prop) {A} : Prog A -> Prop :=
| Never_Ret a : Never P (Ret a)
| Never_Raise r : Never P (Raise r)
| Never_Vis ev k : ~ P ev -> (forall a, Never P (k a)) -> Never P (Vis ev k).

(** ** Configuration and the ownership test *)

(** The values read from the process environment when a module is loaded. *)
Record Config := mkConfig {
  TAG_CREATED_BY : string;        (* os.getenv('TAG_CREATED_BY', 'platform-cli') *)
  TAG_OWNER : string;             (* os.getenv('TAG_OWNER', 'student') *)
  AWS_REGION : option string      (* os.getenv('AWS_REGION') *)
}.

Definition config_of_environ (environ : gmap string string) : Config :=
  {| TAG_CREATED_BY := default "platform-cli" (environ !! "TAG_CREATED_BY");
     TAG_OWNER := default "student" (environ !! "TAG_OWNER");
     AWS_REGION := environ !! "AWS_REGION" |}.

(** [{t['Key']: t['Value'] for t in tags}]: a later entry with the same key
    replaces an earlier one. *)
Definition tags_dict (tags : list Tag) : gmap string string :=
  foldl (fun d t => <[Key t := Value t]> d) ∅ tags.

(** [tags.get('CreatedBy') == TAG_CREATED_BY], the test every listing and
    every guard writes out in place (the guards as [!=]). *)
Definition isManaged (cfg : Config) (tags : gmap string string) : bool :=
  bool_decide (tags !! "CreatedBy" = Some (TAG_CREATED_BY cfg)).

(** The two ownership tags written at creation. *)
Definition ownership_tags (cfg : Config) : list Tag :=
  [mkTag "CreatedBy" (TAG_CREATED_BY cfg); mkTag "Owner" (TAG_OWNER cfg)].

(** ** ec2.py *)

(** Every command of the file begins by building its client
    ([get_ec2_client()]), outside any [try].  The definitions of this
    module are the commands from the next statement on; [Rest.ec2] below is
    the command line in full, with the construction in front. *)

Module Ec2.
Section WithConfig.
Variable cfg : Config.

Definition ALLOWED_TYPES : list string := ["t3.micro"; "t3.small"].
Definition MAX_INSTANCES : nat := 2.
Definition SSM_AMI_PATH : string :=
  "/aws/service/ami-amazon-linux-latest/amzn2-ami-hvm-x86_64-gp2".

Definition get_latest_ami : Prog string := call (get_parameter SSM_AMI_PATH).

(** The two filters of the limit check. *)
Definition limit_filters : list Filter :=
  [mkFilter "tag:CreatedBy" [TAG_CREATED_BY cfg];
   mkFilter "instance-state-name" ["running"; "pending"; "stopping"; "stopped"]].

(** [sum(len(r['Instances']) for r in response['Reservations'])]. *)
Definition count_instances (reservations : list Reservation) : nat :=
  sum_list (map (fun r => length (Instances r)) reservations).

Definition create (instance_type key_name name : string) : Prog unit :=
  if negb (bool_decide (instance_type ∈ ALLOWED_TYPES)) then
    echo_err (TypeNotAllowed instance_type)
  else
    (* Check limit *)
    response ← call (describe_instances [] limit_filters);
    let current_count := count_instances response in
    if (MAX_INSTANCES <=? current_count)%nat then
      echo_err (LimitReached MAX_INSTANCES)
    else
      (* 1. get the AMI *)
      echo SearchingAmi;;
      found ← try_except
                (latest_ami ← get_latest_ami;
                 echo (FoundAmi latest_ami);;
                 mret (Some latest_ami))
                (except_Exception (fun e => echo_err (ErrorGettingAmi e);; mret None));
      match found with
      | None => mret tt
      | Some latest_ami =>
          (* 2. create the instance *)
          echo (Launching instance_type name);;
          try_except
            (instances ← call (run_instances latest_ami instance_type key_name 1 1
                                 (mkTag "Name" name :: ownership_tags cfg));
             i ← first instances;
             echo (InstanceCreated (InstanceId i)))
            (except_Exception (fun e => echo_err (AwsError e)))
      end.

(** The filter of the listing. *)
Definition list_filters : list Filter :=
  [mkFilter "tag:CreatedBy" [TAG_CREATED_BY cfg]].

(** The body of the inner loop of [list]; [found] is the loop's flag. *)
Definition list_instance (i : Instance) (found : bool) : Prog bool :=
  if bool_decide (StateName i = "terminated") then mret found
  else
    let public_ip := default "N/A" (PublicIpAddress i) in
    let tags := tags_dict (default [] (Tags i)) in
    let name := default "Unknown" (tags !! "Name") in
    echo (InstanceRow (InstanceId i) name (StateName i) (InstanceType i) public_ip);;
    mret true.

Definition list : Prog unit :=
  response ← call (describe_instances [] list_filters);
  echo InstanceHeader;;
  echo (Rule 75);;
  found ← for_each response
            (fun r found => for_each (Instances r) list_instance found) false;
  if negb found then echo NoActiveInstances else mret tt.

(** The first lines of [stop], [start] and [terminate]: fetch the
    instance and read its tags. *)
Definition fetch_tags (instance_id : string) : Prog (gmap string string) :=
  response ← call (describe_instances [instance_id] []);
  r ← first response;
  instance ← first (Instances r);
  mret (tags_dict (default [] (Tags instance))).

Definition stop (instance_id : string) : Prog unit :=
  try_except
    (tags ← fetch_tags instance_id;
     if negb (isManaged cfg tags) then echo_err (InstanceNotManaged instance_id)
     else
       call (stop_instances [instance_id]);;
       echo (Stopping instance_id))
    (except_Exception (fun e => echo_err (Error e))).

Definition start (instance_id : string) : Prog unit :=
  try_except
    (tags ← fetch_tags instance_id;
     if negb (isManaged cfg tags) then echo_err (InstanceNotManaged instance_id)
     else
       call (start_instances [instance_id]);;
       echo (Starting instance_id))
    (except_Exception (fun e => echo_err (Error e))).

Definition terminate (instance_id : string) : Prog unit :=
  try_except
    (tags ← fetch_tags instance_id;
     if negb (isManaged cfg tags) then echo_err (InstanceNotManaged instance_id)
     else
       echo (Terminating instance_id);;
       sure ← confirm "Are you sure?";
       if sure : bool then
         call (terminate_instances [instance_id]);;
         echo InstanceTerminated
       else mret tt)
    (except_Exception (fun e => echo_err (Error e))).

End WithConfig.
End Ec2.

(** ** s3.py *)

(** As in ec2.py, the commands are given from the statement after
    [get_s3_client()] on; [Rest.s3] is the command line in full. *)

Module S3.
Section WithConfig.
Variable cfg : Config.

Definition create (bucket_name : string) (public : bool) : Prog unit :=
  let bucket_name := lower bucket_name in
  let region := AWS_REGION cfg in
  go_on ← (if public then
             echo (PublicWarning bucket_name);;
             sure ← confirm "Are you absolutely sure?";
             if negb sure then echo OperationCancelled;; mret false
             else mret true
           else mret true);
  if negb go_on then mret tt
  else
    try_except
      ((if bool_decide (region = Some "us-east-1") then
          call (create_bucket bucket_name None)
        else
          call (create_bucket bucket_name (Some region)));;
       call (put_bucket_tagging bucket_name (ownership_tags cfg));;
       if public then
         call (delete_public_access_block bucket_name);;
         echo (BucketCreatedPublic bucket_name)
       else
         call (put_public_access_block bucket_name true true true true);;
         echo (BucketCreatedPrivate bucket_name))
      (except_ClientError (fun e => echo_err (AwsError e))).

(** The body of the loop of [list]: a [ClientError] of the tag fetch
    skips the bucket ([continue]). *)
Definition list_bucket (bucket : Bucket) (found : bool) : Prog bool :=
  let name := BucketName bucket in
  try_except
    (tags_resp ← call (get_bucket_tagging name);
     let tags := tags_dict tags_resp in
     if isManaged cfg tags then
       echo (BucketRow name (CreationDate bucket));;
       mret true
     else mret found)
    (except_ClientError (fun _ => mret found)).

Definition list : Prog unit :=
  try_except
    (response ← call list_buckets;
     echo BucketHeader;;
     echo (Rule 65);;
     found ← for_each response list_bucket false;
     if negb found then echo NoBuckets else mret tt)
    (except_Exception (fun e => echo_err (Error e))).

End WithConfig.
End S3.

(** ** route53.py *)

(** As in ec2.py, the commands are given from the statement after
    [get_route53_client()] on; [Rest.route53] is the command line in
    full. *)

Module Route53.
Section WithConfig.
Variable cfg : Config.

(** The change batch of [add_record] and [delete_record]: one change of a
    type-A record set with TTL 300 and the one value. *)
Definition change_batch (action full_record_name ip_address : string) : list Change :=
  [mkChange action (mkRRSet full_record_name "A" (Some 300%Z) [ip_address])].

(** The body of the loop of [list]: any exception of the tag fetch skips
    the zone. *)
Definition list_zone (zone : HostedZone) (found : bool) : Prog bool :=
  let zone_id := split_last "/" (ZoneId zone) in
  try_except
    (tags_resp ← call (list_tags_for_resource "hostedzone" zone_id);
     let tags := tags_dict tags_resp in
     if isManaged cfg tags then
       echo (ZoneRow zone_id (ZoneName zone) (ResourceRecordSetCount zone));;
       mret true
     else mret found)
    (except_Exception (fun _ => mret found)).

Definition list : Prog unit :=
  try_except
    (response ← call list_hosted_zones;
     echo ZoneHeader;;
     echo (Rule 60);;
     found ← for_each response list_zone false;
     if negb found then echo NoZones else mret tt)
    (except_Exception (fun e => echo_err (Error e))).

Definition add_record (zone_id subdomain ip_address : string) : Prog unit :=
  (* 1. check permissions *)
  allowed ← try_except
              (tags_resp ← call (list_tags_for_resource "hostedzone" zone_id);
               let tags := tags_dict tags_resp in
               if negb (isManaged cfg tags) then
                 echo_err (ZoneNotManaged zone_id);; mret false
               else mret true)
              (except_Exception (fun e => echo_err (PermissionCheckError e);; mret false));
  if negb allowed then mret tt
  else
    (* 2. the zone name, to build the full record name *)
    fqdn ← try_except
             (zone_name ← call (get_hosted_zone zone_id);
              mret (Some (subdomain ++ "." ++ zone_name)))
             (except_Exception (fun e => echo_err (ErrorFetchingZoneInfo e);; mret None));
    match fqdn with
    | None => mret tt
    | Some full_record_name =>
        echo (AddingRecord full_record_name ip_address);;
        (* 3. create the record *)
        try_except
          (call (change_resource_record_sets zone_id
                   (change_batch "UPSERT" full_record_name ip_address));;
           echo RecordAdded)
          (except_Exception (fun e => echo_err (AwsError e)))
    end.

Definition delete_record (zone_id subdomain ip_address : string) : Prog unit :=
  allowed ← try_except
              (tags_resp ← call (list_tags_for_resource "hostedzone" zone_id);
               let tags := tags_dict tags_resp in
               if negb (isManaged cfg tags) then
                 echo_err (ZoneNotManaged zone_id);; mret false
               else mret true)
              (except_Exception (fun e => echo_err (PermissionError e);; mret false));
  if negb allowed then mret tt
  else
    fqdn ← try_except
             (zone_name ← call (get_hosted_zone zone_id);
              mret (Some (subdomain ++ "." ++ zone_name)))
             (except_Exception (fun e => echo_err (ErrorFetchingZone e);; mret None));
    match fqdn with
    | None => mret tt
    | Some full_record_name =>
        echo (DeletingRecord full_record_name ip_address);;
        try_except
          (call (change_resource_record_sets zone_id
                   (change_batch "DELETE" full_record_name ip_address));;
           echo RecordDeleted)
          (except_Exception (fun e => echo_err (AwsError e)))
    end.

End WithConfig.
End Route53.

(** ** app.py *)

(** The script of the Streamlit front end runs from top to bottom on every
    interaction; each widget returns its current value.  The three service
    sections are modelled with their forms, listings and buttons.  Layout
    elements (headers, columns, expanders, spinners) carry no behaviour and
    are left out.  The zone creation form and the file upload are not in
    these sections: they need further effects and are embedded below, in
    [Rest], together with the script in full. *)

Module App.
Section WithConfig.
Variable cfg : Config.

(** [AWS_REGION = os.getenv('AWS_REGION', 'us-east-1')]. *)
Definition REGION : string := default "us-east-1" (AWS_REGION cfg).

(** [st.selectbox(label, options)]: the option at the chosen position.
    Streamlit keeps the position inside the options; a position outside
    is read as the first option.  Every selectbox of the script is given
    at least one option. *)
Definition selectbox (label : string) (options : list string) : Prog string :=
  i ← widget (St.selectbox label options);
  mret (default (default "" (head options)) (options !! i)).

(** [st.rerun()]: stops the run of the script. *)
Definition rerun {A} : Prog A := Raise RerunException.

Definition get_latest_ami : Prog string :=
  call (get_parameter "/aws/service/ami-amazon-linux-latest/amzn2-ami-hvm-x86_64-gp2").

(** *** EC2 section *)

Definition ec2_launch_form : Prog unit :=
  name ← widget (St.text_input "Server Name" "web-server");
  key_name ← widget (St.text_input "SSH Key Name" "edik");
  instance_type ← selectbox "Type" ["t3.micro"; "t3.small"];
  display (St.info "AMI will be retrieved automatically from SSM");;
  clicked ← widget (St.button "Launch Instance" None);
  if clicked : bool then
    try_except
      (ami_id ← get_latest_ami;
       call (run_instances ami_id instance_type key_name 1 1
               (mkTag "Name" name :: ownership_tags cfg));;
       display (St.success ("Instance '" ++ name ++ "' is launching!"));;
       rerun)
      (except_Exception (fun e => display (St.error ("Error: " ++ exn_str e))))
  else mret tt.

(** One row of [data], or nothing for a terminated instance. *)
Definition instance_entry (i : Instance) : option St.InstanceEntry :=
  if bool_decide (StateName i = "terminated") then None
  else
    let tags := tags_dict (default [] (Tags i)) in
    Some {| St.entry_ID := InstanceId i;
            St.entry_Name := default "Unknown" (tags !! "Name");
            St.entry_State := StateName i;
            St.entry_Type := InstanceType i;
            St.entry_IP := default "No IP" (PublicIpAddress i) |}.

(** [data] after the two nested loops. *)
Definition instance_data (reservations : list Reservation) : list St.InstanceEntry :=
  concat (map (fun r => omap instance_entry (Instances r)) reservations).

Definition ec2_instances : Prog unit :=
  try_except
    (response ← call (describe_instances [] [mkFilter "tag:CreatedBy" [TAG_CREATED_BY cfg]]);
     let data := instance_data response in
     if bool_decide (data ≠ []) then
       display (St.dataframe data);;
       (* management controls *)
       selected_id ← selectbox "Select ID to manage" (map St.entry_ID data);
       b1 ← widget (St.button "▶️ Start" None);
       (if b1 : bool then
          call (start_instances [selected_id]);;
          display (St.toast ("Starting " ++ selected_id ++ "..."))
        else mret tt);;
       b2 ← widget (St.button "tj Stop" None);
       (if b2 : bool then
          call (stop_instances [selected_id]);;
          display (St.toast ("Stopping " ++ selected_id ++ "..."))
        else mret tt);;
       b3 ← widget (St.button "🗑️ Terminate" None);
       (if b3 : bool then
          call (terminate_instances [selected_id]);;
          display (St.warning ("Instance " ++ selected_id ++ " is being terminated."));;
          rerun
        else mret tt)
     else display (St.info "No active instances found."))
    (except_Exception (fun e => display (St.error ("Error loading list: " ++ exn_str e)))).

Definition ec2_section : Prog unit :=
  ec2_launch_form;; ec2_instances.

(** *** S3 section *)

Definition s3_create_form : Prog unit :=
  b_name ← widget (St.text_input "Bucket Name (lowercase only!)" "");
  is_public ← widget (St.checkbox "Make Public? (Dangerous)");
  confirmed ← (if is_public : bool then
                 display (St.warning
                   "⚠️ Warning! Files will be accessible to the whole internet.");;
                 widget (St.checkbox "I understand the risks")
               else mret true);
  clicked ← widget (St.button "Create Bucket" None);
  if clicked : bool then
    if bool_decide (b_name = "") then display (St.error "Enter a name!")
    else if negb confirmed then display (St.error "Confirm public bucket creation.")
    else
      try_except
        ((if bool_decide (REGION = "us-east-1") then
            call (create_bucket b_name None)
          else
            call (create_bucket b_name (Some (Some REGION))));;
         call (put_bucket_tagging b_name (ownership_tags cfg));;
         (if is_public : bool then call (delete_public_access_block b_name)
          else call (put_public_access_block b_name true true true true));;
         display (St.success ("Bucket " ++ b_name ++ " created!"));;
         rerun)
        (except_Exception (fun e => display (St.error ("Error: " ++ exn_str e))))
  else mret tt.

(** The body of the bucket loop: any exception skips the bucket. *)
Definition s3_bucket (b : Bucket) (my_buckets : list string) : Prog (list string) :=
  try_except
    (tags ← call (get_bucket_tagging (BucketName b));
     let tag_dict := tags_dict tags in
     if isManaged cfg tag_dict then mret (my_buckets ++ [BucketName b])%list
     else mret my_buckets)
    (except_all (mret my_buckets)).

Definition s3_buckets : Prog unit :=
  try_except
    (resp ← call list_buckets;
     my_buckets ← for_each resp s3_bucket [];
     if bool_decide (my_buckets ≠ []) then
       selected_bucket ← selectbox "Select bucket to manage" my_buckets;
       mret tt
     else display (St.info "No buckets found."))
    (except_Exception (fun e => display (St.error ("Error: " ++ exn_str e)))).

Definition s3_section : Prog unit :=
  s3_create_form;; s3_buckets.

(** *** Route53 section *)

(** [d[k] = v] on a dictionary kept in insertion order: an existing key
    keeps its place and takes the new value. *)
Fixpoint dict_set (k v : string) (d : list (string * string)) : list (string * string) :=
  match d with
  | [] => [(k, v)]
  | (k', v') :: d' =>
      if bool_decide (k' = k) then (k, v) :: d' else (k', v') :: dict_set k v d'
  end.

(** [d[k]]. *)
Fixpoint dict_get (k : string) (d : list (string * string)) : option string :=
  match d with
  | [] => None
  | (k', v') :: d' => if bool_decide (k' = k) then Some v' else dict_get k d'
  end.

Definition subscript (d : list (string * string)) (k : string) : Prog string :=
  match dict_get k d with
  | Some v => mret v
  | None => Raise (Exception (mkExn KeyError k))
  end.

(** The body of the zone loop; the state is [(my_zones, table_data)]. *)
Definition route53_zone (z : HostedZone)
    (acc : list (string * string) * list St.ZoneEntry)
    : Prog (list (string * string) * list St.ZoneEntry) :=
  let zid := split_last "/" (ZoneId z) in
  let z_name := ZoneName z in
  try_except
    (t_resp ← call (list_tags_for_resource "hostedzone" zid);
     let tags := tags_dict t_resp in
     if isManaged cfg tags then
       mret (dict_set z_name zid acc.1,
             (acc.2 ++ [St.mkZoneEntry z_name zid (ResourceRecordSetCount z)])%list)
     else mret acc)
    (except_all (mret acc)).

Definition add_record_form (target_zone_name target_zone_id : string) : Prog unit :=
  sub ← widget (St.text_input "Subdomain" "www");
  ip ← widget (St.text_input "IP Address" "1.2.3.4");
  clicked ← widget (St.button "Add Record" None);
  if clicked : bool then
    let full_name := sub ++ "." ++ target_zone_name in
    try_except
      (call (change_resource_record_sets target_zone_id
               [mkChange "UPSERT" (mkRRSet full_name "A" (Some 300%Z) [ip])]);;
       display (St.success ("Added " ++ full_name ++ " -> " ++ ip));;
       rerun)
      (except_Exception (fun e => display (St.error ("Error: " ++ exn_str e))))
  else mret tt.

(** [rec['ResourceRecords']]: [KeyError] when the record set came without
    the key. *)
Definition resource_records (rec : RRSet) : Prog (list string) :=
  match ResourceRecords rec with
  | [] => Raise (Exception (mkExn KeyError "'ResourceRecords'"))
  | values => Ret values
  end.

(** The body of the loop over the A records: the record and its delete
    button, which sends the record back as it was listed. *)
Definition delete_record_row (target_zone_id : string) (rec : RRSet) (_ : unit)
    : Prog unit :=
  let r_name := RName rec in
  values ← resource_records rec;
  r_val ← first values;
  let r_ttl := default 300%Z (TTL rec) in
  display (St.text r_name);;
  display (St.text r_val);;
  clicked ← widget (St.button "🗑️ Delete" (Some r_name));
  if clicked : bool then
    try_except
      (call (change_resource_record_sets target_zone_id
               [mkChange "DELETE" (mkRRSet r_name "A" (Some r_ttl) [r_val])]);;
       display (St.warning ("Deleted " ++ r_name));;
       rerun)
      (except_Exception (fun e => display (St.error ("Error deleting: " ++ exn_str e))))
  else mret tt.

Definition delete_record_list (target_zone_id : string) : Prog unit :=
  try_except
    (records ← call (list_resource_record_sets target_zone_id);
     let a_records := filter (fun r => RType r = "A") records in
     if bool_decide (a_records ≠ []) then
       for_each a_records (delete_record_row target_zone_id) tt
     else display (St.info "No A-records found in this zone."))
    (except_Exception (fun e => display (St.error ("Error fetching records: " ++ exn_str e)))).

(** The part below the zone table: the choice of a zone, the form that adds
    a record and the list of records with their delete buttons. *)
Definition manage_records (my_zones : list (string * string)) : Prog unit :=
  target_zone_name ← selectbox "Select Zone" (map fst my_zones);
  target_zone_id ← subscript my_zones target_zone_name;
  add_record_form target_zone_name target_zone_id;;
  delete_record_list target_zone_id.

Definition route53_zones : Prog unit :=
  try_except
    (all_zones ← call list_hosted_zones;
     '(my_zones, table_data) ← for_each all_zones route53_zone ([], []);
     if bool_decide (table_data ≠ []) then
       display (St.table table_data);;
       manage_records my_zones
     else display (St.info "No zones found (checked tags)."))
    (except_Exception (fun e => display (St.error ("Error loading zones: " ++ exn_str e)))).

Definition route53_section : Prog unit := route53_zones.

(** *** The script *)

Definition app : Prog unit :=
  menu ← selectbox "Select Service" ["EC2 (Servers)"; "S3 (Storage)"; "Route53 (DNS)"];
  if bool_decide (menu = "EC2 (Servers)") then ec2_section
  else if bool_decide (menu = "S3 (Storage)") then s3_section
  else if bool_decide (menu = "Route53 (DNS)") then route53_section
  else mret tt.

End WithConfig.
End App.

(** ** The provider and the operator *)

(** The provider is outside the repository.  The commands rely on three of
    its rules, which this model states: [describe_instances] returns the
    instances that match every filter; an UPSERT change replaces the record
    set of the same name and type or creates it; a DELETE change removes a
    record set only when the request repeats it exactly (name, type, TTL and
    values) and is refused otherwise.  The rest of the model is the least
    that lets the commands run against a state. *)

Module Provider.

Record WInstance := mkWInstance {
  wi_id : string;
  wi_state : string;
  wi_type : string;
  wi_ip : option string;
  wi_tags : gmap string string
}.

(** A bucket; [wb_tagging] is what fetching its tags gives: the tags, or
    the failure (no tag set, access denied, a transport failure). *)
Record WBucket := mkWBucket {
  wb_name : string;
  wb_created : string;
  wb_tagging : Exn + gmap string string;
  wb_public_access_block : option (bool * bool * bool * bool)
}.

(** A hosted zone; [wz_tagging] as for buckets. *)
Record WZone := mkWZone {
  wz_id : string;
  wz_name : string;
  wz_tagging : Exn + gmap string string;
  wz_records : list RRSet
}.

Record World := mkWorld {
  instances : list WInstance;
  buckets : list WBucket;
  zones : list WZone;
  parameters : gmap string string
}.

Definition client_error (code : string) : Exn := mkExn ClientError code.

(** A tag map as the list of [{'Key', 'Value'}] of a response. *)
Definition tag_list (m : gmap string string) : list Tag :=
  (fun kv : string * string => mkTag kv.1 kv.2) <$> map_to_list m.

Definition describe (i : WInstance) : Instance :=
  {| InstanceId := wi_id i;
     StateName := wi_state i;
     InstanceType := wi_type i;
     PublicIpAddress := wi_ip i;
     Tags := if bool_decide (wi_tags i = ∅) then None else Some (tag_list (wi_tags i)) |}.

(** The filters the provider knows here: [tag:<key>] and
    [instance-state-name]. *)
Definition filter_tag_key (name : string) : option string :=
  if String.prefix "tag:" name
  then Some (String.substring 4 (String.length name - 4) name)
  else None.

Definition filter_known (f : Filter) : bool :=
  match filter_tag_key (FilterName f) with
  | Some _ => true
  | None => bool_decide (FilterName f = "instance-state-name")
  end.

Definition filter_matches (i : WInstance) (f : Filter) : bool :=
  match filter_tag_key (FilterName f) with
  | Some k =>
      match wi_tags i !! k with
      | Some v => bool_decide (v ∈ FilterValues f)
      | None => false
      end
  | None => bool_decide (wi_state i ∈ FilterValues f)
  end.

Definition selected (ids : list string) (fs : list Filter) (i : WInstance) : bool :=
  (bool_decide (ids = []) || bool_decide (wi_id i ∈ ids))
  && forallb (filter_matches i) fs.

Definition known_ids (w : World) (ids : list string) : bool :=
  forallb (fun id => bool_decide (id ∈ map wi_id (instances w))) ids.

Definition set_state (ids : list string) (next : string -> string) (w : World) : World :=
  {| instances :=
       map (fun i => if bool_decide (wi_id i ∈ ids)
                     then mkWInstance (wi_id i) (next (wi_state i)) (wi_type i)
                                      (wi_ip i) (wi_tags i)
                     else i) (instances w);
     buckets := buckets w; zones := zones w; parameters := parameters w |}.

Definition after_start (s : string) : string :=
  if bool_decide (s = "stopped") then "pending" else s.
Definition after_stop (s : string) : string :=
  if bool_decide (s = "running") || bool_decide (s = "pending") then "stopping" else s.
Definition after_terminate (s : string) : string :=
  if bool_decide (s = "terminated") then s else "shutting-down".

Definition find_bucket (w : World) (name : string) : option WBucket :=
  List.find (fun b => bool_decide (wb_name b = name)) (buckets w).

Definition update_bucket (name : string) (f : WBucket -> WBucket) (w : World) : World :=
  {| instances := instances w;
     buckets := map (fun b => if bool_decide (wb_name b = name) then f b else b) (buckets w);
     zones := zones w; parameters := parameters w |}.

Definition find_zone (w : World) (id : string) : option WZone :=
  List.find (fun z => bool_decide (wz_id z = id)) (zones w).

Definition set_records (id : string) (rs : list RRSet) (w : World) : World :=
  {| instances := instances w; buckets := buckets w;
     zones := map (fun z => if bool_decide (wz_id z = id)
                            then mkWZone (wz_id z) (wz_name z) (wz_tagging z) rs
                            else z) (zones w);
     parameters := parameters w |}.

(** Two record sets are the same record when name and type agree. *)
Definition same_record (a b : RRSet) : bool :=
  bool_decide (RName a = RName b) && bool_decide (RType a = RType b).

(** The record sets after an UPSERT of [rr]: [rr] takes the place of the
    record set of its name and type, if there is one. *)
Definition upserted (rr : RRSet) (rs : list RRSet) : list RRSet :=
  (List.filter (fun r => negb (same_record r rr)) rs ++ [rr])%list.

Definition apply_change (rs : list RRSet) (ch : Change) : Exn + list RRSet :=
  let rr := ResourceRecordSet ch in
  if bool_decide (Action ch = "UPSERT") then
    inr (upserted rr rs)
  else if bool_decide (Action ch = "DELETE") then
    if bool_decide (rr ∈ rs)
    then inr (List.filter (fun r => negb (bool_decide (r = rr))) rs)
    else inl (client_error "InvalidChangeBatch")
  else if bool_decide (Action ch = "CREATE") then
    if existsb (fun r => same_record r rr) rs
    then inl (client_error "InvalidChangeBatch")
    else inr (rs ++ [rr])%list
  else inl (client_error "InvalidInput").

(** A batch is applied as a whole or not at all. *)
Fixpoint apply_changes (rs : list RRSet) (chs : list Change) : Exn + list RRSet :=
  match chs with
  | [] => inr rs
  | ch :: chs' =>
      match apply_change rs ch with
      | inl e => inl e
      | inr rs' => apply_changes rs' chs'
      end
  end.

Definition tagging_response (t : Exn + gmap string string) : Exn + list Tag :=
  match t with
  | inl e => inl e
  | inr m => inr (tag_list m)
  end.

(** The provider's answer to a call and the state it leaves. *)
Definition api (w : World) (c : ApiCall) : (Exn + Response c) * World :=
  match c return (Exn + Response c) * World with
  | describe_instances ids fs =>
      if negb (known_ids w ids) then (inl (client_error "InvalidInstanceID.NotFound"), w)
      else if negb (forallb filter_known fs) then
        (inl (client_error "InvalidParameterValue"), w)
      else
        (inr (map (fun i => mkReservation [describe i])
                (List.filter (selected ids fs) (instances w))), w)
  | run_instances ami ty key _ _ tags =>
      let i := mkWInstance ("i-" ++ pretty (length (instances w))) "pending" ty None
                 (tags_dict tags) in
      (inr [describe i],
       {| instances := (instances w ++ [i])%list; buckets := buckets w;
          zones := zones w; parameters := parameters w |})
  | start_instances ids =>
      if known_ids w ids then (inr tt, set_state ids after_start w)
      else (inl (client_error "InvalidInstanceID.NotFound"), w)
  | stop_instances ids =>
      if known_ids w ids then (inr tt, set_state ids after_stop w)
      else (inl (client_error "InvalidInstanceID.NotFound"), w)
  | terminate_instances ids =>
      if known_ids w ids then (inr tt, set_state ids after_terminate w)
      else (inl (client_error "InvalidInstanceID.NotFound"), w)
  | get_parameter name =>
      match parameters w !! name with
      | Some v => (inr v, w)
      | None => (inl (client_error "ParameterNotFound"), w)
      end
  | list_buckets =>
      (inr (map (fun b => mkBucket (wb_name b) (wb_created b)) (buckets w)), w)
  | get_bucket_tagging name =>
      match find_bucket w name with
      | Some b => (tagging_response (wb_tagging b), w)
      | None => (inl (client_error "NoSuchBucket"), w)
      end
  | create_bucket name loc =>
      match loc, find_bucket w name with
      | Some None, _ => (inl (mkExn BotoCoreError "Parameter validation failed"), w)
      | _, Some _ => (inl (client_error "BucketAlreadyOwnedByYou"), w)
      | _, None =>
          (inr tt,
           {| instances := instances w;
              buckets := (buckets w ++ [mkWBucket name "" (inl (client_error "NoSuchTagSet"))
                                          (Some (true, true, true, true))])%list;
              zones := zones w; parameters := parameters w |})
      end
  | put_bucket_tagging name tags =>
      match find_bucket w name with
      | Some _ =>
          (inr tt, update_bucket name
                     (fun b => mkWBucket (wb_name b) (wb_created b) (inr (tags_dict tags))
                                         (wb_public_access_block b)) w)
      | None => (inl (client_error "NoSuchBucket"), w)
      end
  | delete_public_access_block name =>
      match find_bucket w name with
      | Some _ =>
          (inr tt, update_bucket name
                     (fun b => mkWBucket (wb_name b) (wb_created b) (wb_tagging b) None) w)
      | None => (inl (client_error "NoSuchBucket"), w)
      end
  | put_public_access_block name b1 b2 b3 b4 =>
      match find_bucket w name with
      | Some _ =>
          (inr tt, update_bucket name
                     (fun b => mkWBucket (wb_name b) (wb_created b) (wb_tagging b)
                                         (Some (b1, b2, b3, b4))) w)
      | None => (inl (client_error "NoSuchBucket"), w)
      end
  | list_hosted_zones =>
      (inr (map (fun z => mkHostedZone ("/hostedzone/" ++ wz_id z) (wz_name z)
                            (length (wz_records z))) (zones w)), w)
  | list_tags_for_resource ty id =>
      if negb (bool_decide (ty = "hostedzone")) then (inl (client_error "InvalidInput"), w)
      else
        match find_zone w id with
        | Some z => (tagging_response (wz_tagging z), w)
        | None => (inl (client_error "NoSuchHostedZone"), w)
        end
  | get_hosted_zone id =>
      match find_zone w id with
      | Some z => (inr (wz_name z), w)
      | None => (inl (client_error "NoSuchHostedZone"), w)
      end
  | change_resource_record_sets id chs =>
      match find_zone w id with
      | Some z =>
          match apply_changes (wz_records z) chs with
          | inl e => (inl e, w)
          | inr rs => (inr tt, set_records id rs w)
          end
      | None => (inl (client_error "NoSuchHostedZone"), w)
      end
  | list_resource_record_sets id =>
      match find_zone w id with
      | Some z => (inr (wz_records z), w)
      | None => (inl (client_error "NoSuchHostedZone"), w)
      end
  end.

(** The operator: how prompts are answered and what the widgets hold. *)
Record Operator := mkOperator {
  op_state : Type;
  op_confirm : op_state -> string -> bool * op_state;
  op_widget : op_state -> forall w : St.Widget, St.WidgetValue w * op_state
}.

(** The provider and an operator together. *)
Definition system_step (O : Operator) (s : World * op_state O) (ev : Event)
    : Answer ev * (World * op_state O) :=
  match ev return Answer ev * (World * op_state O) with
  | Api c => let '(a, w') := api s.1 c in (a, (w', s.2))
  | Echo _ _ => (tt, s)
  | Confirm p => let '(b, o') := op_confirm O s.2 p in (b, (s.1, o'))
  | Widget wd => let '(v, o') := op_widget O s.2 wd in (v, (s.1, o'))
  | Display _ => (tt, s)
  end.

Definition system (O : Operator) : Env :=
  {| env_state := World * op_state O; env_step := system_step O |}.

(** An operator who gives the same reply to every prompt and leaves every
    widget at rest: first option, empty field, box unticked, no click. *)
Definition replying (reply : bool) : Operator :=
  {| op_state := unit;
     op_confirm := fun _ _ => (reply, tt);
     op_widget := fun _ w =>
       match w return St.WidgetValue w * unit with
       | St.selectbox _ _ => (0, tt)
       | St.text_input _ v => (v, tt)
       | St.checkbox _ => (false, tt)
       | St.button _ _ => (false, tt)
       end |}.

End Provider.

(** ** Notions used in the statements *)

Module Notions.
Import Provider.

(** The three commands on an existing instance and the provider call each
    one ends with. *)
Inductive InstanceOp := Start | Stop | Terminate.

Definition instance_command (cfg : Config) (op : InstanceOp) : string -> Prog unit :=
  match op with
  | Start => Ec2.start cfg
  | Stop => Ec2.stop cfg
  | Terminate => Ec2.terminate cfg
  end.

Definition instance_call (op : InstanceOp) (ids : list string) : ApiCall :=
  match op with
  | Start => start_instances ids
  | Stop => stop_instances ids
  | Terminate => terminate_instances ids
  end.

(** The two commands on the records of an existing zone. *)
Inductive RecordOp := AddRecord | DeleteRecord.

Definition record_command (cfg : Config) (op : RecordOp)
    : string -> string -> string -> Prog unit :=
  match op with
  | AddRecord => Route53.add_record cfg
  | DeleteRecord => Route53.delete_record cfg
  end.

(** The tags the code reads off a described instance. *)
Definition instance_tags (i : Instance) : gmap string string :=
  tags_dict (default [] (Tags i)).

(** The event shows the zone table of the web page. *)
Definition is_table (ev : Event) : Prop := exists data, ev = Display (St.table data).

(** The event changes the records of a zone outside [allowed]. *)
Definition changes_zone_outside (allowed : list string) (ev : Event) : Prop :=
  exists zid chs, ev = Api (Boto.change_resource_record_sets zid chs) /\ (zid ∉ allowed).

(** No message of the trace went to the error stream. *)
Definition no_error_echo (t : Trace) : Prop :=
  Forall (fun em : bool * Msg => em.1 = false) (echoes t).

(** The state of the provider after a command ran against it. *)
Definition world_after {A} (O : Operator) (p : Prog A) (s : World * op_state O) : World :=
  (final_state (system O) p s).1.

(** *** The instance limit *)

(** The states the limit check asks for. *)
Definition counted_states : list string := ["running"; "pending"; "stopping"; "stopped"].

(** An instance counts toward the limit: it carries the configured
    [CreatedBy] value and is in a counted state. *)
Definition counts_toward_cap (cfg : Config) (i : WInstance) : bool :=
  isManaged cfg (wi_tags i) && bool_decide (wi_state i ∈ counted_states).

Definition cap_count (cfg : Config) (w : World) : nat :=
  length (List.filter (counts_toward_cap cfg) (instances w)).

(** The instance with its [Owner] tag rewritten, or removed. *)
Definition with_owner (owner : option string) (i : WInstance) : WInstance :=
  mkWInstance (wi_id i) (wi_state i) (wi_type i) (wi_ip i)
    (match owner with
     | Some o => <["Owner":=o]> (wi_tags i)
     | None => delete "Owner" (wi_tags i)
     end).

(** The world with the [Owner] tag of every instance rewritten. *)
Definition reowned (owners : WInstance -> option string) (w : World) : World :=
  mkWorld (map (fun i => with_owner (owners i) i) (instances w))
          (buckets w) (zones w) (parameters w).

(** *** Listings *)

(** The instance is not in the terminated state. *)
Definition alive (i : WInstance) : bool :=
  negb (bool_decide (wi_state i = "terminated")).

(** The listing shows an instance: managed and not terminated. *)
Definition instance_listed (cfg : Config) (i : WInstance) : bool :=
  isManaged cfg (wi_tags i) && alive i.

Definition instance_row (i : WInstance) : bool * Msg :=
  (false, InstanceRow (wi_id i) (default "Unknown" (wi_tags i !! "Name"))
            (wi_state i) (wi_type i) (default "N/A" (wi_ip i))).

(** A bucket and a zone as [list_buckets] and [list_hosted_zones] of the
    provider return them. *)
Definition bucket_of (b : WBucket) : Bucket := mkBucket (wb_name b) (wb_created b).

Definition zone_of (z : WZone) : HostedZone :=
  mkHostedZone ("/hostedzone/" ++ wz_id z) (wz_name z) (length (wz_records z)).

(** A bucket is listed when the fetch of its own tags succeeds and the tags
    are managed. *)
Definition bucket_listed (cfg : Config) (w : World) (b : WBucket) : bool :=
  match (api w (get_bucket_tagging (wb_name b))).1 with
  | inr tags => isManaged cfg (tags_dict tags)
  | inl _ => false
  end.

Definition bucket_row (b : WBucket) : bool * Msg :=
  (false, BucketRow (wb_name b) (wb_created b)).

(** The identifier the zone listing derives from the zone's [Id]. *)
Definition zone_ref (z : WZone) : string :=
  split_last "/" ("/hostedzone/" ++ wz_id z).

(** A zone is listed when the fetch of its own tags succeeds and the tags
    are managed. *)
Definition zone_listed (cfg : Config) (w : World) (z : WZone) : bool :=
  match (api w (list_tags_for_resource "hostedzone" (zone_ref z))).1 with
  | inr tags => isManaged cfg (tags_dict tags)
  | inl _ => false
  end.

Definition zone_row (z : WZone) : bool * Msg :=
  (false, ZoneRow (zone_ref z) (wz_name z) (length (wz_records z))).

(** The rows of a listing, or the one line that says there are none. *)
Definition rows_or (none : Msg) (rows : list (bool * Msg)) : list (bool * Msg) :=
  match rows with
  | [] => [(false, none)]
  | _ => rows
  end.

(** Every failure of a bucket's tag fetch is an error response of the
    provider. *)
Definition tag_fetches_fail_as_ClientError (w : World) : Prop :=
  forall b e, b ∈ buckets w ->
    (api w (get_bucket_tagging (wb_name b))).1 = inl e -> exn_class e = ClientError.

(** *** Records *)

Definition records_of (w : World) (zone_id : string) : list RRSet :=
  match find_zone w zone_id with
  | Some z => wz_records z
  | None => []
  end.

(** Name and type identify a record of the zone. *)
Definition unique_records (rs : list RRSet) : Prop :=
  forall r1 r2, r1 ∈ rs -> r2 ∈ rs -> same_record r1 r2 = true -> r1 = r2.

(** The type-A record set of one value. *)
Definition a_record (name : string) (ttl : Z) (value : string) : RRSet :=
  mkRRSet name "A" (Some ttl) [value].

(** *** Concrete situations *)

(** The configuration when the environment sets only the region: the two
    tags take their defaults, [platform-cli] and [student]. *)
Definition cfg0 : Config := config_of_environ {[ "AWS_REGION" := "eu-west-1" ]}.

Definition tags_of (owner name : string) : gmap string string :=
  <["CreatedBy":="platform-cli"]> (<["Owner":=owner]> (<["Name":=name]> ∅)).

(** Two running instances of the tool, launched by another user. *)
Definition two_running : World :=
  mkWorld [mkWInstance "i-1" "running" "t3.micro" None (tags_of "alice" "web");
           mkWInstance "i-2" "stopped" "t3.small" None (tags_of "alice" "db")]
          [] [] ∅.

(** The same, with the image parameter set. *)
Definition two_running_with_image : World :=
  mkWorld (instances two_running) [] []
    {[ "/aws/service/ami-amazon-linux-latest/amzn2-ami-hvm-x86_64-gp2" := "ami-0abc" ]}.

(** One managed instance and one instance of somebody else. *)
Definition one_managed : World :=
  mkWorld [mkWInstance "i-1" "running" "t3.micro" None (tags_of "student" "web");
           mkWInstance "i-9" "running" "t3.micro" None (<["Name":="payroll"]> ∅)]
          [] [] ∅.

(** Four buckets: the tag fetch of the second is refused by the provider,
    that of the third fails in transport. *)
Definition four_buckets : World :=
  mkWorld []
    [mkWBucket "logs" "2024-01-01" (inr (tags_of "student" "logs")) None;
     mkWBucket "untagged" "2024-01-02" (inl (client_error "NoSuchTagSet")) None;
     mkWBucket "far" "2024-01-03" (inl (mkExn BotoCoreError "Connect timeout")) None;
     mkWBucket "site" "2024-01-04" (inr (tags_of "student" "site")) None]
    [] ∅.

(** The same without the bucket whose fetch fails in transport. *)
Definition three_buckets : World :=
  mkWorld []
    [mkWBucket "logs" "2024-01-01" (inr (tags_of "student" "logs")) None;
     mkWBucket "untagged" "2024-01-02" (inl (client_error "NoSuchTagSet")) None;
     mkWBucket "site" "2024-01-04" (inr (tags_of "student" "site")) None]
    [] ∅.

(** A managed zone with one record whose TTL is 60. *)
Definition one_zone : World :=
  mkWorld [] []
    [mkWZone "Z1" "example.com." (inr (tags_of "student" "zone"))
       [a_record "api.example.com." 60 "10.0.0.1"]]
    ∅.

(** An operator of the web page who clicks one button and leaves the other
    widgets at rest. *)
Definition clicking (label : string) : Operator :=
  {| op_state := unit;
     op_confirm := fun _ _ => (false, tt);
     op_widget := fun _ w =>
       match w return St.WidgetValue w * unit with
       | St.selectbox _ _ => (0, tt)
       | St.text_input _ v => (v, tt)
       | St.checkbox _ => (false, tt)
       | St.button l _ => (bool_decide (l = label), tt)
       end |}.

End Notions.
Export Notions.

(** ** Further notions *)

(** The event is a provider call that creates, changes or deletes. *)
Definition mutates (ev : Event) : Prop := exists c, ev = Api c /\ is_mutating c = true.

(** The command makes no mutating call as long as no button is clicked:
    after a button only the run in which it was not clicked is followed. *)
Inductive Idle {A} : Prog A -> Prop :=
| Idle_Ret a : Idle (Ret a)
| Idle_Raise r : Idle (Raise r)
| Idle_button label key k :
    Idle (k false) -> Idle (Vis (Widget (St.button label key)) k)
| Idle_Vis ev k : ~ mutates ev -> (forall a, Idle (k a)) -> Idle (Vis ev k).

(** The zone the web page manages under a name: the last row of that name
    in its table. *)
Definition zone_under (name : string) (table : list St.ZoneEntry) : option string :=
  St.entry_ZoneID <$> last (filter (fun e => St.entry_Domain e = name) table).

(** No button of the run was clicked. *)
Definition no_click (t : Trace) : Prop :=
  forall label key, existT (Widget (St.button label key)) true ∉ t.

Module Effects.
Import Provider.

(** The instance the provider starts for a launch request. *)
Definition launched (w : World) (instance_type : string) (tags : list Tag) : WInstance :=
  mkWInstance ("i-" ++ pretty (length (instances w))) "pending" instance_type None
    (tags_dict tags).

(** The world with one more instance. *)
Definition with_instance (i : WInstance) (w : World) : World :=
  mkWorld (instances w ++ [i]) (buckets w) (zones w) (parameters w).

(** The state an instance command asks the provider to move an instance to. *)
Definition next_state (op : InstanceOp) : string -> string :=
  match op with
  | Start => after_start
  | Stop => after_stop
  | Terminate => after_terminate
  end.

(** The rows of the web page for an instance and for a zone of the
    provider. *)
Definition instance_entry_of (i : WInstance) : St.InstanceEntry :=
  St.mkInstanceEntry (wi_id i) (default "Unknown" (wi_tags i !! "Name")) (wi_state i)
    (wi_type i) (default "No IP" (wi_ip i)).

Definition zone_entry_of (z : WZone) : St.ZoneEntry :=
  St.mkZoneEntry (wz_name z) (zone_ref z) (length (wz_records z)).



(** The provider calls of a bucket creation, in order. *)
Definition create_steps (cfg : Config) (bucket_name : string) (public : bool)
    : list ApiCall :=
  [create_bucket bucket_name
     (if bool_decide (AWS_REGION cfg = Some "us-east-1") then None
      else Some (AWS_REGION cfg));
   put_bucket_tagging bucket_name (ownership_tags cfg);
   if public then delete_public_access_block bucket_name
   else put_public_access_block bucket_name true true true true].

(** The line a record command prints when a provider call fails: each of
    its three steps has its own. *)
Definition failure_message (op : RecordOp) (c : ApiCall) (e : Exn) : Msg :=
  match c, op with
  | list_tags_for_resource _ _, AddRecord => PermissionCheckError e
  | list_tags_for_resource _ _, DeleteRecord => PermissionError e
  | get_hosted_zone _, AddRecord => ErrorFetchingZoneInfo e
  | get_hosted_zone _, DeleteRecord => ErrorFetchingZone e
  | _, _ => AwsError e
  end.

(** The action of the one change a record command sends. *)
Definition record_action (op : RecordOp) : string :=
  match op with AddRecord => "UPSERT" | DeleteRecord => "DELETE" end.

End Effects.
Export Effects.

(** ** Further situations *)

Module Cases.
Import Provider.

(** No endpoint can be reached: every provider call fails in transport.
    Prompts are answered yes and the widgets are at rest. *)
Definition unreachable_step (s : unit) (ev : Event) : Answer ev * unit :=
  match ev return Answer ev * unit with
  | Api c => (inl (mkExn BotoCoreError "Could not connect to the endpoint URL"), tt)
  | Echo _ _ => (tt, tt)
  | Confirm _ => (true, tt)
  | Widget w =>
      (match w return St.WidgetValue w with
       | St.selectbox _ _ => 0
       | St.text_input _ v => v
       | St.checkbox _ => false
       | St.button _ _ => false
       end, tt)
  | Display _ => (tt, tt)
  end.

Definition unreachable : Env := mkEnv unit unreachable_step.

(** One managed instance running, and the image parameter set. *)
Definition one_running_with_image : World :=
  mkWorld [mkWInstance "i-0" "running" "t3.micro" None (tags_of "student" "web")]
    [] []
    {[ "/aws/service/ami-amazon-linux-latest/amzn2-ami-hvm-x86_64-gp2" := "ami-0abc" ]}.

(** An operator of the web page who writes [value] into every text field,
    clicks the button [label] and leaves the boxes unticked. *)
Definition filling (value label : string) : Operator :=
  {| op_state := unit;
     op_confirm := fun _ _ => (false, tt);
     op_widget := fun _ w =>
       match w return St.WidgetValue w * unit with
       | St.selectbox _ _ => (0, tt)
       | St.text_input _ _ => (value, tt)
       | St.checkbox _ => (false, tt)
       | St.button l _ => (bool_decide (l = label), tt)
       end |}.

(** A managed zone with an alias record, which has no values of its own,
    between two plain records. *)
Definition zone_with_alias : World :=
  mkWorld [] []
    [mkWZone "Z2" "example.com." (inr (tags_of "student" "zone"))
       [a_record "www.example.com." 300 "1.2.3.4";
        mkRRSet "cdn.example.com." "A" None [];
        a_record "api.example.com." 300 "5.6.7.8"]]
    ∅.

(** The configuration when the environment sets nothing. *)
Definition cfg_unset : Config := config_of_environ ∅.

End Cases.
Export Cases.

(** ** The commands and forms that reach further *)

(** [info] of main.py, [upload] of s3.py, [create_zone] of route53.py, and
    the zone creation form and the file upload of app.py call services, the
    clock and the file system, which the events above do not cover.  They
    are embedded as scripts over a larger set of effects, which holds the
    events above; a command above becomes a script by [lift].

    The larger set also holds the construction of a client.  Every command
    of ec2.py, s3.py and route53.py begins with it ([get_ec2_client()] and
    the like), outside any [try]: the definitions above are the commands
    from the next statement on, and [ec2], [s3] and [route53] below are the
    commands as a command line runs them, construction first. *)

Module Rest.

(** What [st.file_uploader] returns when a file was chosen. *)
Record UploadedFile := mkUploadedFile { file_name : string; file_data : string }.

#[global] Instance UploadedFile_eq_dec : EqDecision UploadedFile.
Proof. solve_decision. Defined.

(** The client methods these commands invoke, with their keyword
    arguments. *)
Inductive Request :=
| get_caller_identity
| upload_file (Filename Bucket Key : string)
| upload_fileobj (Fileobj : UploadedFile) (Bucket Key : string)
| create_hosted_zone (Name CallerReference : string)
                     (HostedZoneConfig : option (string * bool))
| change_tags_for_resource (ResourceType ResourceId : string) (AddTags : list Tag).

#[global] Instance Request_eq_dec : EqDecision Request.
Proof. solve_decision. Defined.

(** The part of each response the code reads. *)
Definition Reply (c : Request) : Type :=
  match c with
  | get_caller_identity => (string * string)%type  (* ['Account'], ['Arn'] *)
  | create_hosted_zone _ _ _ => string              (* ['HostedZone']['Id'] *)
  | _ => unit
  end.

(** The lines these commands print. *)
Inductive Line :=
(* main.py *)
| ConnectionSuccessful
| AccountId (account : string)
| UserArn (arn : string)
| CurrentTagConfiguration
| CreatedByLine (value : option string)
| OwnerLine (value : option string)
| ConnectionFailed
| ExceptionText (e : Exn)
(* s3.py, upload *)
| FileNotFound (file_path : string)
| Uploading (file_name : string)
| FileUploaded
(* route53.py, create_zone *)
| CreatingZone (domain_name : string)
| ZoneCreated (clean_zone_id : string)
| TagsAdded.

#[global] Instance Line_eq_dec : EqDecision Line.
Proof. solve_decision. Defined.



Inductive Effect :=
| Known (ev : Event)               (* an event of the commands above *)
| MakeClient (service : string)    (* boto3.client(service, ...) *)
| Ask (c : Request)                (* a method of a boto3 client *)
| Say (err : bool) (m : Line)      (* click.echo(m, err=err) *)
| PathExists (path : string)       (* os.path.exists(path) *)
| Clock                            (* int(time.time()) *)
| FileUploader (label : string).   (* st.file_uploader(label) *)

#[global] Instance Effect_eq_dec : EqDecision Effect.
Proof. solve_decision. Defined.

Definition Outcome (ef : Effect) : Type :=
  match ef with
  | Known ev => Answer ev
  | MakeClient _ => (Exn + unit)%type
  | Ask c => (Exn + Reply c)%type
  | Say _ _ => unit
  | PathExists _ => bool
  | Clock => Z
  | FileUploader _ => option UploadedFile
  end.

Inductive Script (A : Type) : Type :=
| Done (a : A)
| Throw (r : Raised)
| Do (ef : Effect) (k : Outcome ef -> Script A).

Arguments Done {A} a.
Arguments Throw {A} r.
Arguments Do {A} ef k.

Fixpoint and_then {A B} (p : Script A) (f : A -> Script B) : Script B :=
  match p with
  | Done a => f a
  | Throw r => Throw r
  | Do ef k => Do ef (fun a => and_then (k a) f)
  end.

#[global] Instance Script_ret : MRet Script := @Done.
#[global] Instance Script_bind : MBind Script := fun A B f p => and_then p f.

(** [try: body / except ...: ...]. *)
Fixpoint attempt {A} (body : Script A) (clause : Raised -> option (Script A)) : Script A :=
  match body with
  | Done a => Done a
  | Throw r => match clause r with Some handler => handler | None => Throw r end
  | Do ef k => Do ef (fun a => attempt (k a) clause)
  end.

(** [except Exception as e: handler e]. *)
Definition on_Exception {A} (handler : Exn -> Script A) (r : Raised) : option (Script A) :=
  match r with
  | Exception e => Some (handler e)
  | RerunException => None
  end.

(** A command above as a script. *)
Fixpoint lift {A} (p : Prog A) : Script A :=
  match p with
  | Ret a => Done a
  | Raise r => Throw r
  | Vis ev k => Do (Known ev) (fun a => lift (k a))
  end.

(** [boto3.client(service, ...)]: the client, or the exception raised (no
    region, a region that is no region, one key without the other). *)
Definition make_client (service : string) : Script unit :=
  Do (MakeClient service)
     (fun a => match a with inl e => Throw (Exception e) | inr _ => Done tt end).

(** A command above as a command line runs it: the client first. *)
Definition with_client {A} (service : string) (body : Prog A) : Script A :=
  Do (MakeClient service)
     (fun a => match a with inl e => Throw (Exception e) | inr _ => lift body end).

Definition ask (c : Request) : Script (Reply c) :=
  Do (Ask c) (fun a => match a with inl e => Throw (Exception e) | inr r => Done r end).

Definition say (m : Line) : Script unit := Do (Say false m) Done.
Definition say_err (m : Line) : Script unit := Do (Say true m) Done.
Definition path_exists (path : string) : Script bool := Do (PathExists path) Done.
Definition time : Script Z := Do Clock Done.
Definition file_uploader (label : string) : Script (option UploadedFile) :=
  Do (FileUploader label) Done.

(** [os.path.basename(path)]: what follows the last slash. *)
Definition basename (path : string) : string := split_last "/" path.

(** ['/' in s]. *)
Definition has_slash (s : string) : bool :=
  existsb (fun c => bool_decide (c = "/"%char)) (list_ascii_of_string s).

(** *** Running a script *)

Record Setting := mkSetting {
  setting_state : Type;
  setting_step : setting_state -> forall ef : Effect, Outcome ef * setting_state
}.

Definition Item : Type := { ef : Effect & Outcome ef }.
Definition Log : Type := list Item.

Fixpoint perform {A} (G : Setting) (p : Script A) (s : setting_state G)
    : Log * (Raised + A) * setting_state G :=
  match p with
  | Done a => ([], inr a, s)
  | Throw r => ([], inl r, s)
  | Do ef k =>
      let '(a, s1) := setting_step G s ef in
      let '(t, r, s2) := perform G (k a) s1 in
      (existT ef a :: t, r, s2)
  end.

Definition log_of {A} (G : Setting) (p : Script A) (s : setting_state G) : Log :=
  (perform G p s).1.1.

(** How a script ends: its value, or what it raises. *)
Definition result_of {A} (G : Setting) (p : Script A) (s : setting_state G) : Raised + A :=
  (perform G p s).1.2.

(** The requests of a log, in order. *)
Definition asks (t : Log) : list Request :=
  omap (fun it : Item => match projT1 it with Ask c => Some c | _ => None end) t.

(** The lines said, with their [err] flag. *)
Definition says (t : Log) : list (bool * Line) :=
  omap (fun it : Item => match projT1 it with Say err m => Some (err, m) | _ => None end) t.

(** The events of the commands above in a log, as a trace. *)
Definition known (t : Log) : Trace :=
  omap (fun it : Item =>
          match projT1 it as ef return Outcome ef -> option Entry with
          | Known ev => fun a => Some (existT ev a)
          | _ => fun _ => None
          end (projT2 it)) t.

(** An entry of a trace as an item of a log. *)
Definition known_item (en : Entry) : Item := existT (Known (projT1 en)) (projT2 en).

(** The setting as the commands above meet it. *)
Definition env_of (G : Setting) : Env :=
  mkEnv (setting_state G) (fun s ev => setting_step G s (Known ev)).

(** The effect sends something out: a request, or a provider call that
    creates, changes or deletes. *)
Definition sends (ef : Effect) : Prop :=
  match ef with
  | Ask _ => True
  | Known ev => mutates ev
  | _ => False
  end.

(** The script sends nothing as long as no button is clicked: after a
    button only the run in which it was not clicked is followed. *)
Inductive Quiet {A} : Script A -> Prop :=
| Quiet_Done a : Quiet (Done a)
| Quiet_Throw r : Quiet (Throw r)
| Quiet_button label key k :
    Quiet (k false) -> Quiet (Do (Known (Widget (St.button label key))) k)
| Quiet_Do ef k : ~ sends ef -> (forall a, Quiet (k a)) -> Quiet (Do ef k).

(** The effect asks the provider for a new instance. *)
Definition launches (ef : Effect) : Prop :=
  exists ami ty key mn mx tags, ef = Known (Api (run_instances ami ty key mn mx tags)).

(** No run of the script performs an effect of the kind [P]. *)
Inductive Avoids (P : Effect -> Prop) {A} : Script A -> Prop :=
| Avoids_Done a : Avoids P (Done a)
| Avoids_Throw r : Avoids P (Throw r)
| Avoids_Do ef k : ~ P ef -> (forall a, Avoids P (k a)) -> Avoids P (Do ef k).

(** *** main.py *)

(** [info]: [environ] is the process environment after [load_dotenv]. *)
Definition info (environ : gmap string string) : Script unit :=
  attempt
    (identity ← ask get_caller_identity;
     say ConnectionSuccessful;;
     say (AccountId identity.1);;
     say (UserArn identity.2);;
     (* the current tag configuration *)
     lift (echo (Rule 20));;
     say CurrentTagConfiguration;;
     say (CreatedByLine (environ !! "TAG_CREATED_BY"));;
     say (OwnerLine (environ !! "TAG_OWNER")))
    (on_Exception (fun e => say_err ConnectionFailed;; say_err (ExceptionText e))).

Section WithConfig.
Variable cfg : Config.

(** *** s3.py, upload *)

Definition upload (bucket_name file_path : string) : Script unit :=
  make_client "s3";;
  found ← path_exists file_path;
  if negb found then say_err (FileNotFound file_path)
  else
    attempt
      (let file_name := basename file_path in
       say (Uploading file_name);;
       ask (upload_file file_path bucket_name file_name);;
       say FileUploaded)
      (on_Exception (fun e => lift (echo_err (AwsError e)))).

(** *** route53.py, create_zone *)

Definition create_zone (domain_name : string) : Script unit :=
  make_client "route53";;
  now ← time;
  let caller_ref := domain_name ++ "-" ++ pretty now in
  say (CreatingZone domain_name);;
  attempt
    (zone_id ← ask (create_hosted_zone domain_name caller_ref
                      (Some ("Managed by platform-cli", false)));
     let clean_zone_id := split_last "/" zone_id in
     say (ZoneCreated clean_zone_id);;
     ask (change_tags_for_resource "hostedzone" clean_zone_id (ownership_tags cfg));;
     say TagsAdded)
    (on_Exception (fun e => lift (echo_err (AwsError e)))).

(** *** app.py, the zone creation form *)

Definition create_zone_form : Script unit :=
  domain ← lift (widget (St.text_input "Domain (e.g., project.com)" ""));
  clicked ← lift (widget (St.button "Create Zone" None));
  if clicked : bool then
    now ← time;
    let ref := domain ++ "-" ++ pretty now in
    attempt
      (res ← ask (create_hosted_zone domain ref None);
       let zid := split_last "/" res in
       if bool_decide (zid ≠ "") then
         ask (change_tags_for_resource "hostedzone" zid (ownership_tags cfg));;
         lift (display (St.success ("Zone " ++ domain ++ " created!")));;
         lift App.rerun
       else lift (display (St.error "Zone created but no ID returned.")))
      (on_Exception (fun e => lift (display (St.error ("Error: " ++ exn_str e)))))
  else mret tt.

(** *** app.py, the bucket list with the file upload *)

(** The button is asked for only when a file was chosen ([and]). *)
Definition upload_form (selected_bucket : string) : Script unit :=
  uploaded_file ← file_uploader "Upload file";
  match uploaded_file with
  | Some f =>
      clicked ← lift (widget (St.button "Upload" None));
      if clicked : bool then
        ask (upload_fileobj f selected_bucket (file_name f));;
        lift (display (St.success "File uploaded!"))
      else mret tt
  | None => mret tt
  end.

Definition s3_buckets : Script unit :=
  attempt
    (resp ← lift (call list_buckets);
     my_buckets ← lift (for_each resp (App.s3_bucket cfg) []);
     if bool_decide (my_buckets ≠ []) then
       selected_bucket ← lift (App.selectbox "Select bucket to manage" my_buckets);
       upload_form selected_bucket
     else lift (display (St.info "No buckets found.")))
    (on_Exception (fun e => lift (display (St.error ("Error: " ++ exn_str e))))).

(** *** app.py, the script in full *)

Definition page : Script unit :=
  menu ← lift (App.selectbox "Select Service"
                 ["EC2 (Servers)"; "S3 (Storage)"; "Route53 (DNS)"]);
  if bool_decide (menu = "EC2 (Servers)") then
    make_client "ec2";; lift (App.ec2_section cfg)
  else if bool_decide (menu = "S3 (Storage)") then
    make_client "s3";; lift (App.s3_create_form cfg);; s3_buckets
  else if bool_decide (menu = "Route53 (DNS)") then
    make_client "route53";; create_zone_form;; lift (App.route53_zones cfg)
  else mret tt.

End WithConfig.

(** *** main.py, the command groups *)

(** A command line as click hands it to the command: the options that have
    a default may be absent. *)
Inductive Ec2Args :=
| ec2_create (instance_type : option string) (key_name : string) (name : option string)
| ec2_list
| ec2_stop (instance_id : string)
| ec2_start (instance_id : string)
| ec2_terminate (instance_id : string).

Inductive S3Args :=
| s3_create (bucket_name : string) (public : bool)
| s3_list
| s3_upload (bucket_name file_path : string).

Inductive Route53Args :=
| route53_create_zone (domain_name : string)
| route53_list
| route53_add_record (zone_id subdomain ip_address : string)
| route53_delete_record (zone_id subdomain ip_address : string).

Inductive Args :=
| cmd_info
| cmd_ec2 (a : Ec2Args)
| cmd_s3 (a : S3Args)
| cmd_route53 (a : Route53Args).

(** The commands of a group from the statement after the construction of
    the client on. *)
Definition ec2_body (cfg : Config) (a : Ec2Args) : Prog unit :=
  match a with
  | ec2_create instance_type key_name name =>
      Ec2.create cfg (default "t3.micro" instance_type) key_name (default "my-server" name)
  | ec2_list => Ec2.list cfg
  | ec2_stop instance_id => Ec2.stop cfg instance_id
  | ec2_start instance_id => Ec2.start cfg instance_id
  | ec2_terminate instance_id => Ec2.terminate cfg instance_id
  end.

Definition ec2 (cfg : Config) (a : Ec2Args) : Script unit :=
  with_client "ec2" (ec2_body cfg a).

Definition s3 (cfg : Config) (a : S3Args) : Script unit :=
  match a with
  | s3_create bucket_name public => with_client "s3" (S3.create cfg bucket_name public)
  | s3_list => with_client "s3" (S3.list cfg)
  | s3_upload bucket_name file_path => upload bucket_name file_path
  end.

Definition route53 (cfg : Config) (a : Route53Args) : Script unit :=
  match a with
  | route53_create_zone domain_name => create_zone cfg domain_name
  | route53_list => with_client "route53" (Route53.list cfg)
  | route53_add_record zone_id subdomain ip_address =>
      with_client "route53" (Route53.add_record cfg zone_id subdomain ip_address)
  | route53_delete_record zone_id subdomain ip_address =>
      with_client "route53" (Route53.delete_record cfg zone_id subdomain ip_address)
  end.

(** The command line of a command on an existing instance, and of a command
    on the records of a zone. *)
Definition instance_line (op : InstanceOp) (instance_id : string) : Ec2Args :=
  match op with
  | Start => ec2_start instance_id
  | Stop => ec2_stop instance_id
  | Terminate => ec2_terminate instance_id
  end.

Definition record_line (op : RecordOp) (zone_id subdomain ip_address : string)
    : Route53Args :=
  match op with
  | AddRecord => route53_add_record zone_id subdomain ip_address
  | DeleteRecord => route53_delete_record zone_id subdomain ip_address
  end.

(** [cli]: every module reads its tags from the same environment. *)
Definition cli (environ : gmap string string) (args : Args) : Script unit :=
  let cfg := config_of_environ environ in
  match args with
  | cmd_info => info environ
  | cmd_ec2 a => ec2 cfg a
  | cmd_s3 a => s3 cfg a
  | cmd_route53 a => route53 cfg a
  end.

(** *** The provider and what else these commands meet *)

Import Provider.

(** What stands beside the provider's state of above: the clock, the paths
    that exist, the answer of the identity service, the ids the provider
    hands to the zones created next, the objects uploaded (bucket and key),
    and the file chosen in the page. *)
Record Outside := mkOutside {
  clock : Z;
  files : list string;
  identity : Exn + (string * string);
  zone_ids : list string;
  objects : list (string * string);
  chosen_file : option UploadedFile
}.

Definition with_object (bucket key : string) (x : Outside) : Outside :=
  mkOutside (clock x) (files x) (identity x) (zone_ids x)
    (objects x ++ [(bucket, key)]) (chosen_file x).

Definition without_zone_id (x : Outside) : Outside :=
  mkOutside (clock x) (files x) (identity x) (tail (zone_ids x)) (objects x)
    (chosen_file x).

(** The world with one more zone, and with the tags of a zone replaced. *)
Definition with_zone (z : WZone) (w : World) : World :=
  mkWorld (instances w) (buckets w) (zones w ++ [z]) (parameters w).

Definition set_tagging (id : string) (tags : gmap string string) (w : World) : World :=
  mkWorld (instances w) (buckets w)
    (map (fun z => if bool_decide (wz_id z = id)
                   then mkWZone (wz_id z) (wz_name z) (inr tags) (wz_records z)
                   else z) (zones w))
    (parameters w).

(** The name a zone is kept under: fully qualified, with the final dot. *)
Fixpoint fqdn (name : string) : string :=
  match name with
  | EmptyString => "."
  | String c rest =>
      match rest with
      | EmptyString => if bool_decide (c = "."%char) then name else String c "."
      | _ => String c (fqdn rest)
      end
  end.

(** The provider's answer to a request and the state it leaves.  A zone
    needs a name and is created without tags and without records (the NS
    and SOA records the provider writes itself are left out); tags are
    added to those the zone has; an upload needs the bucket, and from the
    command line the file. *)
Definition serve (s : World * Outside) (c : Request) : (Exn + Reply c) * (World * Outside) :=
  let '(w, x) := s in
  match c return (Exn + Reply c) * (World * Outside) with
  | get_caller_identity => (identity x, s)
  | upload_file filename bucket key =>
      if negb (bool_decide (filename ∈ files x)) then
        (inl (mkExn BotoCoreError "No such file or directory"), s)
      else
        match find_bucket w bucket with
        | Some _ => (inr tt, (w, with_object bucket key x))
        | None => (inl (mkExn BotoCoreError "Failed to upload: NoSuchBucket"), s)
        end
  | upload_fileobj _ bucket key =>
      match find_bucket w bucket with
      | Some _ => (inr tt, (w, with_object bucket key x))
      | None => (inl (mkExn BotoCoreError "Failed to upload: NoSuchBucket"), s)
      end
  | create_hosted_zone name _ _ =>
      if bool_decide (name = "") then (inl (client_error "InvalidDomainName"), s)
      else
        match zone_ids x with
        | id :: _ =>
            (inr ("/hostedzone/" ++ id),
             (with_zone (mkWZone id (fqdn name) (inr ∅) []) w, without_zone_id x))
        | [] => (inl (client_error "TooManyHostedZones"), s)
        end
  | change_tags_for_resource ty id tags =>
      if negb (bool_decide (ty = "hostedzone")) then (inl (client_error "InvalidInput"), s)
      else
        match find_zone w id with
        | Some z =>
            match wz_tagging z with
            | inr old =>
                (inr tt,
                 (set_tagging id (foldl (fun d t => <[Key t := Value t]> d) old tags) w, x))
            | inl e => (inl e, s)
            end
        | None => (inl (client_error "NoSuchHostedZone"), s)
        end
  end.

(** The provider, an operator and the rest together.  The provider is one
    that can be reached: a client is built whenever one is asked for. *)
Definition whole_step (O : Operator) (s : World * op_state O * Outside) (ef : Effect)
    : Outcome ef * (World * op_state O * Outside) :=
  let '(w, o, x) := s in
  match ef return Outcome ef * (World * op_state O * Outside) with
  | Known ev => let '(a, (w', o')) := system_step O (w, o) ev in (a, (w', o', x))
  | MakeClient _ => (inr tt, s)
  | Ask c => let '(a, (w', x')) := serve (w, x) c in (a, (w', o, x'))
  | Say _ _ => (tt, s)
  | PathExists path => (bool_decide (path ∈ files x), s)
  | Clock => (clock x, s)
  | FileUploader _ => (chosen_file x, s)
  end.

Definition whole (O : Operator) : Setting :=
  {| setting_state := World * op_state O * Outside; setting_step := whole_step O |}.

(** The state after a list of command lines, run one after the other. *)
Fixpoint after_all (O : Operator) (environ : gmap string string) (lines : list Args)
    (s : World * op_state O * Outside) : World * op_state O * Outside :=
  match lines with
  | [] => s
  | args :: rest => after_all O environ rest (perform (whole O) (cli environ args) s).2
  end.

(** *** Situations *)

(** An operator of the page who takes the option [i] of every selection
    and touches nothing else. *)
Definition choosing (i : nat) : Operator :=
  {| op_state := unit;
     op_confirm := fun _ _ => (false, tt);
     op_widget := fun _ w =>
       match w return St.WidgetValue w * unit with
       | St.selectbox _ _ => (i, tt)
       | St.text_input _ v => (v, tt)
       | St.checkbox _ => (false, tt)
       | St.button _ _ => (false, tt)
       end |}.

(** No region is configured and no endpoint can be reached: the client of
    ec2, which needs a region, is not built, and whatever is asked of
    another client fails in transport. *)
Definition unconfigured_step (s : unit) (ef : Effect) : Outcome ef * unit :=
  match ef return Outcome ef * unit with
  | Known ev => unreachable_step tt ev
  | MakeClient service =>
      (if bool_decide (service = "ec2")
       then inl (mkExn BotoCoreError "You must specify a region.")
       else inr tt, tt)
  | Ask _ => (inl (mkExn BotoCoreError "Could not connect to the endpoint URL"), tt)
  | Say _ _ => (tt, tt)
  | PathExists _ => (false, tt)
  | Clock => (0%Z, tt)
  | FileUploader _ => (None, tt)
  end.

Definition unconfigured : Setting := mkSetting unit unconfigured_step.

(** A file is chosen in the page and the provider has the id [Z3] for the
    next zone. *)
Definition report_chosen : Outside :=
  {| clock := 1700000000;
     files := ["/home/student/report.txt"];
     identity := inr ("123456789012", "arn:aws:iam::123456789012:user/student");
     zone_ids := ["Z3"];
     objects := [];
     chosen_file := Some (mkUploadedFile "report.txt" "figures") |}.

End Rest.

(** * Properties *)

Local Open Scope list_scope.

(** ** Running composed commands *)

Lemma run_bind {A B} (E : Env) (p : Prog A) (f : A -> Prog B) (s : env_state E) :
  run E (p ≫= f) s =
  match run E p s with
  | (t, inl r, s1) => (t, inl r, s1)
  | (t, inr a, s1) => let '(t2, r2, s2) := run E (f a) s1 in (t ++ t2, r2, s2)
  end.
Proof.
  revert s. induction p as [a|r|ev k IH]; intros s; cbn.
  - destruct (run E (f a) s) as [[t2 r2] s2]. reflexivity.
  - reflexivity.
  - destruct (env_step E s ev) as [a s1].
    change (run E (bind (k a) f) s1) with (run E (k a ≫= f) s1).
    rewrite IH. destruct (run E (k a) s1) as [[t [r|a']] s2]; cbn; [reflexivity|].
    destruct (run E (f a') s2) as [[t2 r2] s3]. reflexivity.
Qed.

Lemma run_try_except {A} (E : Env) (p : Prog A) clause (s : env_state E) :
  run E (try_except p clause) s =
  match run E p s with
  | (t, inr a, s1) => (t, inr a, s1)
  | (t, inl r, s1) =>
      match clause r with
      | Some handler => let '(t2, r2, s2) := run E handler s1 in (t ++ t2, r2, s2)
      | None => (t, inl r, s1)
      end
  end.
Proof.
  revert s. induction p as [a|r|ev k IH]; intros s; cbn.
  - reflexivity.
  - destruct (clause r) as [h|]; [|reflexivity].
    destruct (run E h s) as [[t2 r2] s2]. reflexivity.
  - destruct (env_step E s ev) as [a s1]. rewrite IH.
    destruct (run E (k a) s1) as [[t [r|a']] s2]; cbn; [|reflexivity].
    destruct (clause r) as [h|]; [|reflexivity].
    destruct (run E h s2) as [[t2 r2] s3]. reflexivity.
Qed.

Lemma calls_app (t1 t2 : Trace) : calls (t1 ++ t2) = calls t1 ++ calls t2.
Proof. apply omap_app. Qed.

Lemma echoes_app (t1 t2 : Trace) : echoes (t1 ++ t2) = echoes t1 ++ echoes t2.
Proof. apply omap_app. Qed.

(** Answer the next event of the run in the goal in every possible way:
    a reply is split into yes and no, the answer to a provider call into
    the exception and the response. *)
Ltac answer_cases :=
  match goal with
  | |- context [env_step ?E ?s ?ev] =>
      let a := fresh "a" in
      let s' := fresh "s" in
      destruct (env_step E s ev) as [a s'] eqn:?; cbn in a;
      lazymatch type of a with
      | bool => destruct a
      | unit => destruct a
      | sum _ _ => destruct a as [?e|?r]
      | _ => idtac
      end; cbn
  end.

Ltac play := repeat answer_cases.

(** Name the answer to the next event without splitting it. *)
Ltac answer :=
  match goal with
  | |- context [env_step ?E ?s ?ev] =>
      let a := fresh "a" in
      let s' := fresh "s" in
      destruct (env_step E s ev) as [a s'] eqn:?; cbn in a; cbn
  end.

(** Split a membership in a list that is written out. *)
Ltac members H :=
  repeat (apply elem_of_cons in H as [H|H]);
  try (apply elem_of_nil in H; destruct H).

(** ** C2: the ownership test *)

(** C2.  [isManaged] holds exactly when the [CreatedBy] entry of the tag map
    is the configured identifier.  Two maps with the same [CreatedBy] entry
    get the same answer, so that writing or removing [Owner], or any other
    tag, changes nothing; a resource without tags (the empty map, which is
    also what an absent or empty tag list is read as) is not managed. *)
Theorem C2_isManaged_iff_created_by (cfg : Config) (tags : gmap string string) :
  (isManaged cfg tags = true <-> tags !! "CreatedBy" = Some (TAG_CREATED_BY cfg))
  /\ (forall tags' : gmap string string,
        tags' !! "CreatedBy" = tags !! "CreatedBy" ->
        isManaged cfg tags' = isManaged cfg tags)
  /\ (forall k v, k <> "CreatedBy" -> isManaged cfg (<[k:=v]> tags) = isManaged cfg tags)
  /\ (forall k, k <> "CreatedBy" -> isManaged cfg (delete k tags) = isManaged cfg tags)
  /\ (forall owner, isManaged cfg (<["Owner":=owner]> tags) = isManaged cfg tags)
  /\ isManaged cfg ∅ = false
  /\ isManaged cfg (tags_dict []) = false
  /\ isManaged cfg (instance_tags (mkInstance "" "" "" None None)) = false.
Proof.
  unfold isManaged. repeat split.
  - intros H. by apply bool_decide_eq_true in H.
  - intros H. by apply bool_decide_eq_true.
  - intros tags' H. by rewrite H.
  - intros k v Hk. by rewrite lookup_insert_ne.
  - intros k Hk. by rewrite lookup_delete_ne.
  - intros owner. by rewrite lookup_insert_ne.
Qed.

Lemma C2_managed_whatever_the_name :
  isManaged cfg0 (<["Name":="web"]> (<["CreatedBy":="platform-cli"]> ∅)) = true.
Proof.
  pose proof (C2_isManaged_iff_created_by cfg0 (<["CreatedBy":="platform-cli"]> ∅))
    as (Hiff & _ & Hins & _).
  rewrite Hins; [|discriminate].
  apply Hiff. reflexivity.
Defined.

(** ** The guard of the commands on an existing resource *)

(** [stop], [start] and [terminate] begin with the fetch of the instance;
    when the tags fetched are not managed the command reports it and calls
    nothing else. *)
Lemma instance_guard cfg E s op id :
  head (trace_of E (instance_command cfg op id) s)
  = Some (existT (Api (describe_instances [id] []))
            (env_step E s (Api (describe_instances [id] []))).1)
  /\ forall i is' rs,
      (env_step E s (Api (describe_instances [id] []))).1
      = inr (mkReservation (i :: is') :: rs) ->
      isManaged cfg (instance_tags i) = false ->
      calls (trace_of E (instance_command cfg op id) s) = [describe_instances [id] []]
      /\ echoes (trace_of E (instance_command cfg op id) s)
         = [(true, InstanceNotManaged id)].
Proof.
  unfold trace_of, instance_tags.
  destruct op; cbn; answer.
  all: split; [destruct (run _ _ _) as [[? ?] ?]; reflexivity|].
  all: intros i is' rs -> Hm; cbn; rewrite Hm; cbn; play; done.
Qed.

(** [add_record] and [delete_record] begin with the fetch of the zone's
    tags, and stop there when the tags are not managed. *)
Lemma record_guard cfg E s op zid sub ip :
  head (trace_of E (record_command cfg op zid sub ip) s)
  = Some (existT (Api (list_tags_for_resource "hostedzone" zid))
            (env_step E s (Api (list_tags_for_resource "hostedzone" zid))).1)
  /\ forall tags,
      (env_step E s (Api (list_tags_for_resource "hostedzone" zid))).1 = inr tags ->
      isManaged cfg (tags_dict tags) = false ->
      calls (trace_of E (record_command cfg op zid sub ip) s)
      = [list_tags_for_resource "hostedzone" zid]
      /\ echoes (trace_of E (record_command cfg op zid sub ip) s)
         = [(true, ZoneNotManaged zid)].
Proof.
  unfold trace_of.
  destruct op; cbn; answer.
  all: split; [destruct (run _ _ _) as [[? ?] ?]; reflexivity|].
  all: intros tags -> Hm; cbn; rewrite Hm; cbn; play; done.
Qed.

(** The option a selectbox returns is one of its options. *)
Lemma selectbox_choice (options : list string) (i : nat) :
  options <> [] -> default (default "" (head options)) (options !! i) ∈ options.
Proof.
  intros Hne. destruct (options !! i) as [x|] eqn:Hi; cbn.
  - by eapply list_elem_of_lookup_2.
  - destruct options as [|x xs]; [done|]. cbn. apply list_elem_of_here.
Qed.

(** The buttons of the instance table act on an instance of the listing
    fetched in the same run. *)
Lemma ui_instance_buttons_act_on_listed cfg E s op ids :
  instance_call op ids ∈ calls (trace_of E (App.ec2_instances cfg) s) ->
  exists rs id,
    (env_step E s (Api (describe_instances [] (Ec2.list_filters cfg)))).1 = inr rs
    /\ ids = [id] /\ id ∈ map St.entry_ID (App.instance_data rs).
Proof.
  unfold trace_of, Ec2.list_filters. cbn. answer_cases.
  - play. intros H. cbn in H. members H; destruct op; discriminate.
  - case_bool_decide as Hd; cbn.
    + do 2 answer_cases.
      pose proof (selectbox_choice (map St.entry_ID (App.instance_data r)) a) as Hsel.
      set (sel := default _ _) in *.
      assert (Hin : sel ∈ map St.entry_ID (App.instance_data r)).
      { apply Hsel. destruct (App.instance_data r); [done|discriminate]. }
      clearbody sel. clear Hsel.
      play.
      all: intros H; cbn in H; members H.
      all: destruct op; cbn in H; try discriminate; injection H as ->; eauto.
    + play. intros H. cbn in H. members H; destruct op; discriminate.
Qed.

(** In the command-line front end every command that changes or deletes an
    existing resource (start, stop and terminate an instance; add and delete
    a record) first fetches the resource's tags, whatever the environment;
    when the tags fetched do not carry the configured [CreatedBy] value, the
    command prints the not-managed error and the fetch stays its only
    provider call. *)
Lemma cli_commands_are_guarded (cfg : Config) (E : Env) (s : env_state E) :
  (forall op id,
     head (trace_of E (instance_command cfg op id) s)
     = Some (existT (Api (describe_instances [id] []))
               (env_step E s (Api (describe_instances [id] []))).1)
     /\ forall i is' rs,
         (env_step E s (Api (describe_instances [id] []))).1
         = inr (mkReservation (i :: is') :: rs) ->
         isManaged cfg (instance_tags i) = false ->
         calls (trace_of E (instance_command cfg op id) s) = [describe_instances [id] []]
         /\ echoes (trace_of E (instance_command cfg op id) s)
            = [(true, InstanceNotManaged id)])
  /\ (forall op zid sub ip,
        head (trace_of E (record_command cfg op zid sub ip) s)
        = Some (existT (Api (list_tags_for_resource "hostedzone" zid))
                  (env_step E s (Api (list_tags_for_resource "hostedzone" zid))).1)
        /\ forall tags,
            (env_step E s (Api (list_tags_for_resource "hostedzone" zid))).1 = inr tags ->
            isManaged cfg (tags_dict tags) = false ->
            calls (trace_of E (record_command cfg op zid sub ip) s)
            = [list_tags_for_resource "hostedzone" zid]
            /\ echoes (trace_of E (record_command cfg op zid sub ip) s)
               = [(true, ZoneNotManaged zid)]).
Proof.
  split.
  - intros op id. apply instance_guard.
  - intros op zid sub ip. apply record_guard.
Qed.

(** ** C5: confirmation before terminating *)

(** The command line sends [terminate_instances] only after the operator
    answered yes to "Are you sure?". *)
Lemma cli_terminate_asks_first cfg E s id ids :
  terminate_instances ids ∈ calls (trace_of E (Ec2.terminate cfg id) s) ->
  ids = [id]
  /\ confirmations (trace_of E (Ec2.terminate cfg id) s) = [("Are you sure?", true)].
Proof.
  unfold trace_of, Ec2.terminate, Ec2.fetch_tags. cbn. answer_cases.
  - play. intros H; cbn in H; members H; discriminate.
  - destruct r as [|[[|i is']] rs]; cbn.
    1,2: play; intros H; cbn in H; members H; discriminate.
    destruct (isManaged cfg _); cbn; play.
    all: intros H; cbn in H; members H; try discriminate.
    all: by injection H as ->.
Qed.

(** Declining the confirmation of the command line ends the command with
    the fetch as its only provider call. *)
Lemma cli_terminate_declined cfg E s id :
  confirmations (trace_of E (Ec2.terminate cfg id) s) = [("Are you sure?", false)] ->
  calls (trace_of E (Ec2.terminate cfg id) s) = [describe_instances [id] []].
Proof.
  unfold trace_of, Ec2.terminate, Ec2.fetch_tags. cbn. answer_cases.
  - play. discriminate.
  - destruct r as [|[[|i is']] rs]; cbn.
    1,2: play; discriminate.
    destruct (isManaged cfg _); cbn; play; try discriminate; done.
Qed.

(** C5 fails in the web page: with one managed instance listed, a click on
    the Terminate button sends [terminate_instances] for it and the instance
    is shutting down, and nothing was asked. *)
Lemma C5_ui_terminates_without_asking :
  let s := (one_managed, tt) in
  let t := trace_of (Provider.system (clicking "🗑️ Terminate")) (App.app cfg0) s in
  calls t = [describe_instances [] [mkFilter "tag:CreatedBy" ["platform-cli"]];
             terminate_instances ["i-1"]]
  /\ confirmations t = []
  /\ map Provider.wi_state
       (Provider.instances (world_after (clicking "🗑️ Terminate") (App.app cfg0) s))
     = ["shutting-down"; "running"].
Proof. vm_compute. repeat split. Qed.

(** ** C6: a public bucket needs a yes *)

(** Without a provider call the state of the provider stays as it was. *)
Lemma world_kept_without_calls {A} (O : Provider.Operator) (p : Prog A) :
  forall s, calls (trace_of (Provider.system O) p s) = [] ->
            world_after O p s = s.1.
Proof.
  unfold world_after, final_state, trace_of.
  induction p as [a|r|ev k IH]; intros [w o]; cbn; try reflexivity.
  destruct ev as [c|err m|prompt|wd|d]; cbn.
  - destruct (Provider.api w c) as [a w']. cbn.
    destruct (run (Provider.system O) (k a) (w', o)) as [[t r] s']. discriminate.
  - specialize (IH tt (w, o)). destruct (run (Provider.system O) (k tt) (w, o)) as [[t r] s']. exact IH.
  - destruct (Provider.op_confirm O o prompt) as [b o'].
    specialize (IH b (w, o')). destruct (run (Provider.system O) (k b) (w, o')) as [[t r] s']. exact IH.
  - destruct (Provider.op_widget O o wd) as [v o'].
    specialize (IH v (w, o')). destruct (run (Provider.system O) (k v) (w, o')) as [[t r] s']. exact IH.
  - specialize (IH tt (w, o)). destruct (run (Provider.system O) (k tt) (w, o)) as [[t r] s']. exact IH.
Qed.

Lemma create_public_declined cfg (E : Env) (s : env_state E) (bucket_name : string) :
  confirmations (trace_of E (S3.create cfg bucket_name true) s)
  = [("Are you absolutely sure?", false)] ->
  calls (trace_of E (S3.create cfg bucket_name true) s) = []
  /\ echoes (trace_of E (S3.create cfg bucket_name true) s)
     = [(false, PublicWarning (lower bucket_name)); (false, OperationCancelled)]
  /\ (run E (S3.create cfg bucket_name true) s).1.2 = inr tt.
Proof.
  unfold trace_of, S3.create. cbn. do 2 answer_cases.
  - destruct (run _ _ _) as [[? ?] ?]; cbn. discriminate.
  - play. done.
Qed.

(** C6.  When [create] is run with [--public] and the operator answers no to
    the confirmation, the command issues no provider call at all, prints the
    warning and the cancellation, and ends normally; run against the
    provider, it leaves the provider's state, and so its buckets, as they
    were. *)
Theorem C6_declined_public_bucket_calls_nothing (cfg : Config) (bucket_name : string) :
  (forall (E : Env) (s : env_state E),
     confirmations (trace_of E (S3.create cfg bucket_name true) s)
     = [("Are you absolutely sure?", false)] ->
     calls (trace_of E (S3.create cfg bucket_name true) s) = []
     /\ echoes (trace_of E (S3.create cfg bucket_name true) s)
        = [(false, PublicWarning (lower bucket_name)); (false, OperationCancelled)]
     /\ (run E (S3.create cfg bucket_name true) s).1.2 = inr tt)
  /\ (forall (O : Provider.Operator) s,
        confirmations (trace_of (Provider.system O) (S3.create cfg bucket_name true) s)
        = [("Are you absolutely sure?", false)] ->
        world_after O (S3.create cfg bucket_name true) s = s.1).
Proof.
  split.
  - intros E s. apply create_public_declined.
  - intros O s H. apply world_kept_without_calls.
    by apply (create_public_declined cfg (Provider.system O) s bucket_name).
Qed.

Lemma C6_nothing_is_created :
  calls (trace_of (Provider.system (Provider.replying false))
           (S3.create cfg0 "Holiday-Photos" true) (three_buckets, tt)) = []
  /\ world_after (Provider.replying false) (S3.create cfg0 "Holiday-Photos" true)
       (three_buckets, tt) = three_buckets.
Proof.
  destruct (C6_declined_public_bucket_calls_nothing cfg0 "Holiday-Photos") as [Hrun Hworld].
  split.
  - apply (Hrun (Provider.system (Provider.replying false)) (three_buckets, tt)).
    reflexivity.
  - apply (Hworld (Provider.replying false) (three_buckets, tt)). reflexivity.
Defined.

(** ** The provider's answers *)

Local Arguments Provider.api : simpl never.

Import Provider.

(** A call that is not mutating leaves the state of the provider alone. *)
Lemma api_read_only (w : World) (c : ApiCall) :
  is_mutating c = false -> (api w c).2 = w.
Proof.
  unfold api. destruct c; cbn; try discriminate; intros _;
    repeat (case_match; cbn; try reflexivity); reflexivity.
Qed.

(** Reading a key off the dictionary built from a tag list: the last entry
    of that key, as in the comprehension. *)
Lemma foldl_insert_lookup (l : list Tag) : forall (d : gmap string string) k,
  foldl (fun d t => <[Key t := Value t]> d) d l !! k
  = match list_find (fun t => Key t = k) (reverse l) with
    | Some (_, t) => Some (Value t)
    | None => d !! k
    end.
Proof.
  induction l as [|t l IH]; intros d k; [done|].
  rewrite reverse_cons. cbn [foldl]. rewrite IH.
  destruct (list_find (fun t0 => Key t0 = k) (reverse l)) as [[i t']|] eqn:Hf.
  - erewrite list_find_app_l by done. done.
  - rewrite list_find_app_r by done. cbn. case_decide as Hk; cbn.
    + subst. by rewrite lookup_insert_eq.
    + by rewrite lookup_insert_ne.
Qed.

(** The client reads back the tags the provider holds. *)
Lemma tags_dict_tag_list (m : gmap string string) : tags_dict (tag_list m) = m.
Proof.
  apply map_eq. intros k. unfold tags_dict. rewrite foldl_insert_lookup, lookup_empty.
  destruct (list_find _ _) as [[i t]|] eqn:Hf.
  - apply list_find_Some in Hf as (Hi & Hk & _).
    apply list_elem_of_lookup_2 in Hi. rewrite elem_of_reverse in Hi.
    unfold tag_list in Hi. apply list_elem_of_fmap in Hi as ([k' v] & -> & Hin).
    cbn in *. subst. symmetry. by apply elem_of_map_to_list.
  - destruct (m !! k) as [v|] eqn:Hm; [|done].
    exfalso. apply elem_of_map_to_list in Hm.
    eapply list_find_None in Hf. rewrite Forall_forall in Hf.
    apply (Hf (mkTag k v)); [|done].
    rewrite elem_of_reverse. unfold tag_list. apply list_elem_of_fmap. by exists (k, v).
Qed.

Lemma instance_tags_describe (i : WInstance) : instance_tags (describe i) = wi_tags i.
Proof.
  unfold instance_tags, describe. cbn. case_bool_decide as He; cbn.
  - by rewrite He.
  - apply tags_dict_tag_list.
Qed.

(** The provider's [tag:CreatedBy] filter is the ownership test. *)
Lemma tag_filter_is_isManaged cfg (i : WInstance) :
  filter_matches i (mkFilter "tag:CreatedBy" [TAG_CREATED_BY cfg]) = isManaged cfg (wi_tags i).
Proof.
  unfold filter_matches, isManaged. cbn.
  destruct (wi_tags i !! "CreatedBy") as [v|]; [|done].
  apply bool_decide_ext. rewrite list_elem_of_singleton. naive_solver.
Qed.

Lemma selected_list_filters cfg (i : WInstance) :
  selected [] (Ec2.list_filters cfg) i = isManaged cfg (wi_tags i).
Proof.
  unfold selected, Ec2.list_filters. cbn [forallb]. rewrite tag_filter_is_isManaged.
  cbn. by rewrite andb_true_r.
Qed.

Lemma selected_limit_filters cfg (i : WInstance) :
  selected [] (Ec2.limit_filters cfg) i = counts_toward_cap cfg i.
Proof.
  unfold selected, Ec2.limit_filters, counts_toward_cap. cbn [forallb].
  rewrite tag_filter_is_isManaged. cbn. by rewrite andb_true_r.
Qed.

Lemma api_limit_query cfg (w : World) :
  api w (describe_instances [] (Ec2.limit_filters cfg))
  = (inr (map (fun i => mkReservation [describe i])
            (List.filter (counts_toward_cap cfg) (instances w))), w).
Proof.
  unfold api. cbn. do 2 f_equal. f_equal.
  apply filter_ext. intros i. apply selected_limit_filters.
Qed.

Lemma api_list_query cfg (w : World) :
  api w (describe_instances [] (Ec2.list_filters cfg))
  = (inr (map (fun i => mkReservation [describe i])
            (List.filter (fun i => isManaged cfg (wi_tags i)) (instances w))), w).
Proof.
  unfold api. cbn. do 2 f_equal. f_equal.
  apply filter_ext. intros i. apply selected_list_filters.
Qed.

Lemma count_described (l : list WInstance) :
  Ec2.count_instances (map (fun i => mkReservation [describe i]) l) = length l.
Proof.
  unfold Ec2.count_instances. induction l as [|i l IH]; cbn; [done|]. by rewrite <- IH.
Qed.

(** ** C4 and C9: the instance limit *)

(** At the limit, [create] asks the provider for the count and stops. *)
Lemma create_at_cap cfg O w o ty key name :
  ty ∈ Ec2.ALLOWED_TYPES ->
  Ec2.MAX_INSTANCES <= cap_count cfg w ->
  run (system O) (Ec2.create cfg ty key name) (w, o)
  = ([existT (Api (describe_instances [] (Ec2.limit_filters cfg)))
        (inr (map (fun i => mkReservation [describe i])
                (List.filter (counts_toward_cap cfg) (instances w))));
      existT (Echo true (LimitReached Ec2.MAX_INSTANCES)) tt],
     inr tt, (w, o)).
Proof.
  intros Hty Hcap. unfold Ec2.create.
  rewrite bool_decide_true by done. cbn.
  rewrite api_limit_query. cbn. rewrite count_described.
  fold (cap_count cfg w).
  destruct (cap_count cfg w) as [|[|n]] eqn:Hn; [unfold Ec2.MAX_INSTANCES in *; lia..|].
  cbn. reflexivity.
Qed.

(** Below the limit, [create] goes on to look up the image. *)
Lemma create_below_cap cfg O w o ty key name :
  ty ∈ Ec2.ALLOWED_TYPES ->
  cap_count cfg w < Ec2.MAX_INSTANCES ->
  exists rest,
    trace_of (system O) (Ec2.create cfg ty key name) (w, o)
    = existT (Api (describe_instances [] (Ec2.limit_filters cfg)))
        (inr (map (fun i => mkReservation [describe i])
                (List.filter (counts_toward_cap cfg) (instances w))))
      :: existT (Echo false SearchingAmi) tt
      :: existT (Api (get_parameter Ec2.SSM_AMI_PATH))
           (api w (get_parameter Ec2.SSM_AMI_PATH)).1
      :: rest
    /\ (true, LimitReached Ec2.MAX_INSTANCES) ∉ echoes rest.
Proof.
  intros Hty Hcap. unfold Ec2.create, trace_of.
  rewrite bool_decide_true by done. cbn.
  rewrite api_limit_query. cbn. rewrite count_described.
  fold (cap_count cfg w).
  destruct (cap_count cfg w) as [|[|n]] eqn:Hn; [| |unfold Ec2.MAX_INSTANCES in *; lia].
  all: cbn; destruct (api w (get_parameter _)) as [[e|ami] w1] eqn:Hp; cbn.
  all: try (destruct (api w1 (run_instances _ _ _ _ _ _)) as [[e2|[|i is']] w2] eqn:Hr; cbn).
  all: eexists; split; [reflexivity|].
  all: cbn; intros H; members H; discriminate.
Qed.

(** A type outside the allow-list is turned down before anything else. *)
Lemma create_type_not_allowed cfg E s ty key name :
  ty ∉ Ec2.ALLOWED_TYPES ->
  run E (Ec2.create cfg ty key name) s
  = ([existT (Echo true (TypeNotAllowed ty)) (env_step E s (Echo true (TypeNotAllowed ty))).1],
     inr tt, (env_step E s (Echo true (TypeNotAllowed ty))).2).
Proof.
  intros Hty. unfold Ec2.create. rewrite bool_decide_false by done. cbn.
  by destruct (env_step E s _) as [[] s1].
Qed.

(** The [Owner] tag plays no part in what counts. *)
Lemma counts_whatever_the_owner cfg owner (i : WInstance) :
  counts_toward_cap cfg (with_owner owner i) = counts_toward_cap cfg i.
Proof.
  unfold counts_toward_cap, with_owner, isManaged. cbn.
  destruct owner as [o|]; by rewrite ?lookup_insert_ne, ?lookup_delete_ne.
Qed.

Lemma cap_count_reowned cfg owners (w : World) :
  cap_count cfg (reowned owners w) = cap_count cfg w.
Proof.
  unfold cap_count, reowned. cbn.
  induction (instances w) as [|i l IH]; cbn; [done|].
  rewrite counts_whatever_the_owner. destruct (counts_toward_cap cfg i); cbn; by rewrite IH.
Qed.

(** C4, as amended: a [create] of the command line with an allowed type,
    run while two or more managed instances are pending, running, stopping
    or stopped, prints the limit error after exactly one provider call, the
    [describe_instances] query that counts them: the image is not looked up,
    [run_instances] is not called, and the state of the provider is as
    before. *)
Theorem C4_create_at_limit_only_counts (cfg : Config) (O : Operator)
    (w : World) (o : op_state O) (instance_type key_name name : string) :
  instance_type ∈ Ec2.ALLOWED_TYPES ->
  Ec2.MAX_INSTANCES <= cap_count cfg w ->
  let t := trace_of (system O) (Ec2.create cfg instance_type key_name name) (w, o) in
  echoes t = [(true, LimitReached 2)]
  /\ calls t = [describe_instances [] (Ec2.limit_filters cfg)]
  /\ Forall (fun c => is_mutating c = false) (calls t)
  /\ world_after O (Ec2.create cfg instance_type key_name name) (w, o) = w.
Proof.
  intros Hty Hcap. cbv zeta.
  unfold trace_of, world_after, final_state.
  rewrite (create_at_cap cfg O w o instance_type key_name name Hty Hcap). cbn.
  split; [reflexivity|]. split; [reflexivity|]. split; [|reflexivity].
  by repeat constructor.
Qed.

Lemma C4_third_instance_refused :
  echoes (trace_of (system (replying true)) (Ec2.create cfg0 "t3.micro" "key" "third")
            (two_running, tt))
  = [(true, LimitReached 2)]
  /\ world_after (replying true) (Ec2.create cfg0 "t3.micro" "key" "third") (two_running, tt)
     = two_running.
Proof.
  destruct (C4_create_at_limit_only_counts cfg0 (replying true) two_running tt
              "t3.micro" "key" "third") as (Hecho & _ & _ & Hworld).
  - unfold Ec2.ALLOWED_TYPES. apply list_elem_of_here.
  - vm_compute. lia.
  - split; assumption.
Defined.

(** C4 fails as stated: with two managed instances running or stopped, the
    refused [create] has issued one provider call, the count query; and with
    a type outside the allow-list the refusal is the type error, not the
    limit error. *)
Lemma C4_refusal_is_not_without_calls :
  cap_count cfg0 two_running = 2
  /\ calls (trace_of (system (replying true)) (Ec2.create cfg0 "t3.micro" "key" "third")
              (two_running, tt))
     = [describe_instances []
          [mkFilter "tag:CreatedBy" ["platform-cli"];
           mkFilter "instance-state-name" ["running"; "pending"; "stopping"; "stopped"]]]
  /\ echoes (trace_of (system (replying true)) (Ec2.create cfg0 "t3.large" "key" "third")
               (two_running, tt))
     = [(true, TypeNotAllowed "t3.large")].
Proof. vm_compute. repeat split. Qed.

(** The launch form of the web page does not look at the limit: with two
    managed instances running or stopped, a click on Launch Instance looks
    up the image and launches a third. *)
Lemma ui_launch_does_not_count :
  let s := (two_running_with_image, tt) in
  cap_count cfg0 two_running_with_image = 2
  /\ calls (trace_of (system (clicking "Launch Instance")) (App.ec2_launch_form cfg0) s)
     = [get_parameter Ec2.SSM_AMI_PATH;
        run_instances "ami-0abc" "t3.micro" "edik" 1 1
          [mkTag "Name" "web-server"; mkTag "CreatedBy" "platform-cli";
           mkTag "Owner" "student"]]
  /\ length (instances (world_after (clicking "Launch Instance")
                          (App.ec2_launch_form cfg0) s)) = 3.
Proof. vm_compute. repeat split. Qed.

(** C9.  What [create] holds against the limit of 2 is the number of
    instances that carry the configured [CreatedBy] value and are running,
    pending, stopping or stopped: at 2 or more the command is refused with
    the limit error, below 2 it goes on to the image lookup.  The [Owner]
    tag plays no part: rewriting or removing it on any instance changes
    neither whether the instance counts nor the count, whatever the owner
    configured for the user who runs the command. *)
Theorem C9_limit_counts_by_created_by_only (cfg : Config) (O : Operator)
    (w : World) (o : op_state O) (instance_type key_name name : string) :
  instance_type ∈ Ec2.ALLOWED_TYPES ->
  let t := trace_of (system O) (Ec2.create cfg instance_type key_name name) (w, o) in
  (Ec2.MAX_INSTANCES <= cap_count cfg w ->
     echoes t = [(true, LimitReached 2)]
     /\ calls t = [describe_instances [] (Ec2.limit_filters cfg)])
  /\ (cap_count cfg w < Ec2.MAX_INSTANCES ->
        ((false, SearchingAmi) ∈ echoes t)
        /\ ((true, LimitReached 2) ∉ echoes t)
        /\ (get_parameter Ec2.SSM_AMI_PATH ∈ calls t))
  /\ (forall owner i,
        counts_toward_cap cfg (with_owner owner i) = counts_toward_cap cfg i)
  /\ (forall owners, cap_count cfg (reowned owners w) = cap_count cfg w)
  /\ (forall i, counts_toward_cap cfg i = true <->
                wi_tags i !! "CreatedBy" = Some (TAG_CREATED_BY cfg)
                /\ wi_state i ∈ ["running"; "pending"; "stopping"; "stopped"]).
Proof.
  intros Hty. cbv zeta. split; [|split; [|split; [|split]]].
  - intros Hcap. unfold trace_of.
    by rewrite (create_at_cap cfg O w o instance_type key_name name Hty Hcap).
  - intros Hcap.
    destruct (create_below_cap cfg O w o instance_type key_name name Hty Hcap)
      as (rest & -> & Hrest).
    cbn. split; [|split].
    + apply elem_of_cons. by left.
    + intros Hin. apply elem_of_cons in Hin as [Hin|Hin]; [discriminate|].
      by apply Hrest.
    + apply elem_of_cons. right. apply elem_of_cons. by left.
  - intros owner i. apply counts_whatever_the_owner.
  - intros owners. apply cap_count_reowned.
  - intros i. unfold counts_toward_cap, isManaged, counted_states.
    rewrite andb_true_iff, !bool_decide_eq_true. done.
Qed.

(** Two instances launched by alice use up the limit of the user student. *)
Lemma C9_another_owner_fills_the_limit :
  TAG_OWNER cfg0 = "student"
  /\ map (fun i => wi_tags i !! "Owner") (instances two_running)
     = [Some "alice"; Some "alice"]
  /\ echoes (trace_of (system (replying true)) (Ec2.create cfg0 "t3.micro" "key" "mine")
               (two_running, tt))
     = [(true, LimitReached 2)].
Proof.
  destruct (C9_limit_counts_by_created_by_only cfg0 (replying true) two_running tt
              "t3.micro" "key" "mine") as (Hat & _).
  - unfold Ec2.ALLOWED_TYPES. apply list_elem_of_here.
  - destruct Hat as [Hecho _]; [vm_compute; lia|].
    split; [reflexivity|]. split; [reflexivity|]. exact Hecho.
Defined.

(** ** C7: what the listings show *)

Lemma for_each_cons {A S} (x : A) xs (body : A -> S -> Prog S) s :
  for_each (x :: xs) body s = body x s ≫= (fun s' => for_each xs body s').
Proof. reflexivity. Qed.

Lemma filter_filter_and {A} (P Q : A -> bool) (l : list A) :
  List.filter Q (List.filter P l) = List.filter (fun x => P x && Q x) l.
Proof.
  induction l as [|x l IH]; cbn; [done|].
  destruct (P x); cbn; [destruct (Q x)|]; by rewrite IH.
Qed.

(** *** Instances, against the provider *)

Lemma run_list_instance O (w : World) (o : op_state O) (i : Instance) found :
  run (system O) (Ec2.list_instance i found) (w, o)
  = if bool_decide (StateName i = "terminated") then ([], inr found, (w, o))
    else ([existT (Echo false
                     (InstanceRow (InstanceId i)
                        (default "Unknown" (instance_tags i !! "Name"))
                        (StateName i) (InstanceType i)
                        (default "N/A" (PublicIpAddress i)))) tt],
          inr true, (w, o)).
Proof. unfold Ec2.list_instance, instance_tags. by case_bool_decide. Qed.

Lemma ec2_list_reservation O (w : World) (o : op_state O) i found :
  run (system O) (for_each (Instances (mkReservation [describe i])) Ec2.list_instance found)
    (w, o)
  = (if alive i then [existT (Echo false (instance_row i).2) tt] else [],
     inr (found || alive i), (w, o)).
Proof.
  cbn [Instances]. rewrite for_each_cons, run_bind, run_list_instance.
  rewrite instance_tags_describe.
  change (StateName (describe i)) with (wi_state i).
  unfold alive. case_bool_decide as Hst; cbn.
  - by rewrite orb_false_r.
  - by rewrite orb_true_r.
Qed.

Lemma ec2_list_loop O (w : World) (o : op_state O) (l : list WInstance) : forall found,
  exists t,
    run (system O)
      (for_each (map (fun i => mkReservation [describe i]) l)
         (fun r found => for_each (Instances r) Ec2.list_instance found) found) (w, o)
    = (t, inr (found || existsb alive l), (w, o))
    /\ echoes t = map instance_row (List.filter alive l)
    /\ calls t = [].
Proof.
  induction l as [|i l IH]; intros found.
  - exists []. cbn. by rewrite orb_false_r.
  - cbn [map]. rewrite for_each_cons, run_bind, ec2_list_reservation.
    destruct (IH (found || alive i)) as (t & Hrun & He & Hc). rewrite Hrun.
    eexists. split; [|split].
    + cbn [existsb]. by rewrite orb_assoc.
    + rewrite echoes_app, He. cbn [List.filter].
      destruct (alive i); [|done]. by destruct i.
    + rewrite calls_app, Hc. by destruct (alive i).
Qed.

Lemma existsb_alive_listed cfg (l : list WInstance) :
  existsb alive (List.filter (fun i => isManaged cfg (wi_tags i)) l)
  = match List.filter (instance_listed cfg) l with [] => false | _ => true end.
Proof.
  induction l as [|i l IH]; [done|]. cbn [List.filter].
  assert (instance_listed cfg i = isManaged cfg (wi_tags i) && alive i) as -> by done.
  destruct (isManaged cfg (wi_tags i)); cbn [andb existsb]; [|exact IH].
  destruct (alive i); cbn [orb]; [done|exact IH].
Qed.

(** The run of [list] against the provider: the query, the two header
    lines, the rows, and the closing line when there is no row. *)
Lemma ec2_list_trace cfg O (w : World) (o : op_state O) :
  exists t,
    trace_of (system O) (Ec2.list cfg) (w, o)
    = existT (Api (describe_instances [] (Ec2.list_filters cfg)))
        (inr (map (fun i => mkReservation [describe i])
                (List.filter (fun i => isManaged cfg (wi_tags i)) (instances w))))
      :: existT (Echo false InstanceHeader) tt
      :: existT (Echo false (Rule 75)) tt
      :: t ++ match List.filter (instance_listed cfg) (instances w) with
              | [] => [existT (Echo false NoActiveInstances) tt]
              | _ => []
              end
    /\ echoes t = map instance_row (List.filter (instance_listed cfg) (instances w))
    /\ calls t = [].
Proof.
  unfold trace_of, Ec2.list. cbn. rewrite api_list_query. cbn.
  rewrite run_bind.
  destruct (ec2_list_loop O w o
              (List.filter (fun i => isManaged cfg (wi_tags i)) (instances w)) false)
    as (t & Hrun & He & Hc).
  rewrite Hrun. rewrite filter_filter_and in He.
  exists t. split; [|done].
  cbn [orb]. rewrite existsb_alive_listed.
  destruct (List.filter (instance_listed cfg) (instances w)); cbn; reflexivity.
Qed.

(** What [list] prints: exactly the managed instances that are not
    terminated. *)
Lemma ec2_list_world cfg O (w : World) (o : op_state O) :
  echoes (trace_of (system O) (Ec2.list cfg) (w, o))
  = (false, InstanceHeader) :: (false, Rule 75)
    :: rows_or NoActiveInstances
         (map instance_row (List.filter (instance_listed cfg) (instances w))).
Proof.
  destruct (ec2_list_trace cfg O w o) as (t & -> & He & _).
  cbn. rewrite echoes_app, He. do 2 f_equal.
  destruct (List.filter (instance_listed cfg) (instances w)); cbn; [done|].
  by rewrite app_nil_r.
Qed.

Lemma ec2_list_rows cfg O (w : World) (o : op_state O) err id name state ty ip :
  (err, InstanceRow id name state ty ip)
    ∈ echoes (trace_of (system O) (Ec2.list cfg) (w, o)) ->
  exists i, i ∈ instances w /\ wi_id i = id /\ wi_state i = state
            /\ isManaged cfg (wi_tags i) = true /\ state <> "terminated".
Proof.
  rewrite ec2_list_world. intros H.
  apply elem_of_cons in H as [H|H]; [discriminate|].
  apply elem_of_cons in H as [H|H]; [discriminate|].
  assert ((err, InstanceRow id name state ty ip)
            ∈ map instance_row (List.filter (instance_listed cfg) (instances w))) as Hrow.
  { destruct (List.filter (instance_listed cfg) (instances w)); [|exact H].
    cbn in H. members H. discriminate. }
  apply list_elem_of_fmap in Hrow as (i & Hi & Hin).
  apply list_elem_of_In, filter_In in Hin as [Hin Hl].
  unfold instance_listed in Hl. apply andb_true_iff in Hl as [Hm Hal].
  injection Hi as -> -> -> -> -> ->.
  exists i. repeat split; [by apply list_elem_of_In|done|].
  unfold alive in Hal. apply negb_true_iff, bool_decide_eq_false in Hal. exact Hal.
Qed.

(** *** Buckets and zones, whatever the environment *)

Lemma s3_loop_rows cfg E bs : forall s found err name date,
  (err, BucketRow name date)
    ∈ echoes (run E (for_each bs (S3.list_bucket cfg) found) s).1.1 ->
  exists tags,
    existT (Api (get_bucket_tagging name)) (inr tags)
      ∈ (run E (for_each bs (S3.list_bucket cfg) found) s).1.1
    /\ isManaged cfg (tags_dict tags) = true.
Proof.
  induction bs as [|b bs IH]; intros s found err name date; cbn.
  - intros H. members H.
  - answer_cases.
    + case_bool_decide as Hcl; cbn.
      * specialize (IH s0 found err name date).
        destruct (run E (for_each bs _ found) s0) as [[t rr] s1]. cbn in *.
        intros H. destruct (IH H) as (tags & Hin & Hm). exists tags. split; [|done].
        by apply elem_of_cons; right.
      * intros H. members H.
    + destruct (isManaged cfg (tags_dict r)) eqn:Hm; cbn.
      * answer_cases. specialize (IH s1 true err name date).
        destruct (run E (for_each bs _ true) s1) as [[t rr] s2]. cbn in *.
        intros H. apply elem_of_cons in H as [H|H].
        -- injection H as -> -> ->. exists r. split; [|done]. apply list_elem_of_here.
        -- destruct (IH H) as (tags & Hin & Hm'). exists tags. split; [|done].
           do 2 (apply elem_of_cons; right). done.
      * specialize (IH s0 found err name date).
        destruct (run E (for_each bs _ found) s0) as [[t rr] s1]. cbn in *.
        intros H. destruct (IH H) as (tags & Hin & Hm'). exists tags. split; [|done].
        by apply elem_of_cons; right.
Qed.

(** Every bucket row of [list] is backed by a fetch of that bucket's tags
    which returned managed tags. *)
Lemma s3_list_rows cfg E s err name date :
  (err, BucketRow name date) ∈ echoes (trace_of E (S3.list cfg) s) ->
  exists tags,
    existT (Api (get_bucket_tagging name)) (inr tags) ∈ trace_of E (S3.list cfg) s
    /\ isManaged cfg (tags_dict tags) = true.
Proof.
  unfold trace_of, S3.list. cbn. answer_cases.
  - play. intros H; cbn in H; members H; discriminate.
  - do 2 answer_cases. rewrite run_try_except, run_bind.
    pose proof (s3_loop_rows cfg E r s2 false err name date) as IH.
    destruct (run E (for_each r _ false) s2) as [[t [rr|found]] s3]; cbn in *.
    + destruct rr as [e|]; cbn.
      * play. intros H. cbn in H.
        apply elem_of_cons in H as [H|H]; [discriminate|].
        apply elem_of_cons in H as [H|H]; [discriminate|].
        rewrite echoes_app in H. apply elem_of_app in H as [H|H].
        -- destruct (IH H) as (tags & Hin & Hm). exists tags. split; [|done].
           do 3 (apply elem_of_cons; right). apply elem_of_app. by left.
        -- cbn in H. members H. discriminate.
      * intros H. cbn in H.
        apply elem_of_cons in H as [H|H]; [discriminate|].
        apply elem_of_cons in H as [H|H]; [discriminate|].
        destruct (IH H) as (tags & Hin & Hm). exists tags. split; [|done].
        do 3 (apply elem_of_cons; right). done.
    + destruct found; cbn.
      * rewrite app_nil_r. intros H. cbn in H.
        apply elem_of_cons in H as [H|H]; [discriminate|].
        apply elem_of_cons in H as [H|H]; [discriminate|].
        destruct (IH H) as (tags & Hin & Hm). exists tags. split; [|done].
        do 3 (apply elem_of_cons; right). done.
      * play. intros H. cbn in H.
        apply elem_of_cons in H as [H|H]; [discriminate|].
        apply elem_of_cons in H as [H|H]; [discriminate|].
        rewrite echoes_app in H. apply elem_of_app in H as [H|H].
        -- destruct (IH H) as (tags & Hin & Hm). exists tags. split; [|done].
           do 3 (apply elem_of_cons; right). apply elem_of_app. by left.
        -- cbn in H. members H. discriminate.
Qed.

Lemma route53_loop_rows cfg E zs : forall s found err zid name n,
  (err, ZoneRow zid name n)
    ∈ echoes (run E (for_each zs (Route53.list_zone cfg) found) s).1.1 ->
  exists tags,
    existT (Api (list_tags_for_resource "hostedzone" zid)) (inr tags)
      ∈ (run E (for_each zs (Route53.list_zone cfg) found) s).1.1
    /\ isManaged cfg (tags_dict tags) = true.
Proof.
  induction zs as [|z zs IH]; intros s found err zid name n; cbn.
  - intros H. members H.
  - answer_cases.
    + specialize (IH s0 found err zid name n).
      destruct (run E (for_each zs _ found) s0) as [[t rr] s1]. cbn in *.
      intros H. destruct (IH H) as (tags & Hin & Hm). exists tags. split; [|done].
      by apply elem_of_cons; right.
    + destruct (isManaged cfg (tags_dict r)) eqn:Hm; cbn.
      * answer_cases. specialize (IH s1 true err zid name n).
        destruct (run E (for_each zs _ true) s1) as [[t rr] s2]. cbn in *.
        intros H. apply elem_of_cons in H as [H|H].
        -- injection H as -> -> -> ->. exists r. split; [|done]. apply list_elem_of_here.
        -- destruct (IH H) as (tags & Hin & Hm'). exists tags. split; [|done].
           do 2 (apply elem_of_cons; right). done.
      * specialize (IH s0 found err zid name n).
        destruct (run E (for_each zs _ found) s0) as [[t rr] s1]. cbn in *.
        intros H. destruct (IH H) as (tags & Hin & Hm'). exists tags. split; [|done].
        by apply elem_of_cons; right.
Qed.

(** Every zone row of [list] is backed by a fetch of that zone's tags which
    returned managed tags. *)
Lemma route53_list_rows cfg E s err zid name n :
  (err, ZoneRow zid name n) ∈ echoes (trace_of E (Route53.list cfg) s) ->
  exists tags,
    existT (Api (list_tags_for_resource "hostedzone" zid)) (inr tags)
      ∈ trace_of E (Route53.list cfg) s
    /\ isManaged cfg (tags_dict tags) = true.
Proof.
  unfold trace_of, Route53.list. cbn. answer_cases.
  - play. intros H; cbn in H; members H; discriminate.
  - do 2 answer_cases. rewrite run_try_except, run_bind.
    pose proof (route53_loop_rows cfg E r s2 false err zid name n) as IH.
    destruct (run E (for_each r _ false) s2) as [[t [rr|found]] s3]; cbn in *.
    + destruct rr as [e|]; cbn.
      * play. intros H. cbn in H.
        apply elem_of_cons in H as [H|H]; [discriminate|].
        apply elem_of_cons in H as [H|H]; [discriminate|].
        rewrite echoes_app in H. apply elem_of_app in H as [H|H].
        -- destruct (IH H) as (tags & Hin & Hm). exists tags. split; [|done].
           do 3 (apply elem_of_cons; right). apply elem_of_app. by left.
        -- cbn in H. members H. discriminate.
      * intros H. cbn in H.
        apply elem_of_cons in H as [H|H]; [discriminate|].
        apply elem_of_cons in H as [H|H]; [discriminate|].
        destruct (IH H) as (tags & Hin & Hm). exists tags. split; [|done].
        do 3 (apply elem_of_cons; right). done.
    + destruct found; cbn.
      * rewrite app_nil_r. intros H. cbn in H.
        apply elem_of_cons in H as [H|H]; [discriminate|].
        apply elem_of_cons in H as [H|H]; [discriminate|].
        destruct (IH H) as (tags & Hin & Hm). exists tags. split; [|done].
        do 3 (apply elem_of_cons; right). done.
      * play. intros H. cbn in H.
        apply elem_of_cons in H as [H|H]; [discriminate|].
        apply elem_of_cons in H as [H|H]; [discriminate|].
        rewrite echoes_app in H. apply elem_of_app in H as [H|H].
        -- destruct (IH H) as (tags & Hin & Hm). exists tags. split; [|done].
           do 3 (apply elem_of_cons; right). apply elem_of_app. by left.
        -- cbn in H. members H. discriminate.
Qed.

(** *** The web page *)

(** **** Commands that never perform some event *)

Lemma Never_sound P {A} (p : Prog A) :
  Never P p -> forall E s, Forall (fun en : Entry => ~ P (projT1 en)) (trace_of E p s).
Proof.
  unfold trace_of. induction 1 as [a|r|ev k Hev Hk IH]; intros E s; cbn; [constructor..|].
  destruct (env_step E s ev) as [a s1]. specialize (IH a E s1).
  destruct (run E (k a) s1) as [[t r] s2]. cbn in *. by constructor.
Qed.

Lemma Never_bind P {A B} (p : Prog A) (f : A -> Prog B) :
  Never P p -> (forall a, Never P (f a)) -> Never P (p ≫= f).
Proof.
  intros Hp Hf. induction Hp as [a|r|ev k Hev Hk IH]; cbn.
  - apply Hf.
  - constructor.
  - constructor; [done|]. exact IH.
Qed.

Lemma Never_try P {A} (p : Prog A) clause :
  Never P p -> (forall r q, clause r = Some q -> Never P q) ->
  Never P (try_except p clause).
Proof.
  intros Hp Hc. induction Hp as [a|r|ev k Hev Hk IH]; cbn.
  - constructor.
  - destruct (clause r) as [q|] eqn:Hq; [by eapply Hc|constructor].
  - constructor; [done|]. exact IH.
Qed.

Lemma Never_for_each P {A S} (xs : list A) (body : A -> S -> Prog S) :
  (forall x s, Never P (body x s)) -> forall s, Never P (for_each xs body s).
Proof.
  intros Hb. induction xs as [|x xs IH]; intros s; cbn.
  - constructor.
  - apply Never_bind; [apply Hb|]. exact IH.
Qed.

Lemma Never_except_Exception P {A} (h : Exn -> Prog A) :
  (forall e, Never P (h e)) ->
  forall r q, except_Exception h r = Some q -> Never P q.
Proof. intros Hh [e|] q; cbn; [|discriminate]. intros [= <-]. apply Hh. Qed.


(** One step of a proof of [Never], by the shape of the command. *)
Ltac never_step :=
  match goal with
  | |- forall _, _ => intro
  | |- Never _ (Ret _) => constructor
  | |- Never _ (mret _) => constructor
  | |- Never _ (Raise _) => constructor
  | |- Never _ (_ ≫= _) => apply Never_bind
  | |- Never _ (bind _ _) => apply Never_bind
  | |- Never _ (try_except _ (except_Exception _)) =>
      apply Never_try; [|apply Never_except_Exception]
  | |- Never _ (for_each _ _ _) => apply Never_for_each
  | |- Never _ (Vis _ _) => apply Never_Vis; [intros [? [=]]|]
  | |- Never _ (if ?b then _ else _) => destruct b
  | |- Never _ (match ?x with _ => _ end) => destruct x
  end.

Lemma add_record_form_shows_no_table name zid :
  Never is_table (App.add_record_form name zid).
Proof.
  unfold App.add_record_form, App.rerun, widget, display, call.
  repeat never_step.
Qed.

Lemma delete_record_list_shows_no_table zid :
  Never is_table (App.delete_record_list zid).
Proof.
  unfold App.delete_record_list, App.delete_record_row, App.resource_records,
    App.rerun, widget, display, call, first.
  repeat never_step.
Qed.

Lemma manage_records_shows_no_table (my_zones : list (string * string)) :
  Never is_table (App.manage_records my_zones).
Proof.
  unfold App.manage_records, App.selectbox, App.subscript, widget.
  repeat never_step;
    [apply add_record_form_shows_no_table|apply delete_record_list_shows_no_table].
Qed.

Local Arguments App.manage_records : simpl never.

Lemma displays_app (t1 t2 : Trace) : displays (t1 ++ t2) = displays t1 ++ displays t2.
Proof. apply omap_app. Qed.

Lemma shown_is_event (d : St.Display) (t : Trace) :
  d ∈ displays t -> exists en : Entry, en ∈ t /\ projT1 en = Display d.
Proof.
  unfold displays. intros H. apply list_elem_of_omap in H as (en & Hin & Hd).
  exists en. split; [done|]. destruct en as [[] a]; cbn in *; congruence.
Qed.

Lemma no_table_shown {A} (p : Prog A) E s data :
  Never is_table p -> St.table data ∉ displays (trace_of E p s).
Proof.
  intros Hn Hin. apply shown_is_event in Hin as (en & Hin & Hd).
  pose proof (Never_sound is_table p Hn E s) as Hall.
  rewrite Forall_forall in Hall. apply (Hall en Hin). by exists data.
Qed.

Lemma widgets_app (t1 t2 : Trace) : widgets (t1 ++ t2) = widgets t1 ++ widgets t2.
Proof. apply omap_app. Qed.

(** **** The instance table *)

(** The instance table of the web page is the data built from the answer to
    the listing query. *)
Lemma ui_instance_table cfg E s data :
  St.dataframe data ∈ displays (trace_of E (App.ec2_instances cfg) s) ->
  exists rs,
    (env_step E s (Api (describe_instances [] (Ec2.list_filters cfg)))).1 = inr rs
    /\ data = App.instance_data rs.
Proof.
  unfold trace_of, Ec2.list_filters. cbn. answer_cases.
  - play. intros H. cbn in H. members H; discriminate.
  - case_bool_decide as Hd; cbn.
    + do 2 answer_cases. play.
      all: intros H; cbn in H; members H; try discriminate.
      all: injection H as ->; eauto.
    + play. intros H. cbn in H. members H; discriminate.
Qed.

Lemma instance_data_described (l : list WInstance) e :
  e ∈ App.instance_data (map (fun i => mkReservation [describe i]) l) ->
  exists i, i ∈ l /\ St.entry_ID e = wi_id i /\ St.entry_State e = wi_state i
            /\ alive i = true.
Proof.
  unfold App.instance_data. induction l as [|i l IH]; cbn; [intros H; members H|].
  unfold App.instance_entry at 1. cbn.
  destruct (bool_decide (wi_state i = "terminated")) eqn:Hst; cbn.
  - intros H. destruct (IH H) as (i' & Hi' & Hrest). exists i'. split; [|exact Hrest].
    by apply elem_of_cons; right.
  - intros H. apply elem_of_cons in H as [->|H].
    + exists i. cbn. split; [apply list_elem_of_here|].
      unfold alive. by rewrite Hst.
    + destruct (IH H) as (i' & Hi' & Hrest). exists i'. split; [|exact Hrest].
      by apply elem_of_cons; right.
Qed.

Lemma ui_instance_table_world cfg O (w : World) (o : op_state O) data e :
  St.dataframe data ∈ displays (trace_of (system O) (App.ec2_instances cfg) (w, o)) ->
  e ∈ data ->
  exists i, i ∈ instances w /\ wi_id i = St.entry_ID e /\ wi_state i = St.entry_State e
            /\ isManaged cfg (wi_tags i) = true /\ St.entry_State e <> "terminated".
Proof.
  intros Hd He.
  destruct (ui_instance_table cfg (system O) (w, o) data Hd) as (rs & Hrs & ->).
  cbn in Hrs. rewrite api_list_query in Hrs. cbn in Hrs. injection Hrs as <-.
  destruct (instance_data_described _ e He) as (i & Hi & Hid & Hst & Hal).
  apply list_elem_of_In, filter_In in Hi as [Hi Hm].
  exists i. rewrite Hid, Hst. repeat split; [by apply list_elem_of_In|done|].
  unfold alive in Hal. by apply negb_true_iff, bool_decide_eq_false in Hal.
Qed.

(** Against the provider, the instance a button of the web page acts on is
    a managed instance of the listing. *)
Lemma ui_instance_buttons_act_on_managed cfg O (w : World) (o : op_state O) op ids :
  instance_call op ids ∈ calls (trace_of (system O) (App.ec2_instances cfg) (w, o)) ->
  exists i, i ∈ instances w /\ ids = [wi_id i] /\ isManaged cfg (wi_tags i) = true.
Proof.
  intros H.
  destruct (ui_instance_buttons_act_on_listed cfg (system O) (w, o) op ids H)
    as (rs & id & Hrs & -> & Hid).
  cbn in Hrs. rewrite api_list_query in Hrs. cbn in Hrs. injection Hrs as <-.
  apply list_elem_of_fmap in Hid as (e & -> & He).
  destruct (instance_data_described _ e He) as (i & Hi & -> & _ & _).
  apply list_elem_of_In, filter_In in Hi as [Hi Hm].
  exists i. split; [by apply list_elem_of_In|done].
Qed.

(** **** The bucket choice *)

(** The bucket loop of the web page: it shows no widget, never raises, and
    every name it adds is backed by a fetch that returned managed tags. *)
Lemma ui_bucket_loop cfg E bs : forall s acc,
  exists t res s',
    run E (for_each bs (App.s3_bucket cfg) acc) s = (t, inr res, s')
    /\ widgets t = []
    /\ forall name, name ∈ res ->
         name ∈ acc
         \/ exists tags, existT (Api (get_bucket_tagging name)) (inr tags) ∈ t
                         /\ isManaged cfg (tags_dict tags) = true.
Proof.
  induction bs as [|b bs IH]; intros s acc.
  - exists [], acc, s. cbn. repeat split. by left.
  - rewrite for_each_cons, run_bind. unfold App.s3_bucket at 1. cbn. answer_cases.
    + destruct (IH s0 acc) as (t & res & s' & -> & Hw & Hres).
      eexists _, _, _. split; [reflexivity|]. split; [exact Hw|].
      intros name Hn. destruct (Hres name Hn) as [?|(tags & Hin & Hm)]; [by left|].
      right. exists tags. split; [|done]. by apply elem_of_cons; right.
    + destruct (isManaged cfg (tags_dict r)) eqn:Hm; cbn.
      * destruct (IH s0 (acc ++ [BucketName b])) as (t & res & s' & -> & Hw & Hres).
        eexists _, _, _. split; [reflexivity|]. split; [exact Hw|].
        intros name Hn. destruct (Hres name Hn) as [Hacc|(tags & Hin & Hm')].
        -- apply elem_of_app in Hacc as [?|Hb]; [by left|].
           apply list_elem_of_singleton in Hb as ->.
           right. exists r. split; [apply list_elem_of_here|done].
        -- right. exists tags. split; [|done]. by apply elem_of_cons; right.
      * destruct (IH s0 acc) as (t & res & s' & -> & Hw & Hres).
        eexists _, _, _. split; [reflexivity|]. split; [exact Hw|].
        intros name Hn. destruct (Hres name Hn) as [?|(tags & Hin & Hm')]; [by left|].
        right. exists tags. split; [|done]. by apply elem_of_cons; right.
Qed.

(** The buckets the web page offers are backed by a fetch of their tags
    which returned managed tags. *)
Lemma ui_bucket_choice cfg E s label options name :
  St.selectbox label options ∈ widgets (trace_of E (App.s3_buckets cfg) s) ->
  name ∈ options ->
  exists tags,
    existT (Api (get_bucket_tagging name)) (inr tags) ∈ trace_of E (App.s3_buckets cfg) s
    /\ isManaged cfg (tags_dict tags) = true.
Proof.
  unfold trace_of, App.s3_buckets. cbn. answer_cases.
  - play. intros H. cbn in H. members H.
  - rewrite run_try_except, run_bind.
    destruct (ui_bucket_loop cfg E r s0 []) as (t & res & s' & -> & Hw & Hres).
    case_bool_decide as Hne; cbn; play.
    + intros H Hn. change (omap _ ?t) with (widgets t) in H.
      rewrite widgets_app, Hw in H. cbn in H.
      members H. injection H as -> ->.
      destruct (Hres name Hn) as [Hnil|(tags & Hin & Hm)]; [members Hnil|].
      exists tags. split; [|done]. apply elem_of_cons; right.
      apply elem_of_app. by left.
    + intros H. change (omap _ ?t) with (widgets t) in H.
      rewrite widgets_app, Hw in H. cbn in H. members H.
Qed.

(** **** The zone table *)

(** The zone loop of the web page: it shows nothing, never raises, and
    every row it adds is backed by a fetch that returned managed tags. *)
Lemma ui_zone_loop cfg E zs : forall s acc,
  exists t res s',
    run E (for_each zs (App.route53_zone cfg) acc) s = (t, inr res, s')
    /\ displays t = []
    /\ forall e, e ∈ res.2 ->
         e ∈ acc.2
         \/ exists tags,
              existT (Api (list_tags_for_resource "hostedzone" (St.entry_ZoneID e))) (inr tags) ∈ t
              /\ isManaged cfg (tags_dict tags) = true.
Proof.
  induction zs as [|z zs IH]; intros s acc.
  - exists [], acc, s. cbn. repeat split. by left.
  - rewrite for_each_cons, run_bind. unfold App.route53_zone at 1. cbn. answer_cases.
    + destruct (IH s0 acc) as (t & res & s' & -> & Hw & Hres).
      eexists _, _, _. split; [reflexivity|]. split; [exact Hw|].
      intros e' Hn. destruct (Hres e' Hn) as [?|(tags & Hin & Hm)]; [by left|].
      right. exists tags. split; [|done]. by apply elem_of_cons; right.
    + destruct (isManaged cfg (tags_dict r)) eqn:Hm; cbn.
      * match goal with |- context [run E (for_each zs _ ?acc') s0] =>
          destruct (IH s0 acc') as (t & res & s' & -> & Hw & Hres) end.
        eexists _, _, _. split; [reflexivity|]. split; [exact Hw|].
        intros e' Hn. destruct (Hres e' Hn) as [Hacc|(tags & Hin & Hm')].
        -- cbn in Hacc. apply elem_of_app in Hacc as [?|Hb]; [by left|].
           apply list_elem_of_singleton in Hb as ->.
           right. exists r. split; [apply list_elem_of_here|done].
        -- right. exists tags. split; [|done]. by apply elem_of_cons; right.
      * destruct (IH s0 acc) as (t & res & s' & -> & Hw & Hres).
        eexists _, _, _. split; [reflexivity|]. split; [exact Hw|].
        intros e' Hn. destruct (Hres e' Hn) as [?|(tags & Hin & Hm')]; [by left|].
        right. exists tags. split; [|done]. by apply elem_of_cons; right.
Qed.

(** The rows of the zone table are backed by a fetch of the zone's tags
    which returned managed tags. *)
Lemma ui_zone_table cfg E s data e :
  St.table data ∈ displays (trace_of E (App.route53_zones cfg) s) ->
  e ∈ data ->
  exists tags,
    existT (Api (list_tags_for_resource "hostedzone" (St.entry_ZoneID e))) (inr tags)
      ∈ trace_of E (App.route53_zones cfg) s
    /\ isManaged cfg (tags_dict tags) = true.
Proof.
  unfold trace_of, App.route53_zones. cbn. answer_cases.
  - play. intros H. cbn in H. members H. discriminate.
  - rewrite run_try_except, run_bind.
    destruct (ui_zone_loop cfg E r s0 ([], [])) as (t & [my_zones td] & s' & -> & Hd & Hres).
    cbn [fst snd] in Hres.
    case_bool_decide as Hne.
    + cbn. answer_cases.
      pose proof (no_table_shown _ E s1 data (manage_records_shows_no_table my_zones)) as Hrest.
      unfold trace_of in Hrest.
      destruct (run E _ s1) as [[t2 r2] s2]. cbn in Hrest.
      assert (St.table data ∈ displays (t ++ existT (Display (St.table td)) () :: t2) ->
              data = td) as Hmain.
      { rewrite displays_app, Hd. cbn. intros H. apply elem_of_cons in H as [H|H].
        - by injection H.
        - done. }
      assert (e ∈ data -> data = td -> exists tags,
                existT (Api (list_tags_for_resource "hostedzone" (St.entry_ZoneID e)))
                  (inr tags) ∈ t /\ isManaged cfg (tags_dict tags) = true) as Hback.
      { intros He ->. destruct (Hres e He) as [Hnil|?]; [members Hnil|done]. }
      destruct r2 as [[e2|]|[]]; cbn.
      * answer_cases. intros H He.
        assert (data = td) as Heq.
        { apply Hmain. change (omap _ ?x) with (displays x) in H.
          rewrite displays_app in H. apply elem_of_app in H as [H|H]; [exact H|].
          cbn in H. members H. discriminate. }
        destruct (Hback He Heq) as (tags & Hin & Hm). exists tags. split; [|done].
        apply elem_of_cons; right. apply elem_of_app; left. apply elem_of_app. by left.
      * intros H He. destruct (Hback He (Hmain H)) as (tags & Hin & Hm).
        exists tags. split; [|done].
        apply elem_of_cons; right. apply elem_of_app. by left.
      * rewrite ?app_nil_r. intros H He. destruct (Hback He (Hmain H)) as (tags & Hin & Hm).
        exists tags. split; [|done].
        apply elem_of_cons; right. apply elem_of_app. by left.
    + cbn. play. rewrite ?app_nil_r. intros H. exfalso. cbn in H.
      change (omap _ ?x) with (displays x) in H.
      rewrite displays_app, Hd in H. cbn in H. members H. discriminate.
Qed.

(** The record buttons of the web page. *)

Ltac never_change :=
  match goal with
  | |- forall _, _ => intro
  | |- Never _ (Ret _) => constructor
  | |- Never _ (mret _) => constructor
  | |- Never _ (Raise _) => constructor
  | |- Never _ (_ ≫= _) => apply Never_bind
  | |- Never _ (bind _ _) => apply Never_bind
  | |- Never _ (try_except _ (except_Exception _)) =>
      apply Never_try; [|apply Never_except_Exception]
  | |- Never _ (try_except _ (except_all _)) =>
      apply Never_try; [|intros ? ? [= <-]]
  | |- Never _ (for_each _ _ _) => apply Never_for_each
  | |- Never _ (Vis _ _) =>
      apply Never_Vis;
      [intros (? & ? & Hev & Hout); first [discriminate Hev | by injection Hev as <- <-]|]
  | |- Never _ (if ?b then _ else _) => destruct b
  | |- Never _ (match ?x with _ => _ end) => destruct x
  end.

Lemma add_record_form_changes_its_zone allowed name zid :
  zid ∈ allowed -> Never (changes_zone_outside allowed) (App.add_record_form name zid).
Proof.
  intros Hin. unfold App.add_record_form, App.rerun, widget, display, call.
  repeat never_change.
Qed.

Lemma delete_record_list_changes_its_zone allowed zid :
  zid ∈ allowed -> Never (changes_zone_outside allowed) (App.delete_record_list zid).
Proof.
  intros Hin.
  unfold App.delete_record_list, App.delete_record_row, App.resource_records,
    App.rerun, widget, display, call, first.
  repeat never_change.
Qed.

Lemma dict_get_in k v (d : list (string * string)) :
  App.dict_get k d = Some v -> v ∈ map snd d.
Proof.
  induction d as [|[k' v'] d IH]; cbn; [done|].
  case_bool_decide.
  - intros [= ->]. apply list_elem_of_here.
  - intros H'. apply list_elem_of_further. by apply IH.
Qed.

Lemma manage_records_changes_a_listed_zone (my_zones : list (string * string)) :
  Never (changes_zone_outside (map snd my_zones)) (App.manage_records my_zones).
Proof.
  unfold App.manage_records. apply Never_bind.
  - unfold App.selectbox, widget. repeat never_change.
  - intros name. unfold App.subscript.
    destruct (App.dict_get name my_zones) as [zid|] eqn:Hget; [|constructor].
    apply dict_get_in in Hget. cbn -[App.add_record_form App.delete_record_list].
    apply Never_bind; [by apply add_record_form_changes_its_zone|].
    intros _. by apply delete_record_list_changes_its_zone.
Qed.

Lemma dict_set_in k v (d : list (string * string)) z :
  z ∈ map snd (App.dict_set k v d) -> z = v \/ z ∈ map snd d.
Proof.
  induction d as [|[k' v'] d IH]; cbn.
  - intros H. members H. by left.
  - case_bool_decide as Hk; cbn; intros H; apply elem_of_cons in H as [->|H].
    + by left.
    + right. by apply list_elem_of_further.
    + right. apply list_elem_of_here.
    + destruct (IH H) as [->|?]; [by left|]. right. by apply list_elem_of_further.
Qed.

(** The zone loop of the web page changes no zone, and every zone it keeps
    is backed by a fetch that returned managed tags. *)
Lemma ui_zone_loop_ids cfg E zs : forall s acc,
  exists t res s',
    run E (for_each zs (App.route53_zone cfg) acc) s = (t, inr res, s')
    /\ Forall (fun c => is_mutating c = false) (calls t)
    /\ forall zid, zid ∈ map snd res.1 ->
         zid ∈ map snd acc.1
         \/ exists tags,
              existT (Api (list_tags_for_resource "hostedzone" zid)) (inr tags) ∈ t
              /\ isManaged cfg (tags_dict tags) = true.
Proof.
  induction zs as [|z zs IH]; intros s acc.
  - exists [], acc, s. cbn. repeat split; [constructor|]. by left.
  - rewrite for_each_cons, run_bind. unfold App.route53_zone at 1. cbn. answer_cases.
    + destruct (IH s0 acc) as (t & res & s' & -> & Hw & Hres).
      eexists _, _, _. split; [reflexivity|]. split; [by constructor|].
      intros e' Hn. destruct (Hres e' Hn) as [?|(tags & Hin & Hm)]; [by left|].
      right. exists tags. split; [|done]. by apply elem_of_cons; right.
    + destruct (isManaged cfg (tags_dict r)) eqn:Hm; cbn.
      * match goal with |- context [run E (for_each zs _ ?acc') s0] =>
          destruct (IH s0 acc') as (t & res & s' & -> & Hw & Hres) end.
        eexists _, _, _. split; [reflexivity|]. split; [by constructor|].
        intros e' Hn. destruct (Hres e' Hn) as [Hacc|(tags & Hin & Hm')].
        -- cbn in Hacc. apply dict_set_in in Hacc as [->|?]; [|by left].
           right. exists r. split; [apply list_elem_of_here|done].
        -- right. exists tags. split; [|done]. by apply elem_of_cons; right.
      * destruct (IH s0 acc) as (t & res & s' & -> & Hw & Hres).
        eexists _, _, _. split; [reflexivity|]. split; [by constructor|].
        intros e' Hn. destruct (Hres e' Hn) as [?|(tags & Hin & Hm')]; [by left|].
        right. exists tags. split; [|done]. by apply elem_of_cons; right.
Qed.

Lemma called_is_event (c : ApiCall) (t : Trace) :
  c ∈ calls t -> exists en : Entry, en ∈ t /\ projT1 en = Api c.
Proof.
  unfold calls. intros H. apply list_elem_of_omap in H as (en & Hin & Hd).
  exists en. split; [done|]. destruct en as [[] a]; cbn in *; congruence.
Qed.

(** The record buttons of the web page change only a zone whose tags,
    fetched in the same run, are managed. *)
Lemma ui_record_buttons_act_on_managed cfg E s zid chs :
  change_resource_record_sets zid chs ∈ calls (trace_of E (App.route53_zones cfg) s) ->
  exists tags,
    existT (Api (list_tags_for_resource "hostedzone" zid)) (inr tags)
      ∈ trace_of E (App.route53_zones cfg) s
    /\ isManaged cfg (tags_dict tags) = true.
Proof.
  unfold trace_of, App.route53_zones. cbn. answer_cases.
  - play. intros H. cbn in H. members H. discriminate.
  - rewrite run_try_except, run_bind.
    destruct (ui_zone_loop_ids cfg E r s0 ([], [])) as (t & [my_zones td] & s' & -> & Hc & Hres).
    cbn [fst snd] in Hres.
    assert (change_resource_record_sets zid chs ∉ calls t) as Hloop.
    { intros Hin. rewrite Forall_forall in Hc. by apply Hc in Hin. }
    case_bool_decide as Hne.
    + cbn. answer_cases.
      pose proof (Never_sound _ _ (manage_records_changes_a_listed_zone my_zones) E s1) as Hrest.
      unfold trace_of in Hrest.
      destruct (run E _ s1) as [[t2 r2] s2]. cbn in Hrest.
      assert (change_resource_record_sets zid chs ∈ calls t2 ->
              exists tags,
                existT (Api (list_tags_for_resource "hostedzone" zid)) (inr tags) ∈ t
                /\ isManaged cfg (tags_dict tags) = true) as Hback.
      { intros Hin. apply called_is_event in Hin as (en & Hen & Hev).
        rewrite Forall_forall in Hrest. specialize (Hrest en Hen).
        destruct (decide (zid ∈ map snd my_zones)) as [Hz|Hz].
        - destruct (Hres zid Hz) as [Hnil|?]; [members Hnil|done].
        - exfalso. apply Hrest. by exists zid, chs. }
      assert (change_resource_record_sets zid chs
                ∈ calls (t ++ existT (Display (St.table td)) () :: t2) ->
              exists tags,
                existT (Api (list_tags_for_resource "hostedzone" zid)) (inr tags) ∈ t
                /\ isManaged cfg (tags_dict tags) = true) as Hmain.
      { rewrite calls_app. intros H. apply elem_of_app in H as [H|H]; [done|].
        apply Hback. exact H. }
      destruct r2 as [[e2|]|[]]; cbn.
      * answer_cases. intros H.
        apply elem_of_cons in H as [H|H]; [discriminate|].
        change (omap _ ?x) with (calls x) in H.
        rewrite calls_app in H. apply elem_of_app in H as [H|H]; [|cbn in H; members H].
        destruct (Hmain H) as (tags & Hin & Hm). exists tags. split; [|done].
        apply elem_of_cons; right. apply elem_of_app; left. apply elem_of_app. by left.
      * intros H.
        apply elem_of_cons in H as [H|H]; [discriminate|].
        destruct (Hmain H) as (tags & Hin & Hm).
        exists tags. split; [|done].
        apply elem_of_cons; right. apply elem_of_app. by left.
      * rewrite ?app_nil_r. intros H.
        apply elem_of_cons in H as [H|H]; [discriminate|].
        destruct (Hmain H) as (tags & Hin & Hm).
        exists tags. split; [|done].
        apply elem_of_cons; right. apply elem_of_app. by left.
    + cbn. play. rewrite ?app_nil_r. intros H. exfalso.
      apply elem_of_cons in H as [H|H]; [discriminate|].
      change (omap _ ?x) with (calls x) in H.
      rewrite calls_app in H. apply elem_of_app in H as [H|H]; [done|].
      cbn in H. members H.
Qed.

(** C7.  Every row the instance listing prints against the provider is an
    instance that carries the configured [CreatedBy] value and is not in the
    terminated state.  Every row of the bucket listing and of the zone
    listing, whatever the environment answers, is backed in the same run by
    a fetch of that resource's tags which returned tags for which
    [isManaged] holds.  The same holds of the three listings of the web
    page: the rows of its instance table, the buckets it offers for choice
    and the rows of its zone table. *)
Theorem C7_listings_show_only_managed (cfg : Config) :
  (forall (O : Operator) (w : World) (o : op_state O) err id name state ty ip,
     (err, InstanceRow id name state ty ip)
       ∈ echoes (trace_of (system O) (Ec2.list cfg) (w, o)) ->
     exists i, i ∈ instances w /\ wi_id i = id /\ wi_state i = state
               /\ isManaged cfg (wi_tags i) = true /\ state <> "terminated")
  /\ (forall (E : Env) (s : env_state E) err name date,
        (err, BucketRow name date) ∈ echoes (trace_of E (S3.list cfg) s) ->
        exists tags,
          existT (Api (get_bucket_tagging name)) (inr tags) ∈ trace_of E (S3.list cfg) s
          /\ isManaged cfg (tags_dict tags) = true)
  /\ (forall (E : Env) (s : env_state E) err zid name n,
        (err, ZoneRow zid name n) ∈ echoes (trace_of E (Route53.list cfg) s) ->
        exists tags,
          existT (Api (list_tags_for_resource "hostedzone" zid)) (inr tags)
            ∈ trace_of E (Route53.list cfg) s
          /\ isManaged cfg (tags_dict tags) = true)
  /\ (forall (O : Operator) (w : World) (o : op_state O) data e,
        St.dataframe data
          ∈ displays (trace_of (system O) (App.ec2_instances cfg) (w, o)) ->
        e ∈ data ->
        exists i, i ∈ instances w /\ wi_id i = St.entry_ID e
                  /\ wi_state i = St.entry_State e
                  /\ isManaged cfg (wi_tags i) = true
                  /\ St.entry_State e <> "terminated")
  /\ (forall (E : Env) (s : env_state E) label options name,
        St.selectbox label options ∈ widgets (trace_of E (App.s3_buckets cfg) s) ->
        name ∈ options ->
        exists tags,
          existT (Api (get_bucket_tagging name)) (inr tags)
            ∈ trace_of E (App.s3_buckets cfg) s
          /\ isManaged cfg (tags_dict tags) = true)
  /\ (forall (E : Env) (s : env_state E) data e,
        St.table data ∈ displays (trace_of E (App.route53_zones cfg) s) ->
        e ∈ data ->
        exists tags,
          existT (Api (list_tags_for_resource "hostedzone" (St.entry_ZoneID e))) (inr tags)
            ∈ trace_of E (App.route53_zones cfg) s
          /\ isManaged cfg (tags_dict tags) = true).
Proof.
  split; [|split; [|split; [|split; [|split]]]].
  - intros O w o err id name state ty ip. apply ec2_list_rows.
  - intros E s err name date. apply s3_list_rows.
  - intros E s err zid name n. apply route53_list_rows.
  - intros O w o data e. apply ui_instance_table_world.
  - intros E s label options name. apply ui_bucket_choice.
  - intros E s data e. apply ui_zone_table.
Qed.

(** The one row printed for [one_managed] is its managed instance. *)
Lemma C7_listed_instance_is_managed :
  exists i, i ∈ instances one_managed /\ wi_id i = "i-1" /\ wi_state i = "running"
            /\ isManaged cfg0 (wi_tags i) = true /\ "running" <> "terminated".
Proof.
  apply (proj1 (C7_listings_show_only_managed cfg0) (replying true) one_managed tt
           false "i-1" "web" "running" "t3.micro" "N/A").
  vm_compute. do 2 apply list_elem_of_further. apply list_elem_of_here.
Defined.

(** ** C1: the guard, in the command line and in the page *)

(** The record buttons follow the tag fetch: the run splits into a part
    that changes nothing and holds the fetch of the zone's tags, which are
    managed, and the part that holds the change. *)
Lemma ui_record_buttons_follow_the_fetch cfg E s zid chs :
  change_resource_record_sets zid chs ∈ calls (trace_of E (App.route53_zones cfg) s) ->
  exists before after tags,
    trace_of E (App.route53_zones cfg) s = before ++ after
    /\ Forall (fun c => is_mutating c = false) (calls before)
    /\ existT (Api (list_tags_for_resource "hostedzone" zid)) (inr tags) ∈ before
    /\ isManaged cfg (tags_dict tags) = true.
Proof.
  unfold trace_of, App.route53_zones. cbn. answer_cases.
  - play. intros H. cbn in H. members H. discriminate.
  - rewrite run_try_except, run_bind.
    destruct (ui_zone_loop_ids cfg E r s0 ([], [])) as (t & [my_zones td] & s' & -> & Hc & Hres).
    cbn [fst snd] in Hres.
    assert (change_resource_record_sets zid chs ∉ calls t) as Hloop.
    { intros Hin. rewrite Forall_forall in Hc. by apply Hc in Hin. }
    assert (forall t2 : Trace,
              change_resource_record_sets zid chs ∈ calls t2 ->
              Forall (fun en : Entry => ~ changes_zone_outside (map snd my_zones) (projT1 en)) t2 ->
              exists tags,
                existT (Api (list_tags_for_resource "hostedzone" zid)) (inr tags) ∈ t
                /\ isManaged cfg (tags_dict tags) = true) as Hback.
    { intros t2 Hin Hrest. apply called_is_event in Hin as (en & Hen & Hev).
      rewrite Forall_forall in Hrest. specialize (Hrest en Hen).
      destruct (decide (zid ∈ map snd my_zones)) as [Hz|Hz].
      - destruct (Hres zid Hz) as [Hnil|?]; [members Hnil|done].
      - exfalso. apply Hrest. rewrite Hev. by exists zid, chs. }
    assert (forall (tags : list Tag) (after : Trace),
              existT (Api (list_tags_for_resource "hostedzone" zid)) (inr tags) ∈ t ->
              isManaged cfg (tags_dict tags) = true ->
              exists before after' tags',
                existT (Api list_hosted_zones) (inr r) :: t ++ after = before ++ after'
                /\ Forall (fun c => is_mutating c = false) (calls before)
                /\ existT (Api (list_tags_for_resource "hostedzone" zid)) (inr tags') ∈ before
                /\ isManaged cfg (tags_dict tags') = true) as Hsplit.
    { intros tags after Hin Hm.
      exists (existT (Api list_hosted_zones) (inr r) :: t), after, tags.
      split; [reflexivity|]. split; [by constructor|].
      split; [by apply list_elem_of_further|done]. }
    case_bool_decide as Hne.
    + cbn. answer_cases.
      pose proof (Never_sound _ _ (manage_records_changes_a_listed_zone my_zones) E s1) as Hrest.
      unfold trace_of in Hrest.
      destruct (run E _ s1) as [[t2 r2] s2]. cbn in Hrest.
      destruct r2 as [[e2|]|[]]; cbn.
      * answer_cases. intros H.
        apply elem_of_cons in H as [H|H]; [discriminate|].
        change (omap _ ?x) with (calls x) in H.
        rewrite calls_app in H. apply elem_of_app in H as [H|H]; [|cbn in H; members H].
        rewrite calls_app in H. apply elem_of_app in H as [H|H]; [done|].
        destruct (Hback t2 H Hrest) as (tags & Hin & Hm).
        rewrite <- app_assoc. by apply (Hsplit tags).
      * intros H.
        apply elem_of_cons in H as [H|H]; [discriminate|].
        change (omap _ ?x) with (calls x) in H.
        rewrite calls_app in H. apply elem_of_app in H as [H|H]; [done|].
        destruct (Hback t2 H Hrest) as (tags & Hin & Hm).
        by apply (Hsplit tags).
      * rewrite ?app_nil_r. intros H.
        apply elem_of_cons in H as [H|H]; [discriminate|].
        change (omap _ ?x) with (calls x) in H.
        rewrite calls_app in H. apply elem_of_app in H as [H|H]; [done|].
        destruct (Hback t2 H Hrest) as (tags & Hin & Hm).
        by apply (Hsplit tags).
    + cbn. play. rewrite ?app_nil_r. intros H. exfalso.
      apply elem_of_cons in H as [H|H]; [discriminate|].
      change (omap _ ?x) with (calls x) in H.
      rewrite calls_app in H. apply elem_of_app in H as [H|H]; [done|].
      cbn in H. members H.
Qed.

Lemma head_of_trace {A} (E : Env) ev (k : Answer ev -> Prog A) (s : env_state E) :
  head (trace_of E (Vis ev k) s) = Some (existT ev (env_step E s ev).1).
Proof.
  unfold trace_of. cbn. destruct (env_step E s ev) as [a s1].
  by destruct (run E (k a) s1) as [[t r] s2].
Qed.

(** The instance table of the page starts with the listing, which asks the
    provider for the managed instances and brings their tags. *)
Lemma ui_instance_listing_first cfg E s :
  head (trace_of E (App.ec2_instances cfg) s)
  = Some (existT (Api (describe_instances [] (Ec2.list_filters cfg)))
            (env_step E s (Api (describe_instances [] (Ec2.list_filters cfg)))).1).
Proof.
  assert (exists k, App.ec2_instances cfg
                    = Vis (Api (describe_instances [] (Ec2.list_filters cfg))) k) as [k ->]
    by (eexists; reflexivity).
  apply head_of_trace.
Qed.

Lemma same_id_same_instance (l : list WInstance) (i j : WInstance) :
  NoDup (map wi_id l) -> i ∈ l -> j ∈ l -> wi_id i = wi_id j -> i = j.
Proof.
  induction l as [|x l IH]; intros Hnd Hi Hj Heq; [by apply elem_of_nil in Hi|].
  cbn in Hnd. apply NoDup_cons in Hnd as [Hx Hnd].
  apply elem_of_cons in Hi as [->|Hi]; apply elem_of_cons in Hj as [->|Hj].
  - done.
  - destruct Hx. rewrite Heq. by apply list_elem_of_fmap_2.
  - destruct Hx. rewrite <- Heq. by apply list_elem_of_fmap_2.
  - by apply IH.
Qed.

(** C1.  Every operation that changes or deletes an existing resource is
    kept to the resources of the tool, in the command line and in the page.
    The command line (start, stop and terminate an instance; add and delete
    a record) first fetches the tags of the resource, whatever the
    environment; when the tags fetched do not carry the configured
    [CreatedBy] value, the command prints the not-managed error and the
    fetch stays its only provider call.  The page fetches first as well: the
    instance table starts with the listing of the managed instances, and
    against the provider its buttons send their call for an instance that
    carries the value, so that none is sent for an instance that does not;
    the record buttons, whatever the environment, send their change after a
    fetch of the zone's tags that returned managed tags, with no mutating
    call before that fetch, so that none is sent for a zone whose fetches
    did not. *)
Theorem C1_operations_are_guarded (cfg : Config) :
  (forall (E : Env) (s : env_state E),
     (forall op id,
        head (trace_of E (instance_command cfg op id) s)
        = Some (existT (Api (describe_instances [id] []))
                  (env_step E s (Api (describe_instances [id] []))).1)
        /\ forall i is' rs,
            (env_step E s (Api (describe_instances [id] []))).1
            = inr (mkReservation (i :: is') :: rs) ->
            isManaged cfg (instance_tags i) = false ->
            calls (trace_of E (instance_command cfg op id) s) = [describe_instances [id] []]
            /\ echoes (trace_of E (instance_command cfg op id) s)
               = [(true, InstanceNotManaged id)])
     /\ (forall op zid sub ip,
           head (trace_of E (record_command cfg op zid sub ip) s)
           = Some (existT (Api (list_tags_for_resource "hostedzone" zid))
                     (env_step E s (Api (list_tags_for_resource "hostedzone" zid))).1)
           /\ forall tags,
               (env_step E s (Api (list_tags_for_resource "hostedzone" zid))).1 = inr tags ->
               isManaged cfg (tags_dict tags) = false ->
               calls (trace_of E (record_command cfg op zid sub ip) s)
               = [list_tags_for_resource "hostedzone" zid]
               /\ echoes (trace_of E (record_command cfg op zid sub ip) s)
                  = [(true, ZoneNotManaged zid)]))
  /\ (forall (O : Operator) (w : World) (o : op_state O),
        let t := trace_of (system O) (App.ec2_instances cfg) (w, o) in
        head t
        = Some (existT (Api (describe_instances [] (Ec2.list_filters cfg)))
                  (api w (describe_instances [] (Ec2.list_filters cfg))).1)
        /\ (forall op ids,
              instance_call op ids ∈ calls t ->
              exists i, i ∈ instances w /\ ids = [wi_id i]
                        /\ isManaged cfg (wi_tags i) = true)
        /\ (NoDup (map wi_id (instances w)) ->
            forall i op,
              i ∈ instances w -> isManaged cfg (wi_tags i) = false ->
              instance_call op [wi_id i] ∉ calls t))
  /\ (forall (E : Env) (s : env_state E) zid,
        let t := trace_of E (App.route53_zones cfg) s in
        (forall chs,
           change_resource_record_sets zid chs ∈ calls t ->
           exists before after tags,
             t = before ++ after
             /\ Forall (fun c => is_mutating c = false) (calls before)
             /\ existT (Api (list_tags_for_resource "hostedzone" zid)) (inr tags) ∈ before
             /\ isManaged cfg (tags_dict tags) = true)
        /\ ((forall tags,
               existT (Api (list_tags_for_resource "hostedzone" zid)) (inr tags) ∈ t ->
               isManaged cfg (tags_dict tags) = false) ->
            forall chs, change_resource_record_sets zid chs ∉ calls t)).
Proof.
  split; [|split].
  - intros E s. apply cli_commands_are_guarded.
  - intros O w o. cbv zeta. split; [|split].
    + rewrite ui_instance_listing_first. cbn. by destruct (api w _).
    + intros op ids. apply ui_instance_buttons_act_on_managed.
    + intros Hnd i op Hi Hm Hcall.
      destruct (ui_instance_buttons_act_on_managed cfg O w o op [wi_id i] Hcall)
        as (j & Hj & Hid & Hmj).
      injection Hid as Hid.
      rewrite (same_id_same_instance _ i j Hnd Hi Hj Hid) in Hm. congruence.
  - intros E s zid. cbv zeta. split.
    + intros chs. apply ui_record_buttons_follow_the_fetch.
    + intros Hnone chs Hcall.
      destruct (ui_record_buttons_follow_the_fetch cfg E s zid chs Hcall)
        as (before & after & tags & Heq & _ & Hin & Hm).
      rewrite (Hnone tags) in Hm; [discriminate|].
      rewrite Heq. apply elem_of_app. by left.
Qed.

(** Stopping somebody else's instance from the command line is refused. *)
Lemma C1_cli_refuses_foreign_instance :
  calls (trace_of (Provider.system (Provider.replying true)) (Ec2.stop cfg0 "i-9")
           (one_managed, tt))
  = [describe_instances ["i-9"] []]
  /\ echoes (trace_of (Provider.system (Provider.replying true)) (Ec2.stop cfg0 "i-9")
               (one_managed, tt))
     = [(true, InstanceNotManaged "i-9")].
Proof.
  destruct (proj1 (C1_operations_are_guarded cfg0)
              (Provider.system (Provider.replying true)) (one_managed, tt)) as [Hinst _].
  destruct (Hinst Stop "i-9") as [_ Hrefuse].
  eapply Hrefuse; reflexivity.
Defined.

(** ** C8: a failed tag fetch during a listing *)

Lemma echoes_cons_call c a (t : Trace) : echoes (existT (Api c) a :: t) = echoes t.
Proof. reflexivity. Qed.

Lemma echoes_cons_echo err m u (t : Trace) :
  echoes (existT (Echo err m) u :: t) = (err, m) :: echoes t.
Proof. reflexivity. Qed.

Lemma calls_cons_call c a (t : Trace) : calls (existT (Api c) a :: t) = c :: calls t.
Proof. reflexivity. Qed.

Lemma calls_cons_echo err m u (t : Trace) : calls (existT (Echo err m) u :: t) = calls t.
Proof. reflexivity. Qed.

(** Read the calls and the messages off a trace that is written out up to
    the trace of a loop. *)
Ltac observe :=
  rewrite ?echoes_cons_call, ?echoes_cons_echo, ?calls_cons_call, ?calls_cons_echo,
    ?echoes_app, ?calls_app.

Lemma existsb_filter_nil {A} (P : A -> bool) (l : list A) :
  existsb P l = match List.filter P l with [] => false | _ => true end.
Proof. induction l as [|x l IH]; cbn; [done|]. by destruct (P x). Qed.

Lemma no_error_in_rows none (l : list (bool * Msg)) :
  Forall (fun em : bool * Msg => em.1 = false) l ->
  Forall (fun em : bool * Msg => em.1 = false) (rows_or none l).
Proof. intros H. destruct l; [by repeat constructor|exact H]. Qed.

(** *** Buckets *)

(** One turn of the bucket loop against the provider. *)
Lemma run_list_bucket cfg O (w : World) (o : op_state O) (b : WBucket) found :
  run (system O) (S3.list_bucket cfg (bucket_of b) found) (w, o)
  = let a := (api w (get_bucket_tagging (wb_name b))).1 in
    let fetch := existT (Api (get_bucket_tagging (wb_name b))) a in
    match a with
    | inl e =>
        if bool_decide (exn_class e = ClientError) then ([fetch], inr found, (w, o))
        else ([fetch], inl (Exception e), (w, o))
    | inr tags =>
        if isManaged cfg (tags_dict tags)
        then ([fetch; existT (Echo false (bucket_row b).2) tt], inr true, (w, o))
        else ([fetch], inr found, (w, o))
    end.
Proof.
  unfold S3.list_bucket, bucket_of. cbn.
  pose proof (api_read_only w (get_bucket_tagging (wb_name b)) eq_refl) as Hw.
  destruct (api w (get_bucket_tagging (wb_name b))) as [[e|tags] w']; cbn in *; subst w'.
  - by case_bool_decide.
  - by destruct (isManaged cfg (tags_dict tags)).
Qed.

Lemma s3_list_loop cfg O (w : World) (o : op_state O) (bs : list WBucket) :
  (forall b e, b ∈ bs -> (api w (get_bucket_tagging (wb_name b))).1 = inl e ->
               exn_class e = ClientError) ->
  forall found,
  exists t,
    run (system O) (for_each (map bucket_of bs) (S3.list_bucket cfg) found) (w, o)
    = (t, inr (found || existsb (bucket_listed cfg w) bs), (w, o))
    /\ echoes t = map bucket_row (List.filter (bucket_listed cfg w) bs)
    /\ calls t = map (fun b => get_bucket_tagging (wb_name b)) bs.
Proof.
  induction bs as [|b bs IH]; intros Hcl found.
  - exists []. cbn. by rewrite orb_false_r.
  - cbn [map]. rewrite for_each_cons, run_bind, run_list_bucket. cbv zeta.
    assert (forall b' e, b' ∈ bs -> (api w (get_bucket_tagging (wb_name b'))).1 = inl e ->
               exn_class e = ClientError) as Hcl'.
    { intros b' e Hin. apply Hcl. by apply elem_of_cons; right. }
    pose proof (Hcl b) as Hb.
    cbn [List.filter existsb]. unfold bucket_listed at 1 3 4.
    destruct ((api w (get_bucket_tagging (wb_name b))).1) as [e|tags] eqn:Ha.
    + rewrite bool_decide_true by (apply Hb; [apply list_elem_of_here|done]).
      destruct (IH Hcl' found) as (t & Hrun & He & Hc). rewrite Hrun.
      eexists. split; [reflexivity|]. by rewrite echoes_app, calls_app, He, Hc.
    + destruct (isManaged cfg (tags_dict tags)).
      * destruct (IH Hcl' true) as (t & Hrun & He & Hc). rewrite Hrun.
        eexists. split; [by rewrite orb_true_r|].
        rewrite echoes_app, calls_app, He, Hc. by destruct b.
      * destruct (IH Hcl' found) as (t & Hrun & He & Hc). rewrite Hrun.
        eexists. split; [reflexivity|]. by rewrite echoes_app, calls_app, He, Hc.
Qed.

(** When the tag fetches fail only with the provider's error response, the
    bucket listing fetches the tags of every bucket and prints exactly the
    buckets whose own fetch gave managed tags. *)
Lemma s3_list_world cfg O (w : World) (o : op_state O) :
  tag_fetches_fail_as_ClientError w ->
  echoes (trace_of (system O) (S3.list cfg) (w, o))
  = (false, BucketHeader) :: (false, Rule 65)
    :: rows_or NoBuckets (map bucket_row (List.filter (bucket_listed cfg w) (buckets w)))
  /\ calls (trace_of (system O) (S3.list cfg) (w, o))
     = list_buckets :: map (fun b => get_bucket_tagging (wb_name b)) (buckets w).
Proof.
  intros Hcl. unfold trace_of, S3.list. cbn.
  change (api w list_buckets) with (inr (map bucket_of (buckets w)) : Exn + list Bucket, w).
  cbn. rewrite run_try_except, run_bind.
  destruct (s3_list_loop cfg O w o (buckets w) Hcl false) as (t & Hrun & He & Hc).
  rewrite Hrun. cbn [orb]. rewrite existsb_filter_nil.
  destruct (List.filter (bucket_listed cfg w) (buckets w)) as [|b' l'] eqn:Hf;
    cbn -[echoes calls]; observe; rewrite He, Hc; cbn; by rewrite ?app_nil_r.
Qed.

(** *** Zones *)

(** One turn of the zone loop against the provider: whatever the failure of
    the fetch, the zone is passed over. *)
Lemma run_list_zone cfg O (w : World) (o : op_state O) (z : WZone) found :
  run (system O) (Route53.list_zone cfg (zone_of z) found) (w, o)
  = let a := (api w (list_tags_for_resource "hostedzone" (zone_ref z))).1 in
    let fetch := existT (Api (list_tags_for_resource "hostedzone" (zone_ref z))) a in
    match a with
    | inl e => ([fetch], inr found, (w, o))
    | inr tags =>
        if isManaged cfg (tags_dict tags)
        then ([fetch; existT (Echo false (zone_row z).2) tt], inr true, (w, o))
        else ([fetch], inr found, (w, o))
    end.
Proof.
  unfold Route53.list_zone, zone_row.
  change (split_last "/" (ZoneId (zone_of z))) with (zone_ref z).
  change (ZoneName (zone_of z)) with (wz_name z).
  change (ResourceRecordSetCount (zone_of z)) with (length (wz_records z)).
  generalize (zone_ref z). intros ref. cbn.
  pose proof (api_read_only w (list_tags_for_resource "hostedzone" ref) eq_refl) as Hw.
  destruct (api w (list_tags_for_resource "hostedzone" ref)) as [[e|tags] w'];
    cbn in *; subst w'.
  - done.
  - by destruct (isManaged cfg (tags_dict tags)).
Qed.

Lemma route53_list_loop cfg O (w : World) (o : op_state O) (zs : list WZone) :
  forall found,
  exists t,
    run (system O) (for_each (map zone_of zs) (Route53.list_zone cfg) found) (w, o)
    = (t, inr (found || existsb (zone_listed cfg w) zs), (w, o))
    /\ echoes t = map zone_row (List.filter (zone_listed cfg w) zs)
    /\ calls t = map (fun z => list_tags_for_resource "hostedzone" (zone_ref z)) zs.
Proof.
  induction zs as [|z zs IH]; intros found.
  - exists []. cbn. by rewrite orb_false_r.
  - cbn [map]. rewrite for_each_cons, run_bind, run_list_zone. cbv zeta.
    cbn [List.filter existsb]. unfold zone_listed at 1 3 4.
    destruct ((api w (list_tags_for_resource "hostedzone" (zone_ref z))).1)
      as [e|tags] eqn:Ha.
    + destruct (IH found) as (t & Hrun & He & Hc). rewrite Hrun.
      eexists. split; [reflexivity|]. by rewrite echoes_app, calls_app, He, Hc.
    + destruct (isManaged cfg (tags_dict tags)).
      * destruct (IH true) as (t & Hrun & He & Hc). rewrite Hrun.
        eexists. split; [by rewrite orb_true_r|].
        by rewrite echoes_app, calls_app, He, Hc.
      * destruct (IH found) as (t & Hrun & He & Hc). rewrite Hrun.
        eexists. split; [reflexivity|]. by rewrite echoes_app, calls_app, He, Hc.
Qed.

(** The zone listing fetches the tags of every zone and prints exactly the
    zones whose own fetch gave managed tags. *)
Lemma route53_list_world cfg O (w : World) (o : op_state O) :
  echoes (trace_of (system O) (Route53.list cfg) (w, o))
  = (false, ZoneHeader) :: (false, Rule 60)
    :: rows_or NoZones (map zone_row (List.filter (zone_listed cfg w) (zones w)))
  /\ calls (trace_of (system O) (Route53.list cfg) (w, o))
     = list_hosted_zones
       :: map (fun z => list_tags_for_resource "hostedzone" (zone_ref z)) (zones w).
Proof.
  unfold trace_of, Route53.list. cbn.
  change (api w list_hosted_zones)
    with (inr (map zone_of (zones w)) : Exn + list HostedZone, w).
  cbn. rewrite run_try_except, run_bind.
  destruct (route53_list_loop cfg O w o (zones w) false) as (t & Hrun & He & Hc).
  rewrite Hrun. cbn [orb]. rewrite existsb_filter_nil.
  destruct (List.filter (zone_listed cfg w) (zones w)) as [|z' l'] eqn:Hf;
    cbn -[echoes calls]; observe; rewrite He, Hc; cbn; by rewrite ?app_nil_r.
Qed.

(** C8, as amended: in the bucket listing of the command line, when the tag
    fetches fail only with the provider's error response ([ClientError]),
    and in the zone listing whatever the failure, the tags of every item are
    fetched, the rows printed are exactly the items whose own fetch gave
    managed tags (an item whose fetch failed is left out and no other item
    is), and nothing goes to the error stream. *)
Theorem C8_failed_fetch_leaves_out_that_item_only (cfg : Config) (O : Operator)
    (w : World) (o : op_state O) :
  (tag_fetches_fail_as_ClientError w ->
     echoes (trace_of (system O) (S3.list cfg) (w, o))
     = (false, BucketHeader) :: (false, Rule 65)
       :: rows_or NoBuckets
            (map bucket_row (List.filter (bucket_listed cfg w) (buckets w)))
     /\ calls (trace_of (system O) (S3.list cfg) (w, o))
        = list_buckets :: map (fun b => get_bucket_tagging (wb_name b)) (buckets w)
     /\ no_error_echo (trace_of (system O) (S3.list cfg) (w, o)))
  /\ (echoes (trace_of (system O) (Route53.list cfg) (w, o))
      = (false, ZoneHeader) :: (false, Rule 60)
        :: rows_or NoZones (map zone_row (List.filter (zone_listed cfg w) (zones w)))
      /\ calls (trace_of (system O) (Route53.list cfg) (w, o))
         = list_hosted_zones
           :: map (fun z => list_tags_for_resource "hostedzone" (zone_ref z)) (zones w)
      /\ no_error_echo (trace_of (system O) (Route53.list cfg) (w, o))).
Proof.
  split.
  - intros Hcl. destruct (s3_list_world cfg O w o Hcl) as [He Hc].
    split; [exact He|]. split; [exact Hc|].
    unfold no_error_echo. rewrite He. do 2 (constructor; [done|]).
    apply no_error_in_rows, Forall_forall. intros em Hin.
    by apply list_elem_of_fmap in Hin as (b & -> & _).
  - destruct (route53_list_world cfg O w o) as [He Hc].
    split; [exact He|]. split; [exact Hc|].
    unfold no_error_echo. rewrite He. do 2 (constructor; [done|]).
    apply no_error_in_rows, Forall_forall. intros em Hin.
    by apply list_elem_of_fmap in Hin as (z & -> & _).
Qed.

(** With the untagged bucket between them, both managed buckets are listed. *)
Lemma C8_untagged_bucket_is_passed_over :
  echoes (trace_of (system (replying true)) (S3.list cfg0) (three_buckets, tt))
  = [(false, BucketHeader); (false, Rule 65);
     (false, BucketRow "logs" "2024-01-01"); (false, BucketRow "site" "2024-01-04")].
Proof.
  destruct (C8_failed_fetch_leaves_out_that_item_only cfg0 (replying true) three_buckets tt)
    as [Hbuckets _].
  destruct Hbuckets as (He & _ & _).
  - intros b e Hin Hfail. cbn in Hin.
    members Hin; subst b; vm_compute in Hfail; try discriminate.
    by injection Hfail as <-.
  - etransitivity; [exact He|]. vm_compute. reflexivity.
Defined.

(** C8 fails as stated: when the tag fetch of the bucket [far] fails in
    transport, the bucket listing of the command line stops there; the
    managed bucket [site] that comes after it is not fetched and not
    listed, and the failure is printed to the error stream. *)
Lemma C8_transport_failure_ends_the_listing :
  bucket_listed cfg0 four_buckets
    (mkWBucket "site" "2024-01-04" (inr (tags_of "student" "site")) None) = true
  /\ echoes (trace_of (system (replying true)) (S3.list cfg0) (four_buckets, tt))
     = [(false, BucketHeader); (false, Rule 65); (false, BucketRow "logs" "2024-01-01");
        (true, Error (mkExn BotoCoreError "Connect timeout"))]
  /\ calls (trace_of (system (replying true)) (S3.list cfg0) (four_buckets, tt))
     = [list_buckets; get_bucket_tagging "logs"; get_bucket_tagging "untagged";
        get_bucket_tagging "far"].
Proof. vm_compute. repeat split. Qed.

(** ** C3 and C10: records *)

Lemma api_zone_tags (w : World) zid z tags :
  find_zone w zid = Some z -> wz_tagging z = inr tags ->
  api w (list_tags_for_resource "hostedzone" zid) = (inr (tag_list tags), w).
Proof. intros Hz Ht. unfold api. cbn. by rewrite Hz, Ht. Qed.

Lemma api_zone_name (w : World) zid z :
  find_zone w zid = Some z -> api w (get_hosted_zone zid) = (inr (wz_name z), w).
Proof. intros Hz. unfold api. by rewrite Hz. Qed.

Lemma api_upsert (w : World) zid z rr :
  find_zone w zid = Some z ->
  api w (change_resource_record_sets zid [mkChange "UPSERT" rr])
  = (inr tt, set_records zid (upserted rr (wz_records z)) w).
Proof. intros Hz. unfold api. by rewrite Hz. Qed.

Lemma api_delete_refused (w : World) zid z rr :
  find_zone w zid = Some z -> rr ∉ wz_records z ->
  api w (change_resource_record_sets zid [mkChange "DELETE" rr])
  = (inl (client_error "InvalidChangeBatch"), w).
Proof.
  intros Hz Hn. unfold api. rewrite Hz. cbn. unfold apply_change. cbn.
  rewrite (bool_decide_false ("DELETE" = "UPSERT")) by done.
  rewrite (bool_decide_true ("DELETE" = "DELETE")) by done.
  by rewrite (bool_decide_false (rr ∈ wz_records z)).
Qed.

Lemma api_delete_done (w : World) zid z rr :
  find_zone w zid = Some z -> rr ∈ wz_records z ->
  api w (change_resource_record_sets zid [mkChange "DELETE" rr])
  = (inr tt,
     set_records zid (List.filter (fun r => negb (bool_decide (r = rr))) (wz_records z)) w).
Proof.
  intros Hz Hn. unfold api. rewrite Hz. cbn. unfold apply_change. cbn.
  rewrite (bool_decide_false ("DELETE" = "UPSERT")) by done.
  rewrite (bool_decide_true ("DELETE" = "DELETE")) by done.
  by rewrite (bool_decide_true (rr ∈ wz_records z)).
Qed.

Lemma find_zone_set_records (w : World) zid z rs :
  find_zone w zid = Some z ->
  find_zone (set_records zid rs w) zid
  = Some (mkWZone (wz_id z) (wz_name z) (wz_tagging z) rs).
Proof.
  unfold find_zone, set_records. cbn.
  induction (zones w) as [|z' zs IH]; cbn; [done|].
  case_bool_decide as Hid; cbn.
  - rewrite bool_decide_true by done. by intros [= ->].
  - rewrite bool_decide_false by done. exact IH.
Qed.

Lemma set_records_again (w : World) zid rs1 rs2 :
  set_records zid rs2 (set_records zid rs1 w) = set_records zid rs2 w.
Proof.
  unfold set_records. cbn. f_equal. rewrite map_map. apply map_ext. intros z.
  destruct (bool_decide (wz_id z = zid)) eqn:Hid; cbn; by rewrite Hid.
Qed.

(** After an UPSERT there is exactly one record set of that name and type:
    the one written. *)
Lemma upserted_once (rr : RRSet) rs :
  List.filter (fun r => same_record r rr) (upserted rr rs) = [rr].
Proof.
  unfold upserted. rewrite List.filter_app. cbn.
  assert (same_record rr rr = true) as ->.
  { unfold same_record. by rewrite !bool_decide_true. }
  induction rs as [|r rs IH]; cbn; [done|].
  destruct (same_record r rr) eqn:Hs; cbn; [exact IH|]. by rewrite Hs.
Qed.

Lemma same_record_trans (r rr rr' : RRSet) :
  same_record rr rr' = true -> same_record r rr = same_record r rr'.
Proof.
  unfold same_record. intros Hs.
  apply andb_true_iff in Hs as [Hn Hy].
  apply bool_decide_eq_true in Hn, Hy. by rewrite Hn, Hy.
Qed.

(** A second UPSERT of the same name and type leaves what it alone would
    have left. *)
Lemma upserted_again (rr rr' : RRSet) rs :
  same_record rr rr' = true ->
  upserted rr' (upserted rr rs) = upserted rr' rs.
Proof.
  intros Hs. unfold upserted. rewrite List.filter_app. cbn [List.filter].
  rewrite Hs. cbn [negb]. rewrite app_nil_r. f_equal.
  induction rs as [|r rs IH]; [done|]. cbn [List.filter].
  rewrite (same_record_trans r rr rr' Hs).
  destruct (same_record r rr') eqn:Hr; cbn [negb List.filter]; [exact IH|].
  rewrite Hr. cbn [negb]. by rewrite IH.
Qed.

(** [add_record] on a managed zone, against the provider. *)
Lemma add_record_run cfg O (w : World) (o : op_state O) zid z tags sub ip :
  find_zone w zid = Some z -> wz_tagging z = inr tags -> isManaged cfg tags = true ->
  run (system O) (Route53.add_record cfg zid sub ip) (w, o)
  = ([existT (Api (list_tags_for_resource "hostedzone" zid)) (inr (tag_list tags));
      existT (Api (get_hosted_zone zid)) (inr (wz_name z));
      existT (Echo false (AddingRecord (sub ++ "." ++ wz_name z)%string ip)) tt;
      existT (Api (change_resource_record_sets zid
                     (Route53.change_batch "UPSERT" (sub ++ "." ++ wz_name z)%string ip)))
        (inr tt);
      existT (Echo false RecordAdded) tt],
     inr tt,
     (set_records zid (upserted (a_record (sub ++ "." ++ wz_name z)%string 300 ip)
                         (wz_records z)) w, o)).
Proof.
  intros Hz Ht Hm. unfold Route53.add_record. cbn.
  rewrite (api_zone_tags w zid z tags Hz Ht). cbn.
  rewrite tags_dict_tag_list, Hm. cbn.
  rewrite (api_zone_name w zid z Hz). cbn.
  unfold Route53.change_batch.
  rewrite (api_upsert w zid z _ Hz). cbn. reflexivity.
Qed.

(** [delete_record] on a managed zone that holds no record set equal to the
    one the command sends. *)
Lemma delete_record_refused cfg O (w : World) (o : op_state O) zid z tags sub ip :
  find_zone w zid = Some z -> wz_tagging z = inr tags -> isManaged cfg tags = true ->
  a_record (sub ++ "." ++ wz_name z)%string 300 ip ∉ wz_records z ->
  run (system O) (Route53.delete_record cfg zid sub ip) (w, o)
  = ([existT (Api (list_tags_for_resource "hostedzone" zid)) (inr (tag_list tags));
      existT (Api (get_hosted_zone zid)) (inr (wz_name z));
      existT (Echo false (DeletingRecord (sub ++ "." ++ wz_name z)%string ip)) tt;
      existT (Api (change_resource_record_sets zid
                     (Route53.change_batch "DELETE" (sub ++ "." ++ wz_name z)%string ip)))
        (inl (client_error "InvalidChangeBatch"));
      existT (Echo true (AwsError (client_error "InvalidChangeBatch"))) tt],
     inr tt, (w, o)).
Proof.
  intros Hz Ht Hm Hn. unfold a_record in Hn. unfold Route53.delete_record. cbn.
  rewrite (api_zone_tags w zid z tags Hz Ht). cbn.
  rewrite tags_dict_tag_list, Hm. cbn.
  rewrite (api_zone_name w zid z Hz). cbn.
  unfold Route53.change_batch.
  rewrite (api_delete_refused w zid z _ Hz Hn). cbn. reflexivity.
Qed.

(** [delete_record] on a managed zone that holds the record set with TTL
    300: the record set is removed. *)
Lemma delete_record_done cfg O (w : World) (o : op_state O) zid z tags sub ip :
  find_zone w zid = Some z -> wz_tagging z = inr tags -> isManaged cfg tags = true ->
  a_record (sub ++ "." ++ wz_name z)%string 300 ip ∈ wz_records z ->
  echoes (trace_of (system O) (Route53.delete_record cfg zid sub ip) (w, o))
  = [(false, DeletingRecord (sub ++ "." ++ wz_name z)%string ip); (false, RecordDeleted)]
  /\ a_record (sub ++ "." ++ wz_name z)%string 300 ip
       ∉ records_of (world_after O (Route53.delete_record cfg zid sub ip) (w, o)) zid.
Proof.
  intros Hz Ht Hm Hin. unfold a_record in *.
  unfold trace_of, world_after, final_state, Route53.delete_record. cbn.
  rewrite (api_zone_tags w zid z tags Hz Ht). cbn.
  rewrite tags_dict_tag_list, Hm. cbn.
  rewrite (api_zone_name w zid z Hz). cbn.
  unfold Route53.change_batch.
  rewrite (api_delete_done w zid z _ Hz Hin). cbn. split; [reflexivity|].
  unfold records_of. rewrite (find_zone_set_records w zid z _ Hz). cbn.
  rewrite list_elem_of_In, filter_In. intros [_ Hne].
  by rewrite bool_decide_true in Hne.
Qed.

(** Whatever the environment, the only mutating call of [delete_record] is
    a DELETE of a type-A record set with TTL 300 and the value given, and a
    failure of that call is printed to the error stream. *)
Lemma delete_record_sends_ttl_300 cfg E s zid sub ip :
  (forall c, c ∈ calls (trace_of E (Route53.delete_record cfg zid sub ip) s) ->
             is_mutating c = true ->
             exists name, c = change_resource_record_sets zid
                                [mkChange "DELETE" (mkRRSet name "A" (Some 300%Z) [ip])])
  /\ (forall chs e,
        existT (Api (change_resource_record_sets zid chs)) (inl e)
          ∈ trace_of E (Route53.delete_record cfg zid sub ip) s ->
        (true, AwsError e) ∈ echoes (trace_of E (Route53.delete_record cfg zid sub ip) s)).
Proof.
  unfold trace_of, Route53.delete_record, Route53.change_batch. cbn. split.
  - answer_cases; [play; intros c H; cbn in H; members H; by subst|].
    destruct (isManaged cfg (tags_dict r)); cbn; play.
    all: intros c H Hmut; cbn in H; members H; subst c; try discriminate; eauto.
  - answer_cases; [play; intros chs e' H; members H; discriminate|].
    destruct (isManaged cfg (tags_dict r)); cbn; play.
    all: intros chs e' H; members H; try discriminate.
    all: apply eq_sigT_fst in H as Hev; injection Hev as ->.
    all: apply Eqdep_dec.inj_pair2_eq_dec in H; [|intros x y; apply (decide (x = y))].
    all: try discriminate.
    all: injection H as ->; cbn; apply elem_of_cons; right; apply list_elem_of_here.
Qed.

(** C3.  On a managed zone, [add_record] sends one change: an UPSERT of the
    type-A record set named [subdomain + "." + zone name] with TTL 300 and
    the address as its value, and reports success.  After it the zone holds
    exactly one record set of that name and type A, the one written; after a
    second [add_record] for the same subdomain with another address it still
    holds exactly one, with the second address; and a second run with the
    same address leaves the state of the provider as the first run left it,
    again without an error. *)
Theorem C3_add_record_replaces_the_record (cfg : Config) (O : Operator)
    (w : World) (o : op_state O) (zone_id : string) (z : WZone)
    (tags : gmap string string) (subdomain ip ip2 : string) :
  find_zone w zone_id = Some z ->
  wz_tagging z = inr tags ->
  isManaged cfg tags = true ->
  let fqdn := (subdomain ++ "." ++ wz_name z)%string in
  let named := fun r : RRSet => bool_decide (RName r = fqdn) && bool_decide (RType r = "A") in
  let add := Route53.add_record cfg zone_id subdomain in
  let s1 := final_state (system O) (add ip) (w, o) in
  let s2 := final_state (system O) (add ip2) s1 in
  let s1' := final_state (system O) (add ip) s1 in
  calls (trace_of (system O) (add ip) (w, o))
  = [list_tags_for_resource "hostedzone" zone_id;
     get_hosted_zone zone_id;
     change_resource_record_sets zone_id
       [mkChange "UPSERT" (mkRRSet fqdn "A" (Some 300%Z) [ip])]]
  /\ echoes (trace_of (system O) (add ip) (w, o))
     = [(false, AddingRecord fqdn ip); (false, RecordAdded)]
  /\ List.filter named (records_of s1.1 zone_id) = [mkRRSet fqdn "A" (Some 300%Z) [ip]]
  /\ List.filter named (records_of s2.1 zone_id) = [mkRRSet fqdn "A" (Some 300%Z) [ip2]]
  /\ echoes (trace_of (system O) (add ip2) s1)
     = [(false, AddingRecord fqdn ip2); (false, RecordAdded)]
  /\ s1'.1 = s1.1
  /\ echoes (trace_of (system O) (add ip) s1)
     = [(false, AddingRecord fqdn ip); (false, RecordAdded)].
Proof.
  intros Hz Ht Hm. cbv zeta.
  set (fqdn := (subdomain ++ "." ++ wz_name z)%string).
  set (rs1 := upserted (a_record fqdn 300 ip) (wz_records z)).
  pose proof (add_record_run cfg O w o zone_id z tags subdomain ip Hz Ht Hm) as Hrun1.
  fold fqdn in Hrun1. fold rs1 in Hrun1.
  pose proof (find_zone_set_records w zone_id z rs1 Hz) as Hz1.
  set (z1 := mkWZone (wz_id z) (wz_name z) (wz_tagging z) rs1) in Hz1.
  assert (wz_tagging z1 = inr tags) as Ht1 by exact Ht.
  pose proof (add_record_run cfg O (set_records zone_id rs1 w) o zone_id z1 tags
                subdomain ip2 Hz1 Ht1 Hm) as Hrun2.
  pose proof (add_record_run cfg O (set_records zone_id rs1 w) o zone_id z1 tags
                subdomain ip Hz1 Ht1 Hm) as Hrun1'.
  change (wz_name z1) with (wz_name z) in Hrun2, Hrun1'.
  change (wz_records z1) with rs1 in Hrun2, Hrun1'.
  fold fqdn in Hrun2, Hrun1'.
  unfold trace_of, final_state. rewrite Hrun1. cbn [fst snd]. rewrite Hrun2, Hrun1'.
  cbn [fst snd].
  change (fun r : RRSet => bool_decide (RName r = fqdn) && bool_decide (RType r = "A"))
    with (fun r : RRSet => same_record r (a_record fqdn 300 ip)).
  repeat split.
  - unfold records_of. rewrite Hz1. apply upserted_once.
  - unfold records_of.
    rewrite (find_zone_set_records (set_records zone_id rs1 w) zone_id z1 _ Hz1).
    cbn [wz_records].
    change (fun r : RRSet => same_record r (a_record fqdn 300 ip))
      with (fun r : RRSet => same_record r (a_record fqdn 300 ip2)).
    apply (upserted_once (a_record fqdn 300 ip2)).
  - rewrite set_records_again. f_equal. unfold rs1. apply upserted_again.
    unfold same_record. by rewrite !bool_decide_true.
Qed.

(** The example of the specification: www of zone Z1, first 1.2.3.4, then
    5.6.7.8. *)
Lemma C3_www_is_replaced :
  records_of
    (world_after (replying true) (Route53.add_record cfg0 "Z1" "www" "5.6.7.8")
       (final_state (system (replying true)) (Route53.add_record cfg0 "Z1" "www" "1.2.3.4")
          (one_zone, tt)))
    "Z1"
  = [a_record "api.example.com." 60 "10.0.0.1"; a_record "www.example.com." 300 "5.6.7.8"]
  /\ List.filter
       (fun r : RRSet => bool_decide (RName r = "www.example.com.")
                         && bool_decide (RType r = "A"))
       (records_of
          (world_after (replying true) (Route53.add_record cfg0 "Z1" "www" "5.6.7.8")
             (final_state (system (replying true))
                (Route53.add_record cfg0 "Z1" "www" "1.2.3.4") (one_zone, tt)))
          "Z1")
     = [mkRRSet "www.example.com." "A" (Some 300%Z) ["5.6.7.8"]].
Proof.
  split; [vm_compute; reflexivity|].
  refine (proj1 (proj2 (proj2 (proj2
    (C3_add_record_replaces_the_record cfg0 (replying true) one_zone tt "Z1"
       (mkWZone "Z1" "example.com." (inr (tags_of "student" "zone"))
          [a_record "api.example.com." 60 "10.0.0.1"])
       (tags_of "student" "zone") "www" "1.2.3.4" "5.6.7.8" _ _ _))))); reflexivity.
Defined.

(** C10.  Whatever the environment, the one mutating call [delete_record]
    can make is a DELETE of a type-A record set with TTL 300, and a failure
    of that call is printed to the error stream.  Against the provider, on a
    managed zone whose records are identified by name and type and which
    holds the record with the given value but a TTL other than 300, the
    command sends that DELETE with TTL 300, the provider refuses it, the
    refusal is printed as an AWS error, and the state of the provider, the
    record included, is as before. *)
Theorem C10_delete_record_fails_on_other_ttl (cfg : Config) (O : Operator)
    (w : World) (o : op_state O) (zone_id : string) (z : WZone)
    (tags : gmap string string) (subdomain ip : string) (ttl : Z) :
  find_zone w zone_id = Some z ->
  wz_tagging z = inr tags ->
  isManaged cfg tags = true ->
  unique_records (wz_records z) ->
  a_record (subdomain ++ "." ++ wz_name z)%string ttl ip ∈ wz_records z ->
  ttl <> 300%Z ->
  let fqdn := (subdomain ++ "." ++ wz_name z)%string in
  let delete := Route53.delete_record cfg zone_id subdomain ip in
  calls (trace_of (system O) delete (w, o))
  = [list_tags_for_resource "hostedzone" zone_id;
     get_hosted_zone zone_id;
     change_resource_record_sets zone_id
       [mkChange "DELETE" (mkRRSet fqdn "A" (Some 300%Z) [ip])]]
  /\ echoes (trace_of (system O) delete (w, o))
     = [(false, DeletingRecord fqdn ip);
        (true, AwsError (client_error "InvalidChangeBatch"))]
  /\ world_after O delete (w, o) = w
  /\ (forall (E : Env) (s : env_state E) c,
        c ∈ calls (trace_of E delete s) -> is_mutating c = true ->
        exists name, c = change_resource_record_sets zone_id
                           [mkChange "DELETE" (mkRRSet name "A" (Some 300%Z) [ip])])
  /\ (forall (E : Env) (s : env_state E) chs e,
        existT (Api (change_resource_record_sets zone_id chs)) (inl e) ∈ trace_of E delete s ->
        (true, AwsError e) ∈ echoes (trace_of E delete s)).
Proof.
  intros Hz Ht Hm Huniq Hlive Httl. cbv zeta.
  assert (a_record (subdomain ++ "." ++ wz_name z)%string 300 ip ∉ wz_records z) as Hnot.
  { intros Hin. pose proof (Huniq _ _ Hin Hlive) as Heq.
    unfold a_record in Heq. injection Heq; [congruence|].
    unfold same_record. cbn. by rewrite !bool_decide_true. }
  unfold trace_of, world_after, final_state.
  rewrite (delete_record_refused cfg O w o zone_id z tags subdomain ip Hz Ht Hm Hnot).
  cbn [fst snd].
  split; [reflexivity|]. split; [reflexivity|]. split; [reflexivity|]. split.
  - intros E s. apply delete_record_sends_ttl_300.
  - intros E s. apply delete_record_sends_ttl_300.
Qed.

(** The record api.example.com with TTL 60 survives its own deletion. *)
Lemma C10_record_with_ttl_60_survives :
  echoes (trace_of (system (replying true))
            (Route53.delete_record cfg0 "Z1" "api" "10.0.0.1") (one_zone, tt))
  = [(false, DeletingRecord "api.example.com." "10.0.0.1");
     (true, AwsError (client_error "InvalidChangeBatch"))]
  /\ world_after (replying true) (Route53.delete_record cfg0 "Z1" "api" "10.0.0.1")
       (one_zone, tt) = one_zone.
Proof.
  destruct (C10_delete_record_fails_on_other_ttl cfg0 (replying true) one_zone tt "Z1"
              (mkWZone "Z1" "example.com." (inr (tags_of "student" "zone"))
                 [a_record "api.example.com." 60 "10.0.0.1"])
              (tags_of "student" "zone") "api" "10.0.0.1" 60%Z)
    as (_ & Hecho & Hworld & _).
  - reflexivity.
  - reflexivity.
  - reflexivity.
  - intros r1 r2 H1 H2 _. cbn in H1, H2. members H1. members H2. congruence.
  - apply list_elem_of_here.
  - discriminate.
  - split; assumption.
Defined.

(** The web page sends the record back with the TTL it was listed with, and
    the same record is deleted. *)
Lemma ui_delete_sends_the_listed_ttl :
  calls (trace_of (system (clicking "🗑️ Delete")) (App.route53_section cfg0) (one_zone, tt))
  = [list_hosted_zones;
     list_tags_for_resource "hostedzone" "Z1";
     list_resource_record_sets "Z1";
     change_resource_record_sets "Z1"
       [mkChange "DELETE" (a_record "api.example.com." 60 "10.0.0.1")]]
  /\ records_of (world_after (clicking "🗑️ Delete") (App.route53_section cfg0) (one_zone, tt))
       "Z1" = [].
Proof. vm_compute. split; reflexivity. Qed.

(** * Further properties *)

(** Split an equation between two entries of a trace into the equation
    between the events and the one between the answers. *)
Ltac entry_eq H :=
  let Hev := fresh "Hev" in
  pose proof (eq_sigT_fst H) as Hev;
  first [ discriminate Hev
        | injection Hev as ->;
          apply Eqdep_dec.inj_pair2_eq_dec in H; [|intros ? ?; apply (decide (_ = _))]
        | injection Hev; intros; subst;
          apply Eqdep_dec.inj_pair2_eq_dec in H; [|intros ? ?; apply (decide (_ = _))]
        | clear Hev;
          apply Eqdep_dec.inj_pair2_eq_dec in H; [|intros ? ?; apply (decide (_ = _))] ].

(** Find an element in a list that is written out. *)
Ltac in_list :=
  cbn; repeat first [apply list_elem_of_here | apply list_elem_of_further].

(** ** ec2.py *)

(** X1.  Whatever the environment answers, a [run_instances] call made by
    [create] asks for the type given on the command line, which is in the
    allow-list, with the key given, for exactly one instance, tagged [Name],
    [CreatedBy] and [Owner]; it comes after the count query returned fewer
    than [MAX_INSTANCES] instances, and its image is the value the parameter
    lookup returned in the same run. *)
Theorem create_launches_within_the_rules (cfg : Config) (E : Env) (s : env_state E)
    (instance_type key_name name : string) ami ty key mn mx tags :
  run_instances ami ty key mn mx tags
    ∈ calls (trace_of E (Ec2.create cfg instance_type key_name name) s) ->
  ty = instance_type /\ ty ∈ Ec2.ALLOWED_TYPES /\ key = key_name /\ mn = 1 /\ mx = 1
  /\ tags = [mkTag "Name" name; mkTag "CreatedBy" (TAG_CREATED_BY cfg);
             mkTag "Owner" (TAG_OWNER cfg)]
  /\ (exists rs,
        existT (Api (describe_instances [] (Ec2.limit_filters cfg))) (inr rs)
          ∈ trace_of E (Ec2.create cfg instance_type key_name name) s
        /\ Ec2.count_instances rs < Ec2.MAX_INSTANCES)
  /\ existT (Api (get_parameter Ec2.SSM_AMI_PATH)) (inr ami)
       ∈ trace_of E (Ec2.create cfg instance_type key_name name) s.
Proof.
  unfold trace_of, Ec2.create, Ec2.get_latest_ami.
  case_bool_decide as Hty; cbn.
  2: { play. intros H; cbn in H; members H. }
  answer_cases.
  { intros H; cbn in H; members H; discriminate H. }
  destruct (Ec2.count_instances r) as [|[|n]] eqn:Hn; cbn.
  3: { play. intros H; cbn in H; members H; discriminate H. }
  all: play.
  all: try destruct r1 as [|i is']; cbn; play.
  all: intros H; cbn in H; members H; try discriminate H.
  all: injection H as -> -> -> -> -> ->.
  all: repeat split; try done.
  all: try (eexists; split; [apply list_elem_of_here|rewrite Hn; unfold Ec2.MAX_INSTANCES; lia]).
  all: do 2 apply list_elem_of_further; apply list_elem_of_here.
Qed.

(** The example: a second instance is launched with the image found. *)
Lemma second_instance_is_launched_by_the_rules :
  "t3.small" ∈ Ec2.ALLOWED_TYPES
  /\ existT (Api (get_parameter Ec2.SSM_AMI_PATH)) (inr "ami-0abc")
       ∈ trace_of (system (replying true)) (Ec2.create cfg0 "t3.small" "key" "api")
           (one_running_with_image, tt).
Proof.
  destruct (create_launches_within_the_rules cfg0 (system (replying true))
              (one_running_with_image, tt) "t3.small" "key" "api"
              "ami-0abc" "t3.small" "key" 1 1
              [mkTag "Name" "api"; mkTag "CreatedBy" "platform-cli"; mkTag "Owner" "student"])
    as (_ & Hty & _ & _ & _ & _ & _ & Hami).
  - vm_compute. do 2 apply list_elem_of_further. apply list_elem_of_here.
  - split; assumption.
Defined.

(** X2.  The count query of [create] and the query of [list] stand outside
    any [try]: when that provider call fails, the exception leaves the
    command and nothing is printed. *)
Theorem ec2_query_failure_is_not_caught (cfg : Config) (E : Env) (s : env_state E) (e : Exn) :
  (forall instance_type key_name name,
     instance_type ∈ Ec2.ALLOWED_TYPES ->
     (env_step E s (Api (describe_instances [] (Ec2.limit_filters cfg)))).1 = inl e ->
     (run E (Ec2.create cfg instance_type key_name name) s).1
     = ([existT (Api (describe_instances [] (Ec2.limit_filters cfg))) (inl e)],
        inl (Exception e)))
  /\ ((env_step E s (Api (describe_instances [] (Ec2.list_filters cfg)))).1 = inl e ->
      (run E (Ec2.list cfg) s).1
      = ([existT (Api (describe_instances [] (Ec2.list_filters cfg))) (inl e)],
         inl (Exception e))).
Proof.
  split.
  - intros ty key name Hty. unfold Ec2.create. rewrite bool_decide_true by done. cbn.
    destruct (env_step E s _) as [a s1]. cbn. by intros ->.
  - unfold Ec2.list. cbn. destruct (env_step E s _) as [a s1]. cbn. by intros ->.
Qed.

Lemma unreachable_listing_raises :
  (run unreachable (Ec2.list cfg0) tt).1.2
  = inl (Exception (mkExn BotoCoreError "Could not connect to the endpoint URL"))
  /\ echoes (trace_of unreachable (Ec2.list cfg0) tt) = [].
Proof.
  pose proof (proj2 (ec2_query_failure_is_not_caught cfg0 unreachable tt
                       (mkExn BotoCoreError "Could not connect to the endpoint URL"))
                eq_refl) as H.
  unfold trace_of. rewrite H. split; reflexivity.
Defined.

(** [stop], [start] and [terminate] from the fetch on: no exception leaves
    them.  A failed fetch is printed as an error and stays the only provider
    call; so does an answer without a reservation or without an instance,
    for which the message is that of [IndexError].  Every provider call
    that fails is printed as an error. *)
Lemma instance_command_reports_from_the_fetch_on (cfg : Config) (E : Env) (s : env_state E)
    (op : InstanceOp) (instance_id : string) :
  let t := trace_of E (instance_command cfg op instance_id) s in
  let fetched := (env_step E s (Api (describe_instances [instance_id] []))).1 in
  (run E (instance_command cfg op instance_id) s).1.2 = inr tt
  /\ (forall e, fetched = inl e ->
        calls t = [describe_instances [instance_id] []] /\ echoes t = [(true, Error e)])
  /\ (forall rs, fetched = inr rs -> rs = [] \/ (exists rs', rs = mkReservation [] :: rs') ->
        calls t = [describe_instances [instance_id] []]
        /\ echoes t = [(true, Error (mkExn IndexError "list index out of range"))])
  /\ (forall c e, existT (Api c) (inl e) ∈ t -> (true, Error e) ∈ echoes t).
Proof.
  cbv zeta. unfold trace_of.
  destruct op; cbn -[echoes calls]; unfold Ec2.fetch_tags; cbn -[echoes calls].
  all: answer_cases.
  all: try (destruct r as [|[[|i is']] rs]; cbn -[echoes calls]).
  all: try (destruct (isManaged cfg _); cbn -[echoes calls]).
  all: play.
  all: (split; [reflexivity|]).
  all: (split; [intros e' [=]; subst; split; reflexivity|]).
  all: (split; [intros rs' [=] [?|[? ?]]; subst; try discriminate; split; reflexivity|]).
  all: intros c e' H; members H; entry_eq H; try discriminate H.
  all: injection H as ->; in_list.
Qed.

(** X4.  Whatever the environment, the only mutating call of [terminate] is
    [terminate_instances] for the instance given, made only after the one
    prompt was answered yes; when the prompt is answered no, the fetch stays
    the only provider call; and the prompt is shown only for an instance
    whose tags are managed. *)
Theorem cli_terminate_needs_a_yes (cfg : Config) (E : Env) (s : env_state E)
    (instance_id : string) :
  let t := trace_of E (Ec2.terminate cfg instance_id) s in
  (forall c, c ∈ calls t -> is_mutating c = true ->
     c = terminate_instances [instance_id]
     /\ confirmations t = [("Are you sure?", true)])
  /\ (confirmations t = [("Are you sure?", false)] ->
      calls t = [describe_instances [instance_id] []]
      /\ echoes t = [(false, Terminating instance_id)])
  /\ (confirmations t <> [] ->
      exists i is' rs,
        (env_step E s (Api (describe_instances [instance_id] []))).1
        = inr (mkReservation (i :: is') :: rs)
        /\ isManaged cfg (instance_tags i) = true).
Proof.
  cbv zeta. unfold trace_of, Ec2.terminate, Ec2.fetch_tags. cbn. answer_cases.
  { play. split; [|split]; [intros c H; cbn in H; members H; by subst| |]; cbn; done. }
  destruct r as [|[[|i is']] rs]; cbn.
  1,2: play; (split; [|split]; [intros c H; cbn in H; members H; by subst| |]; cbn; done).
  unfold instance_tags. cbn.
  destruct (isManaged cfg _) eqn:Hm; cbn; play.
  all: split; [|split]; [intros c H Hmut; cbn in H; members H; subst c; by try discriminate Hmut
                        |cbn; try done
                        |cbn; try done; intros _; by eexists _, _, _].
Qed.

Lemma terminate_declined_keeps_the_instance :
  calls (trace_of (system (replying false)) (Ec2.terminate cfg0 "i-1") (one_managed, tt))
  = [describe_instances ["i-1"] []]
  /\ echoes (trace_of (system (replying false)) (Ec2.terminate cfg0 "i-1") (one_managed, tt))
     = [(false, Terminating "i-1")].
Proof.
  apply (cli_terminate_needs_a_yes cfg0 (system (replying false)) (one_managed, tt) "i-1").
  reflexivity.
Defined.

(** *** Against the provider *)

(** Calls that are not mutating leave the state of the provider alone. *)
Lemma world_kept_without_mutation {A} (O : Operator) (p : Prog A) :
  forall s, Forall (fun c => is_mutating c = false) (calls (trace_of (system O) p s)) ->
            world_after O p s = s.1.
Proof.
  unfold world_after, final_state, trace_of.
  induction p as [a|r|ev k IH]; intros [w o]; cbn; try reflexivity.
  destruct ev as [c|err m|prompt|wd|d]; cbn.
  - pose proof (api_read_only w c) as Hro.
    destruct (api w c) as [a w']. cbn in Hro |- *.
    specialize (IH a (w', o)).
    destruct (run (system O) (k a) (w', o)) as [[t r] s']. cbn in *.
    intros H. apply Forall_cons in H as [Hc Ht]. rewrite (IH Ht). by apply Hro.
  - specialize (IH tt (w, o)). destruct (run (system O) (k tt) (w, o)) as [[t r] s']. exact IH.
  - destruct (op_confirm O o prompt) as [b o'].
    specialize (IH b (w, o')). destruct (run (system O) (k b) (w, o')) as [[t r] s']. exact IH.
  - destruct (op_widget O o wd) as [v o'].
    specialize (IH v (w, o')). destruct (run (system O) (k v) (w, o')) as [[t r] s']. exact IH.
  - specialize (IH tt (w, o)). destruct (run (system O) (k tt) (w, o)) as [[t r] s']. exact IH.
Qed.

(** The tags written at launch pass the ownership test, whatever the name. *)
Lemma launch_tags_are_managed cfg name :
  isManaged cfg (tags_dict (mkTag "Name" name :: ownership_tags cfg)) = true.
Proof.
  unfold isManaged, tags_dict, ownership_tags. cbn.
  apply bool_decide_eq_true.
  rewrite lookup_insert_ne by done. by rewrite lookup_insert_eq.
Qed.

Lemma launch_tags_name cfg name :
  tags_dict (mkTag "Name" name :: ownership_tags cfg) !! "Name" = Some name.
Proof.
  unfold tags_dict, ownership_tags. cbn.
  rewrite !lookup_insert_ne by done. by rewrite lookup_insert_eq.
Qed.

Lemma api_run_instances (w : World) ami ty key mn mx tags :
  api w (run_instances ami ty key mn mx tags)
  = (inr [describe (launched w ty tags)], with_instance (launched w ty tags) w).
Proof. reflexivity. Qed.

Lemma api_get_parameter (w : World) name :
  api w (get_parameter name)
  = (match parameters w !! name with
     | Some v => inr v
     | None => inl (client_error "ParameterNotFound")
     end, w).
Proof. unfold api. by destruct (parameters w !! name). Qed.

Lemma launched_counts cfg w ty name :
  counts_toward_cap cfg (launched w ty (mkTag "Name" name :: ownership_tags cfg)) = true.
Proof.
  unfold counts_toward_cap, launched. cbn [wi_tags wi_state].
  rewrite launch_tags_are_managed. cbn. apply bool_decide_eq_true.
  unfold counted_states. in_list.
Qed.

Lemma cap_count_with_instance cfg i w :
  cap_count cfg (with_instance i w)
  = cap_count cfg w + (if counts_toward_cap cfg i then 1 else 0).
Proof.
  unfold cap_count, with_instance. cbn [instances].
  rewrite List.filter_app, length_app. cbn. by destruct (counts_toward_cap cfg i).
Qed.

(** [create] below the limit, with the image found: the run in full. *)
Lemma create_launches cfg O (w : World) (o : op_state O) ty key name ami :
  ty ∈ Ec2.ALLOWED_TYPES ->
  cap_count cfg w < Ec2.MAX_INSTANCES ->
  parameters w !! Ec2.SSM_AMI_PATH = Some ami ->
  let i := launched w ty (mkTag "Name" name :: ownership_tags cfg) in
  run (system O) (Ec2.create cfg ty key name) (w, o)
  = ([existT (Api (describe_instances [] (Ec2.limit_filters cfg)))
        (inr (map (fun i => mkReservation [describe i])
                (List.filter (counts_toward_cap cfg) (instances w))));
      existT (Echo false SearchingAmi) tt;
      existT (Api (get_parameter Ec2.SSM_AMI_PATH)) (inr ami);
      existT (Echo false (FoundAmi ami)) tt;
      existT (Echo false (Launching ty name)) tt;
      existT (Api (run_instances ami ty key 1 1 (mkTag "Name" name :: ownership_tags cfg)))
        (inr [describe i]);
      existT (Echo false (InstanceCreated (wi_id i))) tt],
     inr tt, (with_instance i w, o)).
Proof.
  intros Hty Hcap Hami. cbv zeta. unfold Ec2.create, Ec2.get_latest_ami.
  rewrite bool_decide_true by done. cbn.
  rewrite api_limit_query. cbn. rewrite count_described.
  fold (cap_count cfg w).
  destruct (cap_count cfg w) as [|[|n]] eqn:Hn; [| |unfold Ec2.MAX_INSTANCES in *; lia].
  all: cbn; rewrite api_get_parameter.
  all: destruct (parameters w !! _) as [v|]; [injection Hami as ->|discriminate Hami].
  all: cbn; rewrite api_run_instances; cbn; reflexivity.
Qed.

(** [create] below the limit when the image is not found: nothing is
    launched. *)
Lemma create_without_image cfg O (w : World) (o : op_state O) ty key name :
  parameters w !! Ec2.SSM_AMI_PATH = None ->
  world_after O (Ec2.create cfg ty key name) (w, o) = w.
Proof.
  intros Hami. apply (world_kept_without_mutation O _ (w, o)).
  unfold trace_of, Ec2.create, Ec2.get_latest_ami.
  case_bool_decide; cbn; [|repeat constructor].
  rewrite api_limit_query. cbn.
  destruct (Ec2.count_instances _) as [|[|n]]; cbn; try (repeat constructor).
  all: rewrite api_get_parameter.
  all: destruct (parameters w !! _) as [v|]; [discriminate Hami|].
  all: cbn; repeat constructor.
Qed.

(** X5.  Against the provider, [create] never takes the number of counted
    instances above the limit: after it the count is at most the larger of 2
    and the count before.  Either the state is unchanged, or the type was
    allowed, the count was below 2, and the state is the one before with one
    more instance, pending and carrying the launch tags, which counts. *)
Theorem cli_create_keeps_the_limit (cfg : Config) (O : Operator) (w : World)
    (o : op_state O) (instance_type key_name name : string) :
  let w' := world_after O (Ec2.create cfg instance_type key_name name) (w, o) in
  cap_count cfg w' <= Nat.max Ec2.MAX_INSTANCES (cap_count cfg w)
  /\ (w' = w
      \/ (instance_type ∈ Ec2.ALLOWED_TYPES
          /\ cap_count cfg w < Ec2.MAX_INSTANCES
          /\ w' = with_instance
                    (launched w instance_type (mkTag "Name" name :: ownership_tags cfg)) w
          /\ cap_count cfg w' = S (cap_count cfg w))).
Proof.
  cbv zeta.
  assert (world_after O (Ec2.create cfg instance_type key_name name) (w, o) = w
          -> cap_count cfg (world_after O (Ec2.create cfg instance_type key_name name) (w, o))
             <= Nat.max Ec2.MAX_INSTANCES (cap_count cfg w)
             /\ (world_after O (Ec2.create cfg instance_type key_name name) (w, o) = w
                 \/ (instance_type ∈ Ec2.ALLOWED_TYPES
          /\ cap_count cfg w < Ec2.MAX_INSTANCES
          /\ world_after O (Ec2.create cfg instance_type key_name name) (w, o) = with_instance
                    (launched w instance_type (mkTag "Name" name :: ownership_tags cfg)) w
          /\ cap_count cfg (world_after O (Ec2.create cfg instance_type key_name name) (w, o)) = S (cap_count cfg w)))) as Hsame.
  { intros ->. split; [lia|by left]. }
  destruct (decide (instance_type ∈ Ec2.ALLOWED_TYPES)) as [Hty|Hty].
  2: { apply Hsame. unfold world_after, final_state.
       by rewrite create_type_not_allowed. }
  destruct (le_lt_dec Ec2.MAX_INSTANCES (cap_count cfg w)) as [Hcap|Hcap].
  { apply Hsame. unfold world_after, final_state. by rewrite create_at_cap. }
  destruct (parameters w !! Ec2.SSM_AMI_PATH) as [ami|] eqn:Hami.
  2: { apply Hsame. by apply create_without_image. }
  unfold world_after, final_state.
  rewrite (create_launches cfg O w o instance_type key_name name ami Hty Hcap Hami).
  cbn [fst snd].
  rewrite cap_count_with_instance, launched_counts.
  split; [unfold Ec2.MAX_INSTANCES in *; lia|].
  right. repeat split; [done..|lia].
Qed.

Lemma in_rows_or none (l : list (bool * Msg)) x : x ∈ l -> x ∈ rows_or none l.
Proof. destruct l; [intros H; by apply elem_of_nil in H|done]. Qed.

(** X6.  Against the provider, an instance created from the command line
    shows in the next listing: with an allowed type, the count below the
    limit and the image parameter set, [create] reports an instance id, and
    [list] run next prints a row with that id, the name given, the state
    pending, the type, and N/A for the address. *)
Theorem created_instance_is_listed (cfg : Config) (O : Operator) (w : World)
    (o : op_state O) (instance_type key_name name ami : string) :
  instance_type ∈ Ec2.ALLOWED_TYPES ->
  cap_count cfg w < Ec2.MAX_INSTANCES ->
  parameters w !! Ec2.SSM_AMI_PATH = Some ami ->
  let create := Ec2.create cfg instance_type key_name name in
  exists id,
    echoes (trace_of (system O) create (w, o))
    = [(false, SearchingAmi); (false, FoundAmi ami); (false, Launching instance_type name);
       (false, InstanceCreated id)]
    /\ (false, InstanceRow id name "pending" instance_type "N/A")
         ∈ echoes (trace_of (system O) (Ec2.list cfg) (final_state (system O) create (w, o))).
Proof.
  intros Hty Hcap Hami. cbv zeta.
  unfold trace_of at 1. unfold final_state.
  rewrite (create_launches cfg O w o instance_type key_name name ami Hty Hcap Hami).
  cbn [fst snd].
  set (i := launched w instance_type (mkTag "Name" name :: ownership_tags cfg)).
  exists (wi_id i). split; [reflexivity|].
  rewrite ec2_list_world. do 2 apply list_elem_of_further. apply in_rows_or.
  replace (false, InstanceRow (wi_id i) name "pending" instance_type "N/A")
    with (instance_row i).
  2: { unfold instance_row, i, launched. cbn [wi_id wi_tags wi_state wi_type wi_ip].
       by rewrite launch_tags_name. }
  apply list_elem_of_fmap_2. apply list_elem_of_In, List.filter_In. split.
  - apply list_elem_of_In. unfold with_instance. cbn [instances].
    apply elem_of_app. right. apply list_elem_of_here.
  - unfold instance_listed, i, launched, alive. cbn [wi_tags wi_state].
    by rewrite launch_tags_are_managed.
Qed.

Lemma second_instance_is_listed :
  exists id,
    echoes (trace_of (system (replying true)) (Ec2.create cfg0 "t3.small" "key" "api")
              (one_running_with_image, tt))
    = [(false, SearchingAmi); (false, FoundAmi "ami-0abc"); (false, Launching "t3.small" "api");
       (false, InstanceCreated id)]
    /\ (false, InstanceRow id "api" "pending" "t3.small" "N/A")
         ∈ echoes (trace_of (system (replying true)) (Ec2.list cfg0)
                     (final_state (system (replying true))
                        (Ec2.create cfg0 "t3.small" "key" "api")
                        (one_running_with_image, tt))).
Proof.
  apply (created_instance_is_listed cfg0 (replying true) one_running_with_image tt
           "t3.small" "key" "api" "ami-0abc").
  - unfold Ec2.ALLOWED_TYPES. in_list.
  - vm_compute. lia.
  - reflexivity.
Defined.

(** X7.  Against the provider, [list] makes one provider call, ends
    normally, leaves the state as it was, and prints the two header lines
    followed by one row for every managed instance that is not terminated,
    in the provider's order, or by the line that says there is none. *)
Theorem ec2_list_prints_the_managed_instances (cfg : Config) (O : Operator) (w : World)
    (o : op_state O) :
  echoes (trace_of (system O) (Ec2.list cfg) (w, o))
  = (false, InstanceHeader) :: (false, Rule 75)
    :: rows_or NoActiveInstances
         (map instance_row (List.filter (instance_listed cfg) (instances w)))
  /\ calls (trace_of (system O) (Ec2.list cfg) (w, o))
     = [describe_instances [] (Ec2.list_filters cfg)]
  /\ (run (system O) (Ec2.list cfg) (w, o)).1.2 = inr tt
  /\ world_after O (Ec2.list cfg) (w, o) = w.
Proof.
  split; [apply ec2_list_world|].
  destruct (ec2_list_trace cfg O w o) as (t & Ht & He & Hc).
  assert (calls (trace_of (system O) (Ec2.list cfg) (w, o))
          = [describe_instances [] (Ec2.list_filters cfg)]) as Hcalls.
  { rewrite Ht. observe. rewrite Hc. cbn.
    destruct (List.filter (instance_listed cfg) (instances w)); reflexivity. }
  split; [exact Hcalls|]. split.
  - unfold Ec2.list. cbn. rewrite api_list_query. cbn. rewrite run_bind.
    destruct (ec2_list_loop O w o
                (List.filter (fun i => isManaged cfg (wi_tags i)) (instances w)) false)
      as (t' & Hrun & _ & _).
    rewrite Hrun. cbn [orb]. by destruct (existsb alive _).
  - apply (world_kept_without_mutation O _ (w, o)). rewrite Hcalls. by repeat constructor.
Qed.

(** ** s3.py *)

(** One step of a run: the answer to the next event, or the outcome of the
    next test. *)
Ltac play_step :=
  first [ answer_cases
        | let Hc := fresh "Hc" in case_bool_decide as Hc; cbn ].

Lemma lower_ascii_idempotent (c : ascii) : lower_ascii (lower_ascii c) = lower_ascii c.
Proof. destruct c as [[] [] [] [] [] [] [] []]; reflexivity. Qed.

Lemma lower_idempotent (s : string) : lower (lower s) = lower s.
Proof. induction s as [|c s IH]; cbn; [done|]. by rewrite lower_ascii_idempotent, IH. Qed.

Lemma lower_length (s : string) : String.length (lower s) = String.length s.
Proof. induction s as [|c s IH]; cbn; [done|]. by rewrite IH. Qed.

Lemma lower_ascii_stays_ascii (c : ascii) :
  (nat_of_ascii c <? 128)%nat = true -> (nat_of_ascii (lower_ascii c) <? 128)%nat = true.
Proof. destruct c as [[] [] [] [] [] [] [] []]; cbn; done. Qed.

Lemma lower_stays_ascii (s : string) : ascii_only s = true -> ascii_only (lower s) = true.
Proof.
  unfold ascii_only. induction s as [|c s IH]; [done|].
  cbn [lower list_ascii_of_string forallb].
  intros [Hc Hs]%andb_true_iff. apply andb_true_iff. split.
  - by apply lower_ascii_stays_ascii.
  - by apply IH.
Qed.

(** X8.  For a bucket name of ASCII characters (the only names the provider
    takes), [create] works on the lower-cased name: the command for a name
    and the command for its lower-cased form are the same, the lower-cased
    name is of ASCII characters too, and every provider call the command
    makes is one of the three creation steps for the lower-cased name. *)
Theorem s3_create_lowers_the_name (cfg : Config) (bucket_name : string) (public : bool) :
  ascii_only bucket_name = true ->
  S3.create cfg (lower bucket_name) public = S3.create cfg bucket_name public
  /\ ascii_only (lower bucket_name) = true
  /\ (forall (E : Env) (s : env_state E) c,
        c ∈ calls (trace_of E (S3.create cfg bucket_name public) s) ->
        c ∈ create_steps cfg (lower bucket_name) public).
Proof.
  intros Hascii. split; [|split].
  - unfold S3.create. by rewrite lower_idempotent.
  - by apply lower_stays_ascii.
  - intros E s c. unfold trace_of, S3.create, create_steps.
    destruct public; cbn; repeat play_step.
    all: intros H; cbn in H; members H; subst c; in_list.
Qed.

Lemma reports_is_created_in_lower_case :
  S3.create cfg0 (lower "Reports") false = S3.create cfg0 "Reports" false
  /\ ascii_only (lower "Reports") = true
  /\ (forall (E : Env) (s : env_state E) c,
        c ∈ calls (trace_of E (S3.create cfg0 "Reports" false) s) ->
        c ∈ create_steps cfg0 (lower "Reports") false).
Proof.
  apply (s3_create_lowers_the_name cfg0 "Reports" false). reflexivity.
Defined.

(** The bucket [create] once the client is built, in the runs in which its
    prompt, if any, is answered: the provider calls are an initial part of:
    create the bucket, tag it, set or remove the public access block.  A
    call that fails is the last one.  When the failure is a [ClientError],
    it is printed as an AWS error and the command ends normally; any other
    exception leaves the command, and nothing went to the error stream.
    Without a failure the command ends normally, after no call at all
    (declined) or after all three. *)
Lemma bucket_create_from_the_prompt_on (cfg : Config) (E : Env) (s : env_state E)
    (bucket_name : string) (public : bool) :
  let t := trace_of E (S3.create cfg bucket_name public) s in
  let result := (run E (S3.create cfg bucket_name public) s).1.2 in
  calls t `prefix_of` create_steps cfg (lower bucket_name) public
  /\ (forall c e, existT (Api c) (inl e) ∈ t ->
        last (calls t) = Some c
        /\ (exn_class e = ClientError ->
            result = inr tt /\ last (echoes t) = Some (true, AwsError e))
        /\ (exn_class e <> ClientError ->
            result = inl (Exception e) /\ no_error_echo t))
  /\ ((forall c e, existT (Api c) (inl e) ∉ t) ->
      result = inr tt
      /\ (calls t = [] \/ calls t = create_steps cfg (lower bucket_name) public)).
Proof.
  cbv zeta. unfold trace_of, S3.create, create_steps, no_error_echo.
  destruct public; cbn; repeat play_step.
  all: split; [eexists; cbn; reflexivity|].
  all: split.
  all: try (intros Hno; split; [reflexivity|]; first [by left | by right]).
  all: try (intros Hno; exfalso;
            match goal with
            | Hq : env_step _ _ (Api ?c) = (inl ?e, _) |- _ => apply (Hno c e)
            end; in_list; fail).
  all: intros c e' H; members H; entry_eq H; try discriminate H.
  all: injection H as ->.
  all: idtac.
  all: (split; [reflexivity|]; split; intros Hcl;
            try done; split; try reflexivity; cbn; by repeat constructor).
Qed.

(** A private bucket is created without a prompt. *)
Lemma private_create_asks_nothing cfg (E : Env) (s : env_state E) (bucket_name : string) :
  confirmations (trace_of E (S3.create cfg bucket_name false) s) = [].
Proof. unfold trace_of, S3.create. cbn. repeat play_step. all: reflexivity. Qed.

(** *** Against the provider *)



Lemma find_app_r {A} (P : A -> bool) l1 l2 :
  List.find P l1 = None -> List.find P (l1 ++ l2) = List.find P l2.
Proof.
  induction l1 as [|a l1 IH]; cbn; [done|]. destruct (P a); [done|]. exact IH.
Qed.





Lemma ownership_tags_are_managed cfg : isManaged cfg (tags_dict (ownership_tags cfg)) = true.
Proof.
  unfold isManaged, tags_dict, ownership_tags. cbn. apply bool_decide_eq_true.
  rewrite lookup_insert_ne by done. by rewrite lookup_insert_eq.
Qed.




(** ** route53.py *)

Ltac change_sent H Hm :=
  injection H as -> ->; split; [reflexivity|];
  eexists _, _; split; [in_list|]; split; [exact Hm|]; split; [in_list|reflexivity].

Ltac failure_printed H :=
  injection H as ->; split; reflexivity.

(** [add_record] and [delete_record] from the tag fetch on: no exception
    leaves them.  Whatever the environment, a change they send is for the
    zone given, comes after the tag fetch returned managed tags and after
    the zone's name was fetched, and is the one UPSERT (for [delete_record]:
    DELETE) of the type-A record set named subdomain.zone-name with TTL 300.
    A call that fails is the last call, and the last line printed is the
    error line of that step. *)
Lemma record_command_from_the_fetch_on (cfg : Config) (E : Env)
    (s : env_state E) (op : RecordOp) (zone_id subdomain ip_address : string) :
  let t := trace_of E (record_command cfg op zone_id subdomain ip_address) s in
  (run E (record_command cfg op zone_id subdomain ip_address) s).1.2 = inr tt
  /\ (forall zid chs,
        change_resource_record_sets zid chs ∈ calls t ->
        zid = zone_id
        /\ exists tags zone_name,
             existT (Api (list_tags_for_resource "hostedzone" zone_id)) (inr tags) ∈ t
             /\ isManaged cfg (tags_dict tags) = true
             /\ existT (Api (get_hosted_zone zone_id)) (inr zone_name) ∈ t
             /\ chs = Route53.change_batch (record_action op)
                        (subdomain ++ "." ++ zone_name) ip_address)
  /\ (forall c e, existT (Api c) (inl e) ∈ t ->
        last (calls t) = Some c
        /\ last (echoes t) = Some (true, failure_message op c e)).
Proof.
  cbv zeta. unfold trace_of.
  destruct op; cbn; unfold Route53.add_record, Route53.delete_record; cbn.
  all: answer_cases.
  all: try (destruct (isManaged cfg (tags_dict r)) eqn:Hm; cbn).
  all: play.
  all: split; [reflexivity|].
  all: split.
  all: try (intros zid chs H; members H; try discriminate H; change_sent H Hm).
  all: intros c e' H; members H; entry_eq H; try discriminate H; failure_printed H.
Qed.

(** *** Against the provider *)

(** [delete_record] on a managed zone that holds the record set with TTL
    300: the run in full. *)
Lemma delete_record_run cfg O (w : World) (o : op_state O) zid z tags sub ip :
  find_zone w zid = Some z -> wz_tagging z = inr tags -> isManaged cfg tags = true ->
  a_record (sub ++ "." ++ wz_name z)%string 300 ip ∈ wz_records z ->
  run (system O) (Route53.delete_record cfg zid sub ip) (w, o)
  = ([existT (Api (list_tags_for_resource "hostedzone" zid)) (inr (tag_list tags));
      existT (Api (get_hosted_zone zid)) (inr (wz_name z));
      existT (Echo false (DeletingRecord (sub ++ "." ++ wz_name z)%string ip)) tt;
      existT (Api (change_resource_record_sets zid
                     (Route53.change_batch "DELETE" (sub ++ "." ++ wz_name z)%string ip)))
        (inr tt);
      existT (Echo false RecordDeleted) tt],
     inr tt,
     (set_records zid
        (List.filter
           (fun r => negb (bool_decide (r = a_record (sub ++ "." ++ wz_name z)%string 300 ip)))
           (wz_records z)) w, o)).
Proof.
  intros Hz Ht Hm Hin. unfold a_record in *. unfold Route53.delete_record. cbn.
  rewrite (api_zone_tags w zid z tags Hz Ht). cbn.
  rewrite tags_dict_tag_list, Hm. cbn.
  rewrite (api_zone_name w zid z Hz). cbn.
  unfold Route53.change_batch.
  rewrite (api_delete_done w zid z _ Hz Hin). cbn. reflexivity.
Qed.

Lemma filter_all {A} (P : A -> bool) (l : list A) :
  (forall x, x ∈ l -> P x = true) -> List.filter P l = l.
Proof.
  induction l as [|a l IH]; cbn; [done|]. intros H.
  rewrite (H a) by apply list_elem_of_here.
  f_equal. apply IH. intros x Hx. apply H. by apply list_elem_of_further.
Qed.

Lemma set_records_same (w : World) zid z :
  NoDup (map wz_id (zones w)) -> find_zone w zid = Some z ->
  set_records zid (wz_records z) w = w.
Proof.
  destruct w as [is' bs zs ps]. unfold set_records, find_zone. cbn. intros Hnd Hf.
  f_equal. induction zs as [|z' zs IH]; cbn in *; [done|].
  apply NoDup_cons in Hnd as [Hnotin Hnd].
  case_bool_decide as Hid.
  - injection Hf as ->. f_equal; [by destruct z|].
    clear IH. induction zs as [|z'' zs IH]; cbn; [done|].
    cbn in Hnotin. apply not_elem_of_cons in Hnotin as [Hne Hnotin].
    apply NoDup_cons in Hnd as [_ Hnd].
    rewrite bool_decide_false by congruence. f_equal. by apply IH.
  - f_equal. by apply IH.
Qed.

(** X12.  Against the provider, on a managed zone that holds no type-A
    record set of that name, [add_record] followed by [delete_record] with
    the same arguments succeeds and leaves the zone with the records it had;
    when the ids of the zones are distinct, the whole state is as before. *)
Theorem delete_record_undoes_add_record (cfg : Config) (O : Operator) (w : World)
    (o : op_state O) (zone_id : string) (z : WZone) (tags : gmap string string)
    (subdomain ip : string) :
  find_zone w zone_id = Some z ->
  wz_tagging z = inr tags ->
  isManaged cfg tags = true ->
  let fqdn := (subdomain ++ "." ++ wz_name z)%string in
  (forall r, r ∈ wz_records z -> same_record r (a_record fqdn 300 ip) = false) ->
  let s1 := final_state (system O) (Route53.add_record cfg zone_id subdomain ip) (w, o) in
  let s2 := final_state (system O) (Route53.delete_record cfg zone_id subdomain ip) s1 in
  records_of s1.1 zone_id = wz_records z ++ [a_record fqdn 300 ip]
  /\ echoes (trace_of (system O) (Route53.delete_record cfg zone_id subdomain ip) s1)
     = [(false, DeletingRecord fqdn ip); (false, RecordDeleted)]
  /\ records_of s2.1 zone_id = wz_records z
  /\ (NoDup (map wz_id (zones w)) -> s2.1 = w).
Proof.
  intros Hz Ht Hm fqdn Hnew. cbv zeta.
  set (rr := a_record fqdn 300 ip).
  assert (upserted rr (wz_records z) = wz_records z ++ [rr]) as Hup.
  { unfold upserted. f_equal. apply filter_all. intros r Hr. unfold rr. by rewrite (Hnew r Hr). }
  assert (final_state (system O) (Route53.add_record cfg zone_id subdomain ip) (w, o)
          = (set_records zone_id (wz_records z ++ [rr]) w, o)) as Hs1.
  { unfold final_state.
    rewrite (add_record_run cfg O w o zone_id z tags subdomain ip Hz Ht Hm).
    cbn [fst snd]. fold fqdn. fold rr. by rewrite Hup. }
  rewrite Hs1. cbn [fst snd].
  pose proof (find_zone_set_records w zone_id z (wz_records z ++ [rr]) Hz) as Hz1.
  set (z1 := mkWZone (wz_id z) (wz_name z) (wz_tagging z) (wz_records z ++ [rr])) in Hz1.
  assert (rr ∈ wz_records z1) as Hin1.
  { cbn. apply elem_of_app. right. apply list_elem_of_here. }
  pose proof (delete_record_run cfg O (set_records zone_id (wz_records z ++ [rr]) w) o
                zone_id z1 tags subdomain ip Hz1 Ht Hm Hin1) as Hdel.
  change (wz_name z1) with (wz_name z) in Hdel. fold fqdn in Hdel. fold rr in Hdel.
  unfold trace_of, final_state. rewrite Hdel. cbn [fst snd].
  assert (List.filter (fun r => negb (bool_decide (r = rr))) (wz_records z1) = wz_records z)
    as Hback.
  { cbn [wz_records z1]. rewrite List.filter_app. cbn.
    rewrite bool_decide_true by done. cbn. rewrite app_nil_r.
    apply filter_all. intros r Hr. apply negb_true_iff, bool_decide_eq_false.
    intros ->. specialize (Hnew rr Hr). unfold same_record in Hnew.
    by rewrite !bool_decide_true in Hnew. }
  rewrite Hback, set_records_again.
  split; [unfold records_of; by rewrite Hz1|].
  split; [reflexivity|].
  split; [|intros Hnd; by apply set_records_same].
  unfold records_of. by rewrite (find_zone_set_records w zone_id z _ Hz).
Qed.

Lemma www_is_added_and_deleted :
  records_of
    (final_state (system (replying true)) (Route53.delete_record cfg0 "Z1" "www" "1.2.3.4")
       (final_state (system (replying true)) (Route53.add_record cfg0 "Z1" "www" "1.2.3.4")
          (one_zone, tt))).1 "Z1"
  = [a_record "api.example.com." 60 "10.0.0.1"].
Proof.
  refine (proj1 (proj2 (proj2
    (delete_record_undoes_add_record cfg0 (replying true) one_zone tt "Z1"
       (mkWZone "Z1" "example.com." (inr (tags_of "student" "zone"))
          [a_record "api.example.com." 60 "10.0.0.1"])
       (tags_of "student" "zone") "www" "1.2.3.4" _ _ _ _)))); try reflexivity.
  intros r Hr. cbn in Hr. members Hr. subst r. reflexivity.
Defined.

(** ** From a listing to a command *)

(** In a run that makes no mutating call, every call is answered from the
    state the run began in. *)
Lemma answers_of_a_read_only_run {A} (O : Operator) (p : Prog A) : forall s c a,
  Forall (fun c => is_mutating c = false) (calls (trace_of (system O) p s)) ->
  existT (Api c) a ∈ trace_of (system O) p s -> a = (api s.1 c).1.
Proof.
  unfold trace_of.
  induction p as [x|r|ev k IH]; intros [w o] c a; cbn.
  1,2: intros _ H; by apply elem_of_nil in H.
  destruct ev as [c'|err m|prompt|wd|d]; cbn.
  - pose proof (api_read_only w c') as Hro.
    destruct (api w c') as [a' w'] eqn:Hapi. cbn in Hro.
    specialize (IH a' (w', o) c a).
    destruct (run (system O) (k a') (w', o)) as [[t r] s']. cbn in *.
    intros Hall Hin. apply Forall_cons in Hall as [Hc Ht].
    apply elem_of_cons in Hin as [Heq|Hin].
    + entry_eq Heq. subst a'. by rewrite Hapi.
    + rewrite (Hro Hc) in IH. by apply IH.
  - specialize (IH tt (w, o) c a).
    destruct (run (system O) (k tt) (w, o)) as [[t r] s']. cbn in *.
    intros Hall Hin. apply elem_of_cons in Hin as [Heq|Hin]; [entry_eq Heq|by apply IH].
  - destruct (op_confirm O o prompt) as [b o'].
    specialize (IH b (w, o') c a).
    destruct (run (system O) (k b) (w, o')) as [[t r] s']. cbn in *.
    intros Hall Hin. apply elem_of_cons in Hin as [Heq|Hin]; [entry_eq Heq|by apply IH].
  - destruct (op_widget O o wd) as [v o'].
    specialize (IH v (w, o') c a).
    destruct (run (system O) (k v) (w, o')) as [[t r] s']. cbn in *.
    intros Hall Hin. apply elem_of_cons in Hin as [Heq|Hin]; [entry_eq Heq|by apply IH].
  - specialize (IH tt (w, o) c a).
    destruct (run (system O) (k tt) (w, o)) as [[t r] s']. cbn in *.
    intros Hall Hin. apply elem_of_cons in Hin as [Heq|Hin]; [entry_eq Heq|by apply IH].
Qed.

(** A zone whose tag fetch the provider answers with managed tags. *)
Lemma fetched_zone_is_managed cfg (w : World) zid tags :
  (api w (list_tags_for_resource "hostedzone" zid)).1 = inr tags ->
  isManaged cfg (tags_dict tags) = true ->
  exists z m, find_zone w zid = Some z /\ wz_tagging z = inr m /\ isManaged cfg m = true.
Proof.
  unfold api. cbn. destruct (find_zone w zid) as [z|]; cbn; [|discriminate].
  destruct (wz_tagging z) as [e|m] eqn:Ht; cbn; [discriminate|].
  intros [= <-]. rewrite tags_dict_tag_list. intros Hm. by exists z, m.
Qed.

Lemma filter_one_id (l : list WInstance) (i : WInstance) :
  NoDup (map wi_id l) -> i ∈ l ->
  List.filter (fun i' => bool_decide (wi_id i' ∈ [wi_id i])) l = [i].
Proof.
  induction l as [|x l IH]; cbn; intros Hnd Hin; [by apply elem_of_nil in Hin|].
  apply NoDup_cons in Hnd as [Hx Hnd].
  assert (forall y, y ∈ l -> wi_id y <> wi_id x) as Hother.
  { intros y Hy Heq. apply Hx. rewrite <- Heq. by apply list_elem_of_fmap_2. }
  apply elem_of_cons in Hin as [->|Hin].
  - rewrite bool_decide_true by apply list_elem_of_here. f_equal.
    clear IH Hx Hnd. induction l as [|y l IH]; cbn; [done|].
    rewrite bool_decide_false.
    + apply IH. intros y' Hy'. apply Hother. by apply list_elem_of_further.
    + intros Hy. apply list_elem_of_singleton in Hy. by apply (Hother y (list_elem_of_here _ _)).
  - rewrite bool_decide_false; [by apply IH|].
    intros Hy. apply list_elem_of_singleton in Hy. by apply (Hother i Hin).
Qed.

(** The fetch of a known instance, against the provider. *)
Lemma api_fetch_instance (w : World) (i : WInstance) :
  NoDup (map wi_id (instances w)) -> i ∈ instances w ->
  api w (describe_instances [wi_id i] []) = (inr [mkReservation [describe i]], w).
Proof.
  intros Hnd Hin. unfold api, known_ids. cbn.
  rewrite bool_decide_true by by apply list_elem_of_fmap_2. cbn.
  unfold selected. cbn.
  erewrite List.filter_ext; [by rewrite (filter_one_id _ i Hnd Hin)|].
  intros i'. cbn. by rewrite andb_true_r.
Qed.

(** X13.  Against the provider, the ids a listing prints pass the guard of
    the commands.  For a zone that [list] prints, [add_record] and
    [delete_record] go on to fetch the zone's name and to send their change.
    For an instance that [list] prints, when the ids of the instances are
    distinct, [start], [stop] and [terminate] (answered yes) send their
    call. *)
Theorem listed_ids_pass_the_guard (cfg : Config) (O : Operator) (w : World)
    (o : op_state O) :
  (forall err zid name n op sub ip,
     (err, ZoneRow zid name n) ∈ echoes (trace_of (system O) (Route53.list cfg) (w, o)) ->
     exists zone_name,
       calls (trace_of (system O) (record_command cfg op zid sub ip) (w, o))
       = [list_tags_for_resource "hostedzone" zid; get_hosted_zone zid;
          change_resource_record_sets zid
            (Route53.change_batch (record_action op) (sub ++ "." ++ zone_name) ip)])
  /\ (NoDup (map wi_id (instances w)) ->
      forall err id name state ty ip op,
        (err, InstanceRow id name state ty ip)
          ∈ echoes (trace_of (system O) (Ec2.list cfg) (w, o)) ->
        (op = Terminate -> (op_confirm O o "Are you sure?").1 = true) ->
        calls (trace_of (system O) (instance_command cfg op id) (w, o))
        = [describe_instances [id] []; instance_call op [id]]).
Proof.
  split.
  - intros err zid name n op sub ip Hrow.
    destruct (route53_list_rows cfg (system O) (w, o) err zid name n Hrow)
      as (tags & Hin & Hm).
    assert ((api w (list_tags_for_resource "hostedzone" zid)).1 = inr tags) as Hfetch.
    { symmetry. apply (answers_of_a_read_only_run O (Route53.list cfg) (w, o) _ _); [|exact Hin].
      destruct (route53_list_world cfg O w o) as [_ Hc]. rewrite Hc.
      constructor; [done|]. apply Forall_forall. intros c Hc'.
      apply list_elem_of_fmap in Hc' as (z & -> & _). done. }
    destruct (fetched_zone_is_managed cfg w zid tags Hfetch Hm) as (z & m & Hz & Ht & Hm').
    exists (wz_name z). unfold trace_of. destruct op; cbn [record_command record_action].
    + by rewrite (add_record_run cfg O w o zid z m sub ip Hz Ht Hm').
    + destruct (decide (a_record (sub ++ "." ++ wz_name z) 300 ip ∈ wz_records z)) as [Hr|Hr].
      * by rewrite (delete_record_run cfg O w o zid z m sub ip Hz Ht Hm' Hr).
      * by rewrite (delete_record_refused cfg O w o zid z m sub ip Hz Ht Hm' Hr).
  - intros Hnd err id name state ty ip op Hrow Hyes.
    destruct (ec2_list_rows cfg O w o err id name state ty ip Hrow)
      as (i & Hin & <- & _ & Hm & _).
    pose proof (api_fetch_instance w i Hnd Hin) as Hfetch.
    assert (known_ids w [wi_id i] = true) as Hknown.
    { unfold known_ids. cbn. rewrite bool_decide_true by by apply list_elem_of_fmap_2. done. }
    unfold trace_of.
    destruct op; cbn -[describe]; unfold Ec2.fetch_tags; cbn -[describe];
      rewrite Hfetch; cbn -[describe].
    all: change (tags_dict (default [] (Tags (describe i)))) with (instance_tags (describe i)).
    all: rewrite instance_tags_describe, Hm; cbn.
    1,2: unfold api at 1; rewrite Hknown; cbn; reflexivity.
    destruct (op_confirm O o "Are you sure?") as [b o'] eqn:Hconfirm.
    cbn in Hyes. rewrite (Hyes eq_refl). cbn.
    unfold api at 1. rewrite Hknown. cbn. reflexivity.
Qed.

(** ** app.py *)

(** *** A page that is only looked at *)

Lemma Idle_sound {A} (p : Prog A) :
  Idle p -> forall E s, no_click (trace_of E p s) ->
  Forall (fun c => is_mutating c = false) (calls (trace_of E p s)).
Proof.
  unfold trace_of, no_click.
  induction 1 as [a|r|label key k Hk IH|ev k Hev Hk IH]; intros E s; cbn.
  1,2: intros _; constructor.
  - destruct (env_step E s _) as [b s1]. cbn in b.
    specialize (IH E s1).
    destruct b.
    + destruct (run E (k true) s1) as [[t r] s2]. cbn.
      intros Hno. destruct (Hno label key). apply list_elem_of_here.
    + destruct (run E (k false) s1) as [[t r] s2]. cbn in *.
      intros Hno. apply IH. intros l' k' Hin. apply (Hno l' k'). by apply list_elem_of_further.
  - destruct (env_step E s ev) as [a s1].
    specialize (IH a E s1).
    destruct (run E (k a) s1) as [[t r] s2]. cbn in *.
    intros Hno.
    assert (Forall (fun c => is_mutating c = false) (calls t)) as Ht.
    { apply IH. intros l' k' Hin. apply (Hno l' k'). by apply list_elem_of_further. }
    destruct ev as [c| | | |]; cbn; try exact Ht.
    constructor; [|exact Ht].
    destruct (is_mutating c) eqn:Hm; [|done]. destruct Hev. by exists c.
Qed.

Lemma Idle_bind {A B} (p : Prog A) (f : A -> Prog B) :
  Idle p -> (forall a, Idle (f a)) -> Idle (p ≫= f).
Proof.
  intros Hp Hf. induction Hp as [a|r|label key k Hk IH|ev k Hev Hk IH]; cbn.
  - apply Hf.
  - constructor.
  - apply Idle_button. exact IH.
  - apply Idle_Vis; [done|]. intros a. apply IH.
Qed.

Lemma Idle_try {A} (p : Prog A) clause :
  Idle p -> (forall r q, clause r = Some q -> Idle q) -> Idle (try_except p clause).
Proof.
  intros Hp Hc. induction Hp as [a|r|label key k Hk IH|ev k Hev Hk IH]; cbn.
  - constructor.
  - destruct (clause r) as [q|] eqn:Hq; [by apply (Hc r)|constructor].
  - apply Idle_button. exact IH.
  - apply Idle_Vis; [done|]. intros a. apply IH.
Qed.

Lemma Idle_for_each {A S} (xs : list A) (body : A -> S -> Prog S) :
  (forall x s, Idle (body x s)) -> forall s, Idle (for_each xs body s).
Proof.
  intros Hb. induction xs as [|x xs IH]; intros s; cbn; [constructor|].
  apply (Idle_bind (body x s)); [apply Hb|]. intros s'. apply IH.
Qed.

Lemma Idle_except_Exception {A} (h : Exn -> Prog A) :
  (forall e, Idle (h e)) -> forall r q, except_Exception h r = Some q -> Idle q.
Proof. intros Hh [e|] q; cbn; [intros [= <-]; apply Hh|discriminate]. Qed.

(** One step of a proof of [Idle], by the shape of the command. *)
Ltac idle_step :=
  match goal with
  | |- forall _, _ => intro
  | |- Idle (Ret _) => constructor
  | |- Idle (mret _) => constructor
  | |- Idle (Raise _) => constructor
  | |- Idle (App.rerun) => constructor
  | |- Idle (Vis (Widget (St.button _ _)) _) => apply Idle_button; cbn
  | |- Idle (Vis _ _) =>
      apply Idle_Vis; [intros (? & Hev & Hmut); first [discriminate Hev | by injection Hev as <-]|]
  | |- Idle (try_except _ (except_Exception _)) =>
      apply Idle_try; [|apply Idle_except_Exception]
  | |- Idle (try_except _ (except_all _)) =>
      apply Idle_try; [|intros ? ? [= <-]]
  | |- Idle (for_each _ _ _) => apply Idle_for_each
  | |- Idle (_ ≫= _) => apply Idle_bind
  | |- Idle (bind _ _) => apply Idle_bind
  | |- Idle (if ?b then _ else _) => destruct b
  | |- Idle (match ?x with _ => _ end) => destruct x
  end.

Lemma ec2_section_is_idle cfg : Idle (App.ec2_section cfg).
Proof.
  unfold App.ec2_section, App.ec2_launch_form, App.ec2_instances, App.selectbox,
    App.get_latest_ami, App.rerun, widget, display, call.
  cbn. repeat idle_step.
Qed.

Lemma s3_section_is_idle cfg : Idle (App.s3_section cfg).
Proof.
  unfold App.s3_section, App.s3_create_form, App.s3_buckets, App.s3_bucket, App.selectbox,
    App.rerun, widget, display, call.
  cbn. repeat idle_step.
Qed.

Lemma manage_records_is_idle (my_zones : list (string * string)) :
  Idle (App.manage_records my_zones).
Proof.
  unfold App.manage_records, App.add_record_form, App.delete_record_list,
    App.delete_record_row, App.resource_records, App.subscript, App.selectbox, App.rerun,
    widget, display,
    call, first.
  cbn. repeat idle_step.
Qed.

Lemma route53_section_is_idle cfg : Idle (App.route53_section cfg).
Proof.
  unfold App.route53_section, App.route53_zones, App.route53_zone, widget, display, call.
  cbn. repeat idle_step.
  all: try apply manage_records_is_idle.
Qed.

Lemma app_is_idle cfg : Idle (App.app cfg).
Proof.
  unfold App.app. apply Idle_bind.
  - unfold App.selectbox, widget. cbn. repeat idle_step.
  - intros menu.
    destruct (bool_decide (menu = "EC2 (Servers)")); [apply ec2_section_is_idle|].
    destruct (bool_decide (menu = "S3 (Storage)")); [apply s3_section_is_idle|].
    destruct (bool_decide (menu = "Route53 (DNS)")); [apply route53_section_is_idle|].
    constructor.
Qed.

(** X14.  When no button is clicked, the three sections of the page make
    no mutating provider call, whatever the environment; against the
    provider the state is as it was. *)
Theorem page_without_a_click_changes_nothing (cfg : Config) :
  (forall (E : Env) (s : env_state E),
     no_click (trace_of E (App.app cfg) s) ->
     Forall (fun c => is_mutating c = false) (calls (trace_of E (App.app cfg) s)))
  /\ (forall (O : Operator) (w : World) (o : op_state O),
        no_click (trace_of (system O) (App.app cfg) (w, o)) ->
        world_after O (App.app cfg) (w, o) = w).
Proof.
  split.
  - intros E s. apply Idle_sound, app_is_idle.
  - intros O w o Hno. apply (world_kept_without_mutation O _ (w, o)).
    by apply Idle_sound; [apply app_is_idle|].
Qed.

Lemma looking_at_the_page_changes_nothing :
  world_after (replying true) (App.app cfg0) (one_managed, tt) = one_managed.
Proof.
  apply (proj2 (page_without_a_click_changes_nothing cfg0) (replying true) one_managed tt).
  intros label key H. vm_compute in H.
  members H; entry_eq H; discriminate H.
Defined.

(** *** What the buttons act on *)

(** X15.  Against the provider, the Start, Stop and Terminate buttons of
    the page act on one instance of the provider, which is managed.
    Whatever the environment, the Add Record and Delete buttons change a zone
    whose tag fetch in the same run returned managed tags. *)
Theorem page_buttons_act_on_listed_resources (cfg : Config) :
  (forall (O : Operator) (w : World) (o : op_state O) op ids,
     instance_call op ids ∈ calls (trace_of (system O) (App.ec2_instances cfg) (w, o)) ->
     exists i, i ∈ instances w /\ ids = [wi_id i] /\ isManaged cfg (wi_tags i) = true)
  /\ (forall (E : Env) (s : env_state E) zid chs,
        change_resource_record_sets zid chs ∈ calls (trace_of E (App.route53_zones cfg) s) ->
        exists tags,
          existT (Api (list_tags_for_resource "hostedzone" zid)) (inr tags)
            ∈ trace_of E (App.route53_zones cfg) s
          /\ isManaged cfg (tags_dict tags) = true).
Proof.
  split.
  - intros O w o op ids. apply ui_instance_buttons_act_on_managed.
  - intros E s zid chs. apply ui_record_buttons_act_on_managed.
Qed.

Lemma terminate_button_acts_on_a_managed_instance :
  exists i, i ∈ instances one_managed /\ ["i-1"] = [wi_id i]
            /\ isManaged cfg0 (wi_tags i) = true.
Proof.
  apply (proj1 (page_buttons_act_on_listed_resources cfg0) (clicking "🗑️ Terminate")
           one_managed tt Terminate ["i-1"]).
  vm_compute. apply list_elem_of_further. apply list_elem_of_here.
Defined.

(** *** The forms *)

(** X16.  Whatever the environment, the bucket form of the page calls the
    provider only after the Create Bucket button was clicked and with a name
    that is not empty; its calls are the creation steps for the name as it
    was typed.  When the public box is ticked, the risk box is ticked as
    well and the public access block is not set; when it is not ticked, the
    block is not removed. *)
Theorem page_bucket_form_checks_before_creating (cfg : Config) (E : Env)
    (s : env_state E) (c : ApiCall) :
  let t := trace_of E (App.s3_create_form cfg) s in
  c ∈ calls t ->
  existT (Widget (St.button "Create Bucket" None)) true ∈ t
  /\ exists b_name : string,
       existT (Widget (St.text_input "Bucket Name (lowercase only!)" "")) b_name ∈ t
       /\ b_name <> ""
       /\ c ∈ [create_bucket b_name
                 (if bool_decide (App.REGION cfg = "us-east-1") then None
                  else Some (Some (App.REGION cfg)));
               put_bucket_tagging b_name (ownership_tags cfg);
               delete_public_access_block b_name;
               put_public_access_block b_name true true true true]
       /\ (existT (Widget (St.checkbox "Make Public? (Dangerous)")) true ∈ t ->
           existT (Widget (St.checkbox "I understand the risks")) true ∈ t
           /\ c <> put_public_access_block b_name true true true true)
       /\ (existT (Widget (St.checkbox "Make Public? (Dangerous)")) false ∈ t ->
           c <> delete_public_access_block b_name).
Proof.
  cbv zeta. unfold trace_of, App.s3_create_form, App.rerun, widget, display, call.
  cbn. answer. answer_cases.
  all: repeat play_step.
  all: intros H; members H; subst c.
  all: (split; [in_list|]).
  all: eexists; (split; [in_list|]).
  all: split; [done|].
  all: split; [in_list|].
  all: split; intros Hbox; members Hbox; entry_eq Hbox; try discriminate Hbox.
  all: try done.
  all: split; [in_list|done].
Qed.

Lemma bucket_form_creates_a_named_bucket :
  existT (Widget (St.button "Create Bucket" None)) true
    ∈ trace_of (system (filling "reports" "Create Bucket")) (App.s3_create_form cfg0)
        (three_buckets, tt).
Proof.
  apply (page_bucket_form_checks_before_creating cfg0
           (system (filling "reports" "Create Bucket")) (three_buckets, tt)
           (put_bucket_tagging "reports" (ownership_tags cfg0))).
  vm_compute. apply list_elem_of_further. apply list_elem_of_here.
Defined.

(** X17.  Whatever the environment, the launch form of the page calls the
    provider only after the Launch Instance button was clicked: it looks up
    the image, and it launches one instance of a type of the allow-list with
    the image found, with the name and the key typed, tagged [Name],
    [CreatedBy] and [Owner]. *)
Theorem page_launch_form_launches_an_allowed_type (cfg : Config) (E : Env)
    (s : env_state E) (c : ApiCall) :
  let t := trace_of E (App.ec2_launch_form cfg) s in
  c ∈ calls t ->
  existT (Widget (St.button "Launch Instance" None)) true ∈ t
  /\ (c = get_parameter Ec2.SSM_AMI_PATH
      \/ exists ami ty key name : string,
           c = run_instances ami ty key 1 1
                 [mkTag "Name" name; mkTag "CreatedBy" (TAG_CREATED_BY cfg);
                  mkTag "Owner" (TAG_OWNER cfg)]
           /\ ty ∈ Ec2.ALLOWED_TYPES
           /\ existT (Api (get_parameter Ec2.SSM_AMI_PATH)) (inr ami) ∈ t
           /\ existT (Widget (St.text_input "Server Name" "web-server")) name ∈ t
           /\ existT (Widget (St.text_input "SSH Key Name" "edik")) key ∈ t).
Proof.
  cbv zeta. unfold trace_of, App.ec2_launch_form, App.get_latest_ami, App.selectbox,
    App.rerun, widget, display, call.
  cbn. do 3 answer. play.
  all: intros H; members H; subst c.
  all: (split; [in_list|]).
  all: try (by left).
  all: right; eexists _, _, _, _; (split; [reflexivity|]).
  all: split; [|split; [in_list|split; in_list]].
  all: unfold Ec2.ALLOWED_TYPES; destruct a1 as [|[|n]]; in_list.
Qed.

Lemma launch_button_looks_up_the_image :
  existT (Widget (St.button "Launch Instance" None)) true
    ∈ trace_of (system (clicking "Launch Instance")) (App.ec2_launch_form cfg0)
        (two_running_with_image, tt).
Proof.
  apply (page_launch_form_launches_an_allowed_type cfg0 (system (clicking "Launch Instance"))
           (two_running_with_image, tt) (get_parameter Ec2.SSM_AMI_PATH)).
  vm_compute. apply list_elem_of_here.
Defined.

(** X18.  The launch form of the page does not query the instances:
    against the provider, with the image parameter set, a click on Launch
    Instance raises the number of counted instances by one, whatever it
    was. *)
Theorem page_launch_does_not_count (cfg : Config) (O : Operator) (w : World)
    (o : op_state O) (ami : string) :
  parameters w !! Ec2.SSM_AMI_PATH = Some ami ->
  existT (Widget (St.button "Launch Instance" None)) true
    ∈ trace_of (system O) (App.ec2_launch_form cfg) (w, o) ->
  Forall (fun c => forall ids fs, c <> describe_instances ids fs)
    (calls (trace_of (system O) (App.ec2_launch_form cfg) (w, o)))
  /\ cap_count cfg (world_after O (App.ec2_launch_form cfg) (w, o)) = S (cap_count cfg w).
Proof.
  intros Hami. unfold trace_of, world_after, final_state, App.ec2_launch_form,
    App.get_latest_ami, App.selectbox, App.rerun, widget, display, call.
  cbn.
  destruct (op_widget O o _) as [name o1]. cbn.
  destruct (op_widget O o1 _) as [key o2]. cbn.
  destruct (op_widget O o2 _) as [i o3]. cbn.
  destruct (op_widget O o3 _) as [[] o4]; cbn.
  2: { intros H. members H; entry_eq H; discriminate H. }
  intros _. rewrite api_get_parameter.
  destruct (parameters w !! _) as [v|]; [injection Hami as ->|discriminate Hami].
  cbn. rewrite api_run_instances. cbn -[with_instance launched cap_count]. split.
  - repeat constructor; intros ids fs; discriminate.
  - rewrite cap_count_with_instance, launched_counts. lia.
Qed.

Lemma launch_button_adds_a_third_instance :
  cap_count cfg0 (world_after (clicking "Launch Instance") (App.ec2_launch_form cfg0)
                    (two_running_with_image, tt)) = 3.
Proof.
  apply (page_launch_does_not_count cfg0 (clicking "Launch Instance") two_running_with_image
           tt "ami-0abc").
  - reflexivity.
  - vm_compute. do 4 apply list_elem_of_further. apply list_elem_of_here.
Defined.

(** *** The list of records *)

(** The loop over the A records: every call is the DELETE of one of them,
    sent after a click on its button. *)
Lemma delete_rows_send_listed_records (E : Env) (zid : string) (recs : list RRSet) :
  forall s c,
    c ∈ calls (run E (for_each recs (App.delete_record_row zid) tt) s).1.1 ->
    exists rec value,
      rec ∈ recs /\ head (ResourceRecords rec) = Some value
      /\ c = change_resource_record_sets zid
               [mkChange "DELETE"
                  (mkRRSet (RName rec) "A" (Some (default 300%Z (TTL rec))) [value])]
      /\ existT (Widget (St.button "🗑️ Delete" (Some (RName rec)))) true
           ∈ (run E (for_each recs (App.delete_record_row zid) tt) s).1.1.
Proof.
  induction recs as [|rec recs IH]; intros s c.
  { cbn. intros H. by apply elem_of_nil in H. }
  rewrite for_each_cons, run_bind.
  unfold App.delete_record_row at 1 3, App.resource_records, App.rerun, first, widget,
    display, call.
  destruct (ResourceRecords rec) as [|v vs] eqn:Hv; cbn.
  { intros H. by apply elem_of_nil in H. }
  do 2 answer_cases. answer_cases.
  - answer_cases.
    + answer_cases. specialize (IH s4 c).
      destruct (run E (for_each recs _ tt) s4) as [[t r] s5]. cbn in *.
      intros H. apply elem_of_cons in H as [->|H].
      * exists rec, v. rewrite Hv. split; [apply list_elem_of_here|]. split; [done|].
        split; [done|]. in_list.
      * destruct (IH H) as (rec' & v' & Hin & Hh & -> & Hb).
        exists rec', v'. split; [by apply list_elem_of_further|]. split; [done|].
        split; [done|]. do 5 apply list_elem_of_further. exact Hb.
    + answer_cases. intros H. cbn in H. members H. subst c.
      exists rec, v. rewrite Hv. split; [apply list_elem_of_here|]. split; [done|].
      split; [done|]. in_list.
  - specialize (IH s2 c).
    destruct (run E (for_each recs _ tt) s2) as [[t r] s3]. cbn in *.
    intros H. destruct (IH H) as (rec' & v' & Hin & Hh & -> & Hb).
    exists rec', v'. split; [by apply list_elem_of_further|]. split; [done|].
    split; [done|]. do 3 apply list_elem_of_further. exact Hb.
Qed.

(** X19.  Whatever the environment, a call made by the record list of the
    page is the listing of the zone's records, or the DELETE, in that zone,
    of a type-A record set of that listing, sent with the record's name, its
    first value and its TTL (300 when it has none) after a click on the
    button of that record. *)
Theorem page_deletes_what_it_listed (E : Env) (s : env_state E) (zone_id : string)
    (c : ApiCall) :
  let t := trace_of E (App.delete_record_list zone_id) s in
  c ∈ calls t ->
  c = list_resource_record_sets zone_id
  \/ exists records rec value,
       existT (Api (list_resource_record_sets zone_id)) (inr records) ∈ t
       /\ rec ∈ records /\ RType rec = "A"
       /\ head (ResourceRecords rec) = Some value
       /\ c = change_resource_record_sets zone_id
                [mkChange "DELETE"
                   (mkRRSet (RName rec) "A" (Some (default 300%Z (TTL rec))) [value])]
       /\ existT (Widget (St.button "🗑️ Delete" (Some (RName rec)))) true ∈ t.
Proof.
  cbv zeta. unfold trace_of, App.delete_record_list, call, display. cbn. answer_cases.
  { answer_cases. intros H. cbn in H. members H. by left. }
  rewrite run_try_except.
  case_bool_decide as Hne; cbn.
  2: { answer_cases. intros H. cbn in H. members H. by left. }
  pose proof (delete_rows_send_listed_records E zone_id
                (filter (fun r0 => RType r0 = "A") r) s0) as Hrows.
  destruct (run E (for_each _ _ tt) s0) as [[t [[e|]|[]]] s1]; cbn in *.
  1: answer_cases.
  all: intros H; apply elem_of_cons in H as [->|H]; [by left|right].
  1: rewrite calls_app in H; apply elem_of_app in H as [H|H]; [|cbn in H; members H].
  all: destruct (Hrows c H) as (rec & v & Hin & Hh & -> & Hb).
  all: apply list_elem_of_filter in Hin as [HA Hin].
  all: exists r, rec, v; split; [apply list_elem_of_here|]; do 4 (split; [done|]).
  all: apply list_elem_of_further; try (apply elem_of_app; left); exact Hb.
Qed.

Lemma delete_button_sends_the_listed_record :
  change_resource_record_sets "Z1"
    [mkChange "DELETE" (a_record "api.example.com." 60 "10.0.0.1")]
  = list_resource_record_sets "Z1"
  \/ exists records rec value,
       existT (Api (list_resource_record_sets "Z1")) (inr records)
         ∈ trace_of (system (clicking "🗑️ Delete")) (App.delete_record_list "Z1") (one_zone, tt)
       /\ rec ∈ records /\ RType rec = "A"
       /\ head (ResourceRecords rec) = Some value
       /\ change_resource_record_sets "Z1"
            [mkChange "DELETE" (a_record "api.example.com." 60 "10.0.0.1")]
          = change_resource_record_sets "Z1"
              [mkChange "DELETE"
                 (mkRRSet (RName rec) "A" (Some (default 300%Z (TTL rec))) [value])]
       /\ existT (Widget (St.button "🗑️ Delete" (Some (RName rec)))) true
            ∈ trace_of (system (clicking "🗑️ Delete")) (App.delete_record_list "Z1")
                (one_zone, tt).
Proof.
  apply (page_deletes_what_it_listed (system (clicking "🗑️ Delete")) (one_zone, tt) "Z1").
  vm_compute. apply list_elem_of_further. apply list_elem_of_here.
Defined.

(** The loop over the A records when none of the buttons is clicked and a
    record set that came without [ResourceRecords] is met. *)
Lemma delete_rows_stop_at_an_alias (E : Env) (zid : string) (alias : RRSet)
    (rest : list RRSet) :
  ResourceRecords alias = [] ->
  forall good s,
    Forall (fun r => ResourceRecords r <> []) good ->
    no_click (run E (for_each (good ++ alias :: rest) (App.delete_record_row zid) tt) s).1.1 ->
    exists t s',
      run E (for_each (good ++ alias :: rest) (App.delete_record_row zid) tt) s
      = (t, inl (Exception (mkExn KeyError "'ResourceRecords'")), s')
      /\ displays t
         = flat_map (fun r => [St.text (RName r);
                               St.text (default "" (head (ResourceRecords r)))]) good
      /\ calls t = [].
Proof.
  intros Halias. induction good as [|g good IH]; intros s Hgood.
  - cbn [app]. rewrite for_each_cons, run_bind.
    set (loop := for_each rest (App.delete_record_row zid)).
    unfold App.delete_record_row, App.resource_records, first. rewrite Halias. cbn.
    intros _. by eexists _, _.
  - apply Forall_cons in Hgood as [Hg Hgood].
    cbn [app]. rewrite for_each_cons, run_bind.
    specialize (IH).
    set (loop := for_each (good ++ alias :: rest) (App.delete_record_row zid)) in *.
    unfold App.delete_record_row, App.resource_records, App.rerun, first, widget, display,
      call.
    destruct (ResourceRecords g) as [|v vs] eqn:Hv; [done|]. cbn.
    do 2 answer_cases. answer_cases.
    + repeat match goal with
             | |- context [run E ?p ?s'] => destruct (run E p s') as [[? [[?|]|?]] ?]; cbn
             | |- context [env_step E ?s' ?ev] => destruct (env_step E s' ev) as [? ?]; cbn
             | |- context [match ?a with inl _ => _ | inr _ => _ end] => destruct a; cbn
             end.
      all: intros Hno; destruct (Hno "🗑️ Delete" (Some (RName g))); in_list.
    + specialize (IH s2 Hgood).
      destruct (run E (loop tt) s2) as [[t r] s3]. cbn in *.
      intros Hno.
      destruct IH as (t' & s' & [= -> -> ->] & Hd & Hc).
      { intros l k Hin. apply (Hno l k). by do 3 apply list_elem_of_further. }
      eexists _, _. split; [reflexivity|]. cbn. rewrite Hv. cbn.
      split; [do 2 f_equal; exact Hd|exact Hc].
Qed.

(** X20.  When the type-A records listed hold a record set that came
    without [ResourceRecords] (an alias), and no button is clicked, the page
    shows name and value of the records before it and then the error of the
    missing key, [Error fetching records: 'ResourceRecords']: that record
    and the records after it get no row and no button.  The listing is the
    only provider call. *)
Theorem page_record_list_stops_at_an_alias (E : Env) (s : env_state E) (zone_id : string)
    (records good rest : list RRSet) (alias : RRSet) :
  (env_step E s (Api (list_resource_record_sets zone_id))).1 = inr records ->
  filter (fun r => RType r = "A") records = good ++ alias :: rest ->
  Forall (fun r => ResourceRecords r <> []) good ->
  ResourceRecords alias = [] ->
  let t := trace_of E (App.delete_record_list zone_id) s in
  no_click t ->
  displays t
  = flat_map (fun r => [St.text (RName r);
                        St.text (default "" (head (ResourceRecords r)))]) good
    ++ [St.error "Error fetching records: 'ResourceRecords'"]
  /\ calls t = [list_resource_record_sets zone_id].
Proof.
  intros Hanswer Hfilter Hgood Halias. cbv zeta.
  unfold trace_of, App.delete_record_list, call, display. cbn.
  destruct (env_step E s _) as [a s0]. cbn in Hanswer. subst a. cbn.
  rewrite run_try_except, Hfilter.
  rewrite bool_decide_true by by destruct good.
  pose proof (delete_rows_stop_at_an_alias E zone_id alias rest Halias good s0 Hgood) as Hrows.
  destruct (run E (for_each _ _ tt) s0) as [[t r] s1]. cbn in Hrows.
  destruct r as [[e|]|[]]; cbn.
  - destruct (env_step E s1 _) as [[] s2]. cbn. intros Hno.
    destruct Hrows as (t' & s' & [= -> -> ->] & Hd & Hc).
    { intros l k Hin. apply (Hno l k). apply list_elem_of_further.
      apply elem_of_app. by left. }
    change (omap _ (t' ++ ?x)) with (displays (t' ++ x)) at 1.
    rewrite displays_app, Hd. split; [reflexivity|].
    change (omap _ (t' ++ ?x)) with (calls (t' ++ x)).
    by rewrite calls_app, Hc.
  - intros Hno. destruct Hrows as (t' & s' & [=] & _).
    intros l k Hin. apply (Hno l k). by apply list_elem_of_further.
  - intros Hno. destruct Hrows as (t' & s' & [=] & _).
    intros l k Hin. apply (Hno l k). by apply list_elem_of_further.
Qed.

Lemma alias_record_ends_the_list :
  displays (trace_of (system (replying true)) (App.delete_record_list "Z2")
              (zone_with_alias, tt))
  = [St.text "www.example.com."; St.text "1.2.3.4";
     St.error "Error fetching records: 'ResourceRecords'"].
Proof.
  refine (proj1 (page_record_list_stops_at_an_alias (system (replying true))
                   (zone_with_alias, tt) "Z2"
                   [a_record "www.example.com." 300 "1.2.3.4";
                    mkRRSet "cdn.example.com." "A" None [];
                    a_record "api.example.com." 300 "5.6.7.8"]
                   [a_record "www.example.com." 300 "1.2.3.4"]
                   [a_record "api.example.com." 300 "5.6.7.8"]
                   (mkRRSet "cdn.example.com." "A" None []) _ _ _ _ _)).
  - reflexivity.
  - reflexivity.
  - repeat constructor. discriminate.
  - reflexivity.
  - intros label key H. vm_compute in H. members H; entry_eq H; discriminate H.
Defined.

(** *** Zones of the same name *)

Lemma dict_get_set k v k' (d : list (string * string)) :
  App.dict_get k' (App.dict_set k v d)
  = if bool_decide (k' = k) then Some v else App.dict_get k' d.
Proof.
  induction d as [|[k0 v0] d IH]; cbn.
  - destruct (bool_decide_reflect (k = k')), (bool_decide_reflect (k' = k)); congruence.
  - destruct (bool_decide_reflect (k0 = k)) as [->|Hne]; cbn.
    + destruct (bool_decide_reflect (k = k')), (bool_decide_reflect (k' = k)); congruence.
    + destruct (bool_decide_reflect (k0 = k')) as [->|Hne']; cbn.
      * by rewrite bool_decide_false.
      * exact IH.
Qed.

Lemma dict_set_keys k v (d : list (string * string)) :
  map fst (App.dict_set k v d)
  = if bool_decide (k ∈ map fst d) then map fst d else map fst d ++ [k].
Proof.
  induction d as [|[k0 v0] d IH]; cbn; [done|].
  destruct (bool_decide_reflect (k0 = k)) as [->|Hne]; cbn.
  - by rewrite bool_decide_true by apply list_elem_of_here.
  - rewrite IH. destruct (bool_decide_reflect (k ∈ map fst d)) as [Hin|Hnin].
    + by rewrite bool_decide_true by by apply list_elem_of_further.
    + rewrite bool_decide_false; [done|].
      intros H. apply elem_of_cons in H as [?|?]; congruence.
Qed.

Lemma dict_set_NoDup k v (d : list (string * string)) :
  NoDup (map fst d) -> NoDup (map fst (App.dict_set k v d)).
Proof.
  intros Hnd. rewrite dict_set_keys. case_bool_decide as Hin; [done|].
  apply NoDup_app. split; [done|]. split; [|apply NoDup_singleton].
  intros x Hx Hk. apply list_elem_of_singleton in Hk as ->. done.
Qed.

Lemma zone_under_snoc name (table : list St.ZoneEntry) e :
  zone_under name (table ++ [e])
  = if bool_decide (name = St.entry_Domain e) then Some (St.entry_ZoneID e)
    else zone_under name table.
Proof.
  unfold zone_under. rewrite filter_app, filter_cons, filter_nil.
  destruct (decide (St.entry_Domain e = name)) as [<-|Hne].
  - rewrite bool_decide_true by done. by rewrite last_snoc.
  - rewrite bool_decide_false by congruence. by rewrite app_nil_r.
Qed.

(** The zone loop keeps the names of [my_zones] distinct, and what it holds
    under a name is the last row of that name in the table. *)
Lemma zone_loop_keys cfg E zs : forall s acc,
  NoDup (map fst acc.1) ->
  (forall name, App.dict_get name acc.1 = zone_under name acc.2) ->
  exists t res s',
    run E (for_each zs (App.route53_zone cfg) acc) s = (t, inr res, s')
    /\ NoDup (map fst res.1)
    /\ (forall name, App.dict_get name res.1 = zone_under name res.2).
Proof.
  induction zs as [|z zs IH]; intros s acc Hnd Hget.
  - exists [], acc, s. by cbn.
  - rewrite for_each_cons, run_bind. unfold App.route53_zone at 1. cbn. answer_cases.
    + destruct (IH s0 acc Hnd Hget) as (t & res & s' & -> & Hres).
      by eexists _, _, _.
    + destruct (isManaged cfg (tags_dict r)) eqn:Hm; cbn.
      * match goal with |- context [run E (for_each zs _ ?acc') s0] =>
          destruct (IH s0 acc') as (t & res & s' & -> & Hres) end.
        { cbn. by apply dict_set_NoDup. }
        { intros name. cbn [fst snd]. rewrite dict_get_set, zone_under_snoc.
          cbn [St.entry_Domain St.entry_ZoneID].
          case_bool_decide; [done|]. apply Hget. }
        by eexists _, _, _.
      * destruct (IH s0 acc Hnd Hget) as (t & res & s' & -> & Hres).
        by eexists _, _, _.
Qed.

(** The record buttons change the zone held under the name chosen. *)
Lemma manage_records_changes_the_chosen_zone (my_zones : list (string * string))
    (E : Env) (s : env_state E) zid chs :
  change_resource_record_sets zid chs ∈ calls (trace_of E (App.manage_records my_zones) s) ->
  exists name, name ∈ map fst my_zones /\ App.dict_get name my_zones = Some zid.
Proof.
  unfold trace_of, App.manage_records.
  remember (fun target_zone_name : string =>
              target_zone_id ← App.subscript my_zones target_zone_name;
              App.add_record_form target_zone_name target_zone_id;;
              App.delete_record_list target_zone_id) as rest eqn:Hrest_eq.
  rewrite run_bind.
  unfold App.selectbox, widget. cbn.
  destruct (env_step E s _) as [i s0]. cbn.
  set (name := default _ _).
  subst rest.
  remember (fun target_zone_id : string =>
              App.add_record_form name target_zone_id;;
              App.delete_record_list target_zone_id) as rest eqn:Hrest_eq.
  rewrite run_bind.
  unfold App.subscript.
  destruct (App.dict_get name my_zones) as [zid'|] eqn:Hget; cbn.
  2: { intros H. by apply elem_of_nil in H. }
  subst rest.
  assert (Never (changes_zone_outside [zid'])
            (App.add_record_form name zid' ≫= fun _ => App.delete_record_list zid'))
    as Hnever.
  { apply Never_bind.
    - apply add_record_form_changes_its_zone. apply list_elem_of_here.
    - intros _. apply delete_record_list_changes_its_zone. apply list_elem_of_here. }
  match goal with
  | |- context [run E ?p s0] =>
      assert (Never (changes_zone_outside [zid']) p) as Hnever' by exact Hnever;
      pose proof (Never_sound _ p Hnever' E s0) as Hrest; unfold trace_of in Hrest;
      destruct (run E p s0) as [[t r] s1]
  end.
  clear Hnever. cbn [fst snd] in *.
  intros H.
  assert (change_resource_record_sets zid chs ∈ calls t) as H'.
  { revert H. cbn. by destruct r. }
  clear H. apply called_is_event in H' as (en & Hen & Hev).
  rewrite Forall_forall in Hrest. specialize (Hrest en Hen).
  exists name. split.
  - revert Hget. generalize name. clear. intros name.
    induction my_zones as [|[k v] d IH]; cbn; [done|].
    case_bool_decide as Hk; [intros _; rewrite Hk; apply list_elem_of_here|].
    intros Hget. apply list_elem_of_further. by apply IH.
  - rewrite Hget. f_equal.
    destruct (decide (zid = zid')) as [->|Hne]; [done|].
    destruct Hrest. exists zid, chs. split; [done|].
    intros Hin. by apply list_elem_of_singleton in Hin.
Qed.

(** X21.  The zone loop of the page keeps one entry for each name: the
    names of [my_zones] are distinct, and the id held under a name is that
    of the last row of that name in the table.  The record buttons change
    the zone held under one of the names offered. *)
Theorem page_manages_the_last_zone_of_a_name (cfg : Config) (E : Env) :
  (forall zs s,
     exists t my_zones table s',
       run E (for_each zs (App.route53_zone cfg) ([], [])) s
       = (t, inr (my_zones, table), s')
       /\ NoDup (map fst my_zones)
       /\ (forall name, App.dict_get name my_zones = zone_under name table))
  /\ (forall my_zones s zid chs,
        change_resource_record_sets zid chs
          ∈ calls (trace_of E (App.manage_records my_zones) s) ->
        exists name, name ∈ map fst my_zones /\ App.dict_get name my_zones = Some zid).
Proof.
  split.
  - intros zs s.
    destruct (zone_loop_keys cfg E zs s ([], [])) as (t & [my_zones table] & s' & Hrun & Hres).
    + cbn. constructor.
    + intros name. reflexivity.
    + by exists t, my_zones, table, s'.
  - intros my_zones s zid chs. apply manage_records_changes_the_chosen_zone.
Qed.

(** *** What the page lists, against the provider *)

Lemma instance_data_exact (l : list WInstance) :
  App.instance_data (map (fun i => mkReservation [describe i]) l)
  = map instance_entry_of (List.filter alive l).
Proof.
  unfold App.instance_data. induction l as [|i l IH]; cbn -[describe]; [done|].
  rewrite IH. unfold App.instance_entry, alive.
  change (tags_dict (default [] (Tags (describe i)))) with (instance_tags (describe i)).
  rewrite instance_tags_describe.
  change (StateName (describe i)) with (wi_state i).
  destruct (bool_decide (wi_state i = "terminated")); cbn; [done|].
  reflexivity.
Qed.

(** One turn of the bucket loop of the page against the provider: whatever
    the failure of the fetch, the bucket is passed over. *)
Lemma run_page_bucket cfg O (w : World) (o : op_state O) (b : WBucket) acc :
  run (system O) (App.s3_bucket cfg (bucket_of b) acc) (w, o)
  = ([existT (Api (get_bucket_tagging (wb_name b)))
        (api w (get_bucket_tagging (wb_name b))).1],
     inr (if bucket_listed cfg w b then acc ++ [wb_name b] else acc), (w, o)).
Proof.
  unfold App.s3_bucket, bucket_listed. cbn.
  pose proof (api_read_only w (get_bucket_tagging (wb_name b)) eq_refl) as Hro.
  destruct (api w (get_bucket_tagging (wb_name b))) as [[e|tags] w']; cbn in *; subst w'.
  - reflexivity.
  - by destruct (isManaged cfg (tags_dict tags)).
Qed.

Lemma page_bucket_loop cfg O (w : World) (o : op_state O) (bs : list WBucket) :
  forall acc,
  exists t,
    run (system O) (for_each (map bucket_of bs) (App.s3_bucket cfg) acc) (w, o)
    = (t, inr (acc ++ map wb_name (List.filter (bucket_listed cfg w) bs)), (w, o))
    /\ widgets t = [] /\ displays t = [].
Proof.
  induction bs as [|b bs IH]; intros acc.
  - exists []. cbn. by rewrite app_nil_r.
  - cbn [map]. rewrite for_each_cons, run_bind, run_page_bucket.
    cbn [List.filter].
    destruct (IH (if bucket_listed cfg w b then acc ++ [wb_name b] else acc))
      as (t & -> & Hw & Hd).
    exists (existT (Api (get_bucket_tagging (wb_name b)))
              (api w (get_bucket_tagging (wb_name b))).1 :: t).
    split; [|split; cbn; [exact Hw|exact Hd]].
    destruct (bucket_listed cfg w b); cbn; [|done]. by rewrite <- app_assoc.
Qed.

(** One turn of the zone loop of the page against the provider. *)
Lemma run_page_zone cfg O (w : World) (o : op_state O) (z : WZone) acc :
  run (system O) (App.route53_zone cfg (zone_of z) acc) (w, o)
  = ([existT (Api (list_tags_for_resource "hostedzone" (zone_ref z)))
        (api w (list_tags_for_resource "hostedzone" (zone_ref z))).1],
     inr (if zone_listed cfg w z
          then (App.dict_set (wz_name z) (zone_ref z) acc.1, acc.2 ++ [zone_entry_of z])
          else acc), (w, o)).
Proof.
  unfold App.route53_zone, zone_listed, zone_entry_of.
  change (split_last "/" (ZoneId (zone_of z))) with (zone_ref z).
  change (ZoneName (zone_of z)) with (wz_name z).
  change (ResourceRecordSetCount (zone_of z)) with (length (wz_records z)).
  generalize (zone_ref z). intros ref. cbn.
  pose proof (api_read_only w (list_tags_for_resource "hostedzone" ref) eq_refl) as Hro.
  destruct (api w (list_tags_for_resource "hostedzone" ref)) as [[e|tags] w'];
    cbn in *; subst w'.
  - reflexivity.
  - by destruct (isManaged cfg (tags_dict tags)).
Qed.

Lemma page_zone_loop cfg O (w : World) (o : op_state O) (zs : list WZone) :
  forall acc,
  exists t my_zones,
    run (system O) (for_each (map zone_of zs) (App.route53_zone cfg) acc) (w, o)
    = (t, inr (my_zones, acc.2 ++ map zone_entry_of (List.filter (zone_listed cfg w) zs)),
       (w, o))
    /\ displays t = [].
Proof.
  induction zs as [|z zs IH]; intros acc.
  - exists [], acc.1. cbn. rewrite app_nil_r. by destruct acc.
  - cbn [map]. rewrite for_each_cons, run_bind, run_page_zone.
    cbn [List.filter].
    destruct (zone_listed cfg w z).
    + destruct (IH (App.dict_set (wz_name z) (zone_ref z) acc.1, acc.2 ++ [zone_entry_of z]))
        as (t & my & -> & Hd).
      exists (existT (Api (list_tags_for_resource "hostedzone" (zone_ref z)))
                (api w (list_tags_for_resource "hostedzone" (zone_ref z))).1 :: t), my.
      split; [|cbn; exact Hd]. cbn. by rewrite <- app_assoc.
    + destruct (IH acc) as (t & my & -> & Hd).
      exists (existT (Api (list_tags_for_resource "hostedzone" (zone_ref z)))
                (api w (list_tags_for_resource "hostedzone" (zone_ref z))).1 :: t), my.
      split; [|cbn; exact Hd]. reflexivity.
Qed.

Lemma displays_cons_call c a (t : Trace) : displays (existT (Api c) a :: t) = displays t.
Proof. reflexivity. Qed.

Lemma displays_cons_display d u (t : Trace) :
  displays (existT (Display d) u :: t) = d :: displays t.
Proof. reflexivity. Qed.

Lemma displays_cons_widget wd v (t : Trace) :
  displays (existT (Widget wd) v :: t) = displays t.
Proof. reflexivity. Qed.

Lemma widgets_cons_call c a (t : Trace) : widgets (existT (Api c) a :: t) = widgets t.
Proof. reflexivity. Qed.

Lemma widgets_cons_display d u (t : Trace) : widgets (existT (Display d) u :: t) = widgets t.
Proof. reflexivity. Qed.

Lemma widgets_cons_widget wd v (t : Trace) :
  widgets (existT (Widget wd) v :: t) = wd :: widgets t.
Proof. reflexivity. Qed.

(** Read the widgets and the output off a trace of the page that is
    written out up to the trace of a loop. *)
Ltac observe_page :=
  rewrite ?displays_cons_call, ?displays_cons_display, ?displays_cons_widget,
    ?widgets_cons_call, ?widgets_cons_display, ?widgets_cons_widget,
    ?displays_app, ?widgets_app.

(** The bucket part of the page against the provider: the listing call, the
    loop, and the choice of a bucket when there is one. *)
Lemma page_buckets_trace cfg O (w : World) (o : op_state O) :
  exists t rest,
    trace_of (system O) (App.s3_buckets cfg) (w, o)
    = existT (Api list_buckets) (inr (map bucket_of (buckets w))) :: t ++ rest
    /\ widgets t = [] /\ displays t = []
    /\ match List.filter (bucket_listed cfg w) (buckets w) with
       | [] => rest = [existT (Display (St.info "No buckets found.")) tt]
       | l => exists v, rest = [existT (Widget (St.selectbox "Select bucket to manage"
                                                  (map wb_name l))) v]
       end.
Proof.
  unfold trace_of, App.s3_buckets. rewrite run_try_except, run_bind.
  unfold call at 1. cbn -[for_each].
  unfold api at 1. cbn -[for_each].
  change (map (fun b => mkBucket (wb_name b) (wb_created b)) (buckets w))
    with (map bucket_of (buckets w)).
  rewrite run_bind.
  destruct (page_bucket_loop cfg O w o (buckets w) []) as (t & -> & Hw & Hd).
  cbn [app]. exists t.
  destruct (List.filter (bucket_listed cfg w) (buckets w)) as [|b l]; cbn.
  - by eexists.
  - unfold App.selectbox, widget. cbn.
    destruct (op_widget O o _) as [v o']. cbn.
    eexists. split; [reflexivity|]. split; [done|]. split; [done|]. by eexists.
Qed.

(** X22.  Against the provider, the page shows every managed resource.
    The instance table holds one row for every managed instance that is not
    terminated; the bucket choice offers every bucket whose tag fetch gives
    managed tags, whatever the failure of the other fetches; the zone table
    holds one row for every zone whose tag fetch gives managed tags.  Each
    gives way to the message that none was found when there is none. *)
Theorem page_lists_every_managed_resource (cfg : Config) (O : Operator) (w : World)
    (o : op_state O) :
  head (displays (trace_of (system O) (App.ec2_instances cfg) (w, o)))
  = Some (match List.filter (instance_listed cfg) (instances w) with
          | [] => St.info "No active instances found."
          | l => St.dataframe (map instance_entry_of l)
          end)
  /\ match List.filter (bucket_listed cfg w) (buckets w) with
     | [] => displays (trace_of (system O) (App.s3_buckets cfg) (w, o))
             = [St.info "No buckets found."]
             /\ widgets (trace_of (system O) (App.s3_buckets cfg) (w, o)) = []
     | l => widgets (trace_of (system O) (App.s3_buckets cfg) (w, o))
            = [St.selectbox "Select bucket to manage" (map wb_name l)]
     end
  /\ head (displays (trace_of (system O) (App.route53_zones cfg) (w, o)))
     = Some (match List.filter (zone_listed cfg w) (zones w) with
             | [] => St.info "No zones found (checked tags)."
             | l => St.table (map zone_entry_of l)
             end).
Proof.
  split; [|split].
  - unfold trace_of, App.ec2_instances, App.selectbox, App.rerun, call, display, widget.
    cbn. change (Ec2.list_filters cfg) with (Ec2.list_filters cfg).
    pose proof (api_list_query cfg w) as Hq. unfold Ec2.list_filters in Hq.
    rewrite Hq. cbn -[App.instance_data]. rewrite instance_data_exact, filter_filter_and.
    change (fun x : WInstance => isManaged cfg (wi_tags x) && alive x)
      with (instance_listed cfg).
    destruct (List.filter (instance_listed cfg) (instances w)) as [|i l]; cbn; [done|].
    repeat match goal with
           | |- context [op_widget O ?o' ?wd] =>
               destruct (op_widget O o' wd) as [[] ?]; cbn
           | |- context [op_widget O ?o' ?wd] => destruct (op_widget O o' wd) as [? ?]; cbn
           | |- context [api ?w' ?c] => destruct (api w' c) as [[?|?] ?]; cbn
           end.
    all: reflexivity.
  - destruct (page_buckets_trace cfg O w o) as (t & rest & -> & Hw & Hd & Hrest).
    observe_page. rewrite Hw, Hd.
    destruct (List.filter (bucket_listed cfg w) (buckets w)) as [|b l].
    + by rewrite Hrest.
    + destruct Hrest as [v ->]. reflexivity.
  - unfold trace_of, App.route53_zones. rewrite run_try_except, run_bind.
    unfold call at 1. cbn -[for_each displays widgets].
    unfold api at 1. cbn -[for_each displays widgets].
    change (map (fun z => mkHostedZone ("/hostedzone/" ++ wz_id z) (wz_name z)
                            (length (wz_records z))) (zones w))
      with (map zone_of (zones w)).
    rewrite run_bind.
    destruct (page_zone_loop cfg O w o (zones w) ([], [])) as (t & my & -> & Hd).
    cbn [fst snd app].
    destruct (List.filter (zone_listed cfg w) (zones w)) as [|z l]; cbn -[displays widgets].
    + observe_page. rewrite Hd. reflexivity.
    + destruct (run (system O) (App.manage_records my) (w, o)) as [[t2 r2] s2].
      cbn -[displays widgets].
      destruct r2 as [[e|]|[]]; cbn -[displays widgets].
      all: observe_page; rewrite Hd; reflexivity.
Qed.

(** ** Properties of the commands and forms that reach further *)

Import Rest.
Local Arguments serve : simpl never.

Lemma perform_bind {A B} (G : Setting) (p : Script A) (f : A -> Script B)
    (s : setting_state G) :
  perform G (p ≫= f) s =
  match perform G p s with
  | (t, inl r, s1) => (t, inl r, s1)
  | (t, inr a, s1) => let '(t2, r2, s2) := perform G (f a) s1 in (t ++ t2, r2, s2)
  end.
Proof.
  revert s. induction p as [a|r|ef k IH]; intros s; cbn.
  - destruct (perform G (f a) s) as [[t2 r2] s2]. reflexivity.
  - reflexivity.
  - destruct (setting_step G s ef) as [a s1].
    change (perform G (and_then (k a) f) s1) with (perform G (k a ≫= f) s1).
    rewrite IH. destruct (perform G (k a) s1) as [[t [r|a']] s2]; cbn; [reflexivity|].
    destruct (perform G (f a') s2) as [[t2 r2] s3]. reflexivity.
Qed.

Lemma perform_attempt {A} (G : Setting) (p : Script A) clause (s : setting_state G) :
  perform G (attempt p clause) s =
  match perform G p s with
  | (t, inr a, s1) => (t, inr a, s1)
  | (t, inl r, s1) =>
      match clause r with
      | Some handler => let '(t2, r2, s2) := perform G handler s1 in (t ++ t2, r2, s2)
      | None => (t, inl r, s1)
      end
  end.
Proof.
  revert s. induction p as [a|r|ef k IH]; intros s; cbn.
  - reflexivity.
  - destruct (clause r) as [h|]; [|reflexivity].
    destruct (perform G h s) as [[t2 r2] s2]. reflexivity.
  - destruct (setting_step G s ef) as [a s1]. rewrite IH.
    destruct (perform G (k a) s1) as [[t [r|a']] s2]; cbn; [|reflexivity].
    destruct (clause r) as [h|]; [|reflexivity].
    destruct (perform G h s2) as [[t2 r2] s3]. reflexivity.
Qed.

(** A lifted command does in a setting what it does in the environment the
    setting gives. *)
Lemma perform_lift {A} (G : Setting) (p : Prog A) (s : setting_state G) :
  perform G (lift p) s
  = let '(t, r, s') := run (env_of G) p s in (map known_item t, r, s').
Proof.
  revert s. induction p as [a|r|ev k IH]; intros s; cbn; try reflexivity.
  destruct (setting_step G s (Known ev)) as [a s1]. rewrite IH.
  destruct (run (env_of G) (k a) s1) as [[t r] s2]. reflexivity.
Qed.

Lemma known_items (t : Trace) : known (map known_item t) = t.
Proof. induction t as [|[ev a] t IH]; [done|]. cbn. f_equal. exact IH. Qed.

Lemma asks_items (t : Trace) : asks (map known_item t) = [].
Proof. induction t as [|[ev a] t IH]; cbn; [done|]. exact IH. Qed.

Lemma says_items (t : Trace) : says (map known_item t) = [].
Proof. induction t as [|[ev a] t IH]; cbn; [done|]. exact IH. Qed.

Lemma asks_app (t1 t2 : Log) : asks (t1 ++ t2) = asks t1 ++ asks t2.
Proof. apply omap_app. Qed.

Lemma says_app (t1 t2 : Log) : says (t1 ++ t2) = says t1 ++ says t2.
Proof. apply omap_app. Qed.

Lemma known_app (t1 t2 : Log) : known (t1 ++ t2) = known t1 ++ known t2.
Proof. apply omap_app. Qed.

(** Against the provider, a lifted command leaves what stands outside as it
    was. *)
Lemma run_in_whole {A} (O : Operator) (p : Prog A) : forall w o x,
  run (env_of (whole O)) p (w, o, x)
  = let '(t, r, (w', o')) := run (system O) p (w, o) in (t, r, (w', o', x)).
Proof.
  induction p as [a|r|ev k IH]; intros w o x; try reflexivity.
  change (run (env_of (whole O)) (Vis ev k) (w, o, x))
    with (let '(a, s1) := whole_step O (w, o, x) (Known ev) in
          let '(t, r, s2) := run (env_of (whole O)) (k a) s1 in
          (existT ev a :: t, r, s2)).
  change (run (system O) (Vis ev k) (w, o))
    with (let '(a, s1) := system_step O (w, o) ev in
          let '(t, r, s2) := run (system O) (k a) s1 in
          (existT ev a :: t, r, s2)).
  unfold whole_step.
  destruct (system_step O (w, o) ev) as [a [w1 o1]].
  rewrite IH. destruct (run (system O) (k a) (w1, o1)) as [[t r] [w2 o2]]. reflexivity.
Qed.

(** A command line: the client, then the command. *)
Lemma perform_with_client {A} (G : Setting) service (body : Prog A) (s : setting_state G) :
  perform G (with_client service body) s
  = let '(a, s1) := setting_step G s (MakeClient service) in
    match a with
    | inl e => ([existT (MakeClient service) (inl e)], inl (Exception e), s1)
    | inr u =>
        let '(t, r, s2) := perform G (lift body) s1 in
        (existT (MakeClient service) (inr u) :: t, r, s2)
    end.
Proof.
  cbn. destruct (setting_step G s (MakeClient service)) as [[e|u] s1]; [reflexivity|].
  by destruct (perform G (lift body) s1) as [[t r] s2].
Qed.

Lemma perform_with_client_whole {A} (O : Operator) service (body : Prog A) w o x :
  perform (whole O) (with_client service body) (w, o, x)
  = let '(t, r, s2) := perform (whole O) (lift body) (w, o, x) in
    (existT (MakeClient service) (inr tt) :: t, r, s2).
Proof. by rewrite perform_with_client. Qed.

(** Answer the next effect of the script in the goal in every possible
    way. *)
Ltac outcome_cases :=
  match goal with
  | |- context [setting_step ?G ?s ?ef] =>
      let a := fresh "a" in
      let s' := fresh "s" in
      destruct (setting_step G s ef) as [a s'] eqn:?; cbn in a;
      lazymatch type of a with
      | bool => destruct a
      | unit => destruct a
      | sum _ _ => destruct a as [?e|?r]
      | _ => idtac
      end; cbn
  end.

Ltac act := repeat outcome_cases.

(** *** Base names *)

Lemma has_slash_app (a b : string) : has_slash (a ++ b) = has_slash a || has_slash b.
Proof.
  unfold has_slash. induction a as [|c a IH]; [done|].
  change (String c a ++ b)%string with (String c (a ++ b)).
  cbn. by rewrite IH, orb_assoc.
Qed.

Lemma split_last_from_no_slash (s : string) : forall seg,
  has_slash seg = false -> has_slash (split_last_from "/" s seg) = false.
Proof.
  induction s as [|c s IH]; intros seg Hseg; cbn; [done|].
  case_bool_decide as Hc.
  - apply IH. reflexivity.
  - apply IH. rewrite has_slash_app, Hseg. unfold has_slash. cbn.
    by rewrite bool_decide_false.
Qed.

Lemma string_app_nil_r (s : string) : (s ++ "")%string = s.
Proof.
  induction s as [|c s IH]; [done|].
  change (String c s ++ "")%string with (String c (s ++ "")). by rewrite IH.
Qed.

Lemma string_app_snoc (a : string) (c : ascii) (b : string) :
  ((a ++ String c "") ++ b)%string = (a ++ String c b)%string.
Proof.
  induction a as [|c' a IH]; [done|].
  change ((String c' a ++ String c "") ++ b)%string
    with (String c' ((a ++ String c "") ++ b)).
  change (String c' a ++ String c b)%string with (String c' (a ++ String c b)).
  by rewrite IH.
Qed.

Lemma split_last_from_whole (s : string) : forall seg,
  has_slash s = false -> split_last_from "/" s seg = (seg ++ s)%string.
Proof.
  induction s as [|c s IH]; intros seg Hs; cbn.
  - symmetry. apply string_app_nil_r.
  - unfold has_slash in Hs. cbn in Hs. apply orb_false_elim in Hs as [Hc Hs].
    rewrite Hc. rewrite IH by exact Hs. apply string_app_snoc.
Qed.

(** *** s3.py, upload *)

(** X23.  [upload] never checks who created the bucket: it fetches no tags
    and makes no call of the guarded commands.  When the client cannot be
    built, the exception leaves the command and nothing was printed or sent.
    Once it is built the command ends normally: when the path does not exist
    it sends nothing and prints the not-found line on the error stream;
    otherwise its one request uploads the file under its base name, which
    holds no slash, and a failure of the request is printed as an AWS
    error. *)
Theorem upload_sends_the_file_unguarded (G : Setting) (s : setting_state G)
    (bucket_name file_path : string) :
  let built := setting_step G s (MakeClient "s3") in
  let '(t, r, _) := perform G (upload bucket_name file_path) s in
  calls (known t) = []
  /\ has_slash (basename file_path) = false
  /\ match built.1 with
     | inl e =>
         r = inl (Exception e) /\ asks t = [] /\ says t = [] /\ echoes (known t) = []
     | inr _ =>
         r = inr tt
         /\ if (setting_step G built.2 (PathExists file_path)).1
            then asks t = [upload_file file_path bucket_name (basename file_path)]
                 /\ ((says t = [(false, Uploading (basename file_path));
                                (false, FileUploaded)]
                      /\ echoes (known t) = [])
                     \/ exists e, says t = [(false, Uploading (basename file_path))]
                                  /\ echoes (known t) = [(true, AwsError e)])
            else asks t = [] /\ says t = [(true, FileNotFound file_path)]
                 /\ echoes (known t) = []
     end.
Proof.
  assert (has_slash (basename file_path) = false) as Hb
    by (apply split_last_from_no_slash; reflexivity).
  unfold upload. cbn. outcome_cases; [done|]. outcome_cases.
  - act; repeat split; try done; [right; by eexists|by left].
  - act. repeat split; done.
Qed.

(** *** route53.py, create_zone *)

(** X24.  [create_zone]: when the client cannot be built, the exception
    leaves the command and nothing was printed or sent.  Once it is built
    the command ends normally.  It asks for a zone of the name given, with
    the reference [name-time] and the comment of the tool, and then tags the
    zone it was given: the tagging request is for what follows the last
    slash of the returned id and carries the two ownership tags.  There is
    no tagging without a created zone and no request after a failure: when
    the tagging fails the failure is printed as an AWS error and the zone
    stays as created.  The command fetches no tags. *)
Theorem create_zone_tags_the_zone_it_created (cfg : Config) (G : Setting)
    (s : setting_state G) (domain_name : string) :
  let built := setting_step G s (MakeClient "route53") in
  let now := (setting_step G built.2 Clock).1 in
  let creation := create_hosted_zone domain_name (domain_name ++ "-" ++ pretty now)
                    (Some ("Managed by platform-cli", false)) in
  let '(t, r, _) := perform G (create_zone cfg domain_name) s in
  calls (known t) = []
  /\ match built.1 with
     | inl e =>
         r = inl (Exception e) /\ asks t = [] /\ says t = [] /\ echoes (known t) = []
     | inr _ =>
         r = inr tt
         /\ ((exists e,
                asks t = [creation]
                /\ says t = [(false, CreatingZone domain_name)]
                /\ echoes (known t) = [(true, AwsError e)])
             \/ exists zone_id,
                  (existT (Ask creation) (inr zone_id) : Item) ∈ t
                  /\ asks t = [creation;
                               change_tags_for_resource "hostedzone"
                                 (split_last "/" zone_id) (ownership_tags cfg)]
                  /\ ((says t = [(false, CreatingZone domain_name);
                                 (false, ZoneCreated (split_last "/" zone_id));
                                 (false, TagsAdded)]
                       /\ echoes (known t) = [])
                      \/ exists e,
                           says t = [(false, CreatingZone domain_name);
                                     (false, ZoneCreated (split_last "/" zone_id))]
                           /\ echoes (known t) = [(true, AwsError e)]))
     end.
Proof.
  unfold create_zone. cbn. outcome_cases; [done|]. outcome_cases. act.
  - repeat split; try done. left. by eexists.
  - repeat split; try done. right. eexists. split; [in_list|]. split; [done|].
    right. by eexists.
  - repeat split; try done. right. eexists. split; [in_list|]. split; [done|].
    by left.
Qed.

(** *** main.py, info *)


(** *** app.py, the zone creation form *)

(** X26.  The zone form of the page sends nothing until [Create Zone] is
    clicked.  A click asks for a zone of the name typed, whatever it is
    (the empty name too), with the reference [name-time] and no comment.
    When what follows the last slash of the returned id is empty the page
    shows that no id was returned and sends no tags; otherwise it tags that
    id with the two ownership tags, shows the success line and restarts the
    script.  A failure of either request is shown as [Error: ...] and
    nothing is sent after it. *)
Theorem zone_form_creates_after_a_click (cfg : Config) (G : Setting)
    (s : setting_state G) :
  let '(t, r, _) := perform G (create_zone_form cfg) s in
  widgets (known t)
  = [St.text_input "Domain (e.g., project.com)" ""; St.button "Create Zone" None]
  /\ calls (known t) = []
  /\ ((asks t = [] /\ r = inr tt /\ displays (known t) = []
       /\ (existT (Known (Widget (St.button "Create Zone" None))) false : Item) ∈ t)
      \/ exists (domain : string) (now : Z),
           (existT (Known (Widget (St.button "Create Zone" None))) true : Item) ∈ t
           /\ (existT (Known (Widget (St.text_input "Domain (e.g., project.com)" "")))
                 domain : Item) ∈ t
           /\ (existT Clock now : Item) ∈ t
           /\ let creation :=
                create_hosted_zone domain (domain ++ "-" ++ pretty now) None in
              (exists e,
                 (existT (Ask creation) (inl e) : Item) ∈ t
                 /\ asks t = [creation] /\ r = inr tt
                 /\ displays (known t) = [St.error ("Error: " ++ exn_str e)])
              \/ exists res,
                   (existT (Ask creation) (inr res) : Item) ∈ t
                   /\ if bool_decide (split_last "/" res = "")
                      then asks t = [creation] /\ r = inr tt
                           /\ displays (known t)
                              = [St.error "Zone created but no ID returned."]
                      else asks t = [creation;
                                     change_tags_for_resource "hostedzone"
                                       (split_last "/" res) (ownership_tags cfg)]
                           /\ ((r = inl RerunException
                                /\ displays (known t)
                                   = [St.success ("Zone " ++ domain ++ " created!")])
                               \/ exists e,
                                    r = inr tt
                                    /\ displays (known t)
                                       = [St.error ("Error: " ++ exn_str e)])).
Proof.
  unfold create_zone_form. cbn.
  repeat first [outcome_cases | case_bool_decide; cbn].
  all: split; [done|]; split; [done|].
  5: { left. repeat split; try done. in_list. }
  all: right; eexists _, _.
  all: split; [in_list|]; split; [in_list|]; split; [in_list|].
  1: { left. eexists. split; [in_list|]. done. }
  all: right; eexists; split; [in_list|].
  3: { rewrite bool_decide_true; [done|]. first [assumption | apply dec_stable; assumption]. }
  all: rewrite bool_decide_false by done; split; [done|].
  - right. by eexists.
  - by left.
Qed.

(** *** app.py, the file upload *)

Lemma perform_lift_call (G : Setting) (c : ApiCall) (s : setting_state G) :
  perform G (lift (call c)) s
  = let '(a, s1) := setting_step G s (Known (Api c)) in
    ([existT (Known (Api c)) a],
     match a with inl e => inl (Exception e) | inr r => inr r end, s1).
Proof. cbn. destruct (setting_step G s (Known (Api c))) as [[e|r] s1]; reflexivity. Qed.

(** The upload of the page: a request needs a chosen file and a click, and
    is for the bucket selected, under the name of the file. *)
Lemma upload_form_sends (G : Setting) (s : setting_state G) (selected_bucket : string) :
  let '(t, r, _) := perform G (upload_form selected_bucket) s in
  calls (known t) = []
  /\ match r with
     | inr _ => True
     | inl r' => asks t <> [] /\ displays (known t) = [] /\ exists e, r' = Exception e
                 /\ exists c, (existT (Ask c) (inl e) : Item) ∈ t
     end
  /\ (asks t = []
      \/ exists f,
           asks t = [upload_fileobj f selected_bucket (file_name f)]
           /\ (existT (FileUploader "Upload file") (Some f) : Item) ∈ t
           /\ (existT (Known (Widget (St.button "Upload" None))) true : Item) ∈ t).
Proof.
  unfold upload_form. cbn. outcome_cases. destruct a as [f|]; cbn.
  - act.
    + split; [done|]. split.
      * split; [done|]. split; [done|]. eexists. split; [done|].
        exists (upload_fileobj f selected_bucket (file_name f)). in_list.
      * right. exists f. split; [done|]. split; in_list.
    + split; [done|]. split; [done|]. right. exists f. split; [done|]. split; in_list.
    + split; [done|]. split; [done|]. by left.
  - split; [done|]. split; [done|]. by left.
Qed.

Lemma elem_of_known (t : Log) (en : Entry) : en ∈ known t <-> known_item en ∈ t.
Proof.
  destruct en as [ev a]. unfold known. rewrite list_elem_of_omap. split.
  - intros ([ef b] & Hin & Heq). cbn in Heq. destruct ef; try discriminate Heq.
    pose proof (f_equal (default (existT ev a)) Heq) as Hev. cbn in Hev.
    clear Heq. destruct (eq_sigT_fst Hev).
    apply Eqdep_dec.inj_pair2_eq_dec in Hev; [|intros ? ?; apply (decide (_ = _))].
    by subst.
  - intros Hin. exists (existT (Known ev) a). by split.
Qed.

Lemma no_widget_no_click (t : Trace) : widgets t = [] -> no_click t.
Proof.
  intros Hw label key Hin.
  assert (St.button label key ∈ widgets t) as Hb.
  { unfold widgets. apply list_elem_of_omap.
    exists (existT (Widget (St.button label key)) true). by split. }
  rewrite Hw in Hb. by apply elem_of_nil in Hb.
Qed.

Lemma bucket_loop_is_idle cfg (bs : list Bucket) acc :
  Idle (for_each bs (App.s3_bucket cfg) acc).
Proof.
  apply Idle_for_each. intros b l. unfold App.s3_bucket, call. cbn. repeat idle_step.
Qed.

Lemma calls_items (t : Trace) : calls (known (map known_item t)) = calls t.
Proof. by rewrite known_items. Qed.

Lemma run_selectbox (E : Env) label options (s : env_state E) :
  run E (App.selectbox label options) s
  = let '(i, s1) := env_step E s (Widget (St.selectbox label options)) in
    ([existT (Widget (St.selectbox label options)) i],
     inr (default (default "" (head options)) (options !! i)), s1).
Proof.
  unfold App.selectbox. cbn.
  destruct (env_step E s (Widget (St.selectbox label options))) as [i s1]. reflexivity.
Qed.

Lemma perform_lift_display (G : Setting) (d : St.Display) (s : setting_state G) :
  perform G (lift (display d)) s
  = ([existT (Known (Display d)) tt], inr tt, (setting_step G s (Known (Display d))).2).
Proof. cbn. by destruct (setting_step G s (Known (Display d))) as [[] s1]. Qed.

(** X27.  The bucket list of the page with its file upload: the one request
    it can send is the upload of the chosen file, under the name of that
    file, and only with a file chosen and [Upload] clicked.  The bucket it
    goes to was selected among those whose tag fetch in the same run
    returned managed tags.  The list makes no mutating provider call of its
    own and ends normally, a failed upload included. *)
Theorem page_uploads_into_a_listed_bucket (cfg : Config) (G : Setting)
    (s : setting_state G) :
  let '(t, r, _) := perform G (s3_buckets cfg) s in
  r = inr tt
  /\ Forall (fun c => is_mutating c = false) (calls (known t))
  /\ (asks t = []
      \/ exists f b tags,
           asks t = [upload_fileobj f b (file_name f)]
           /\ (existT (FileUploader "Upload file") (Some f) : Item) ∈ t
           /\ (existT (Known (Widget (St.button "Upload" None))) true : Item) ∈ t
           /\ existT (Api (get_bucket_tagging b)) (inr tags) ∈ known t
           /\ isManaged cfg (tags_dict tags) = true).
Proof.
  unfold s3_buckets. rewrite perform_attempt, perform_bind.
  match goal with
  | |- context [@perform ?A G (lift (call list_buckets)) s] =>
      change (@perform A G (lift (call list_buckets)) s)
        with (@perform (Response list_buckets) G (lift (call list_buckets)) s)
  end.
  rewrite perform_lift_call.
  destruct (setting_step G s (Known (Api list_buckets))) as [[e|resp] s1].
  { cbn. act. split; [done|]. split; [by repeat constructor|]. by left. }
  cbv beta iota zeta.
  rewrite perform_bind, perform_lift.
  destruct (ui_bucket_loop cfg (env_of G) resp s1 []) as (tl & res & s2 & Hrun & Hw & Hres).
  rewrite Hrun. cbv beta iota zeta.
  assert (Forall (fun c => is_mutating c = false) (calls tl)) as Hro.
  { pose proof (Idle_sound _ (bucket_loop_is_idle cfg resp []) (env_of G) s1) as Hi.
    unfold trace_of in Hi. rewrite Hrun in Hi. apply Hi. by apply no_widget_no_click. }
  case_bool_decide as Hne.
  - rewrite perform_bind, perform_lift, run_selectbox.
    destruct (env_step (env_of G) s2 _) as [i s3].
    pose proof (selectbox_choice res i Hne) as Hsel.
    match goal with
    | |- context [perform G (upload_form ?x) s3] =>
        assert (x ∈ res) as Hb by exact Hsel; clear Hsel; revert Hb; generalize x
    end.
    intros b Hb. cbv beta iota zeta.
    pose proof (upload_form_sends G s3 b) as Hup.
    destruct (perform G (upload_form b) s3) as [[tu ru] su].
    destruct Hup as (Hcu & Hru & Hau).
    assert (forall t', calls (known (([existT (Known (Api list_buckets)) (inr resp)]
              ++ map known_item tl
              ++ map known_item [existT (Widget (St.selectbox "Select bucket to manage" res)) i]
              ++ tu) ++ t')) = list_buckets :: calls tl ++ calls (known t')) as Hcalls.
    { intros t'. rewrite !known_app, !calls_app, !known_items, Hcu. cbn.
      by rewrite app_nil_r. }
    destruct (Hres b Hb) as [Hnil|(tags & Hin & Hm)]; [by apply elem_of_nil in Hnil|].
    assert (forall t', asks (([existT (Known (Api list_buckets)) (inr resp)]
              ++ map known_item tl
              ++ map known_item [existT (Widget (St.selectbox "Select bucket to manage" res)) i]
              ++ tu) ++ t') = asks tu ++ asks t') as Hasks.
    { intros t'. rewrite !asks_app, !asks_items. reflexivity. }
    assert (forall t', asks t' = [] ->
              asks tu ++ asks t' = []
              \/ exists f b tags,
                   asks tu ++ asks t' = [upload_fileobj f b (file_name f)]
                   /\ (existT (FileUploader "Upload file") (Some f) : Item)
                        ∈ ([existT (Known (Api list_buckets)) (inr resp)]
              ++ map known_item tl
              ++ map known_item [existT (Widget (St.selectbox "Select bucket to manage" res)) i]
              ++ tu) ++ t'
                   /\ (existT (Known (Widget (St.button "Upload" None))) true : Item)
                        ∈ ([existT (Known (Api list_buckets)) (inr resp)]
              ++ map known_item tl
              ++ map known_item [existT (Widget (St.selectbox "Select bucket to manage" res)) i]
              ++ tu) ++ t'
                   /\ existT (Api (get_bucket_tagging b)) (inr tags)
                        ∈ known (([existT (Known (Api list_buckets)) (inr resp)]
              ++ map known_item tl
              ++ map known_item [existT (Widget (St.selectbox "Select bucket to manage" res)) i]
              ++ tu) ++ t')
                   /\ isManaged cfg (tags_dict tags) = true) as Hfin.
    { intros t' Ht'. rewrite Ht', app_nil_r.
      destruct Hau as [Hau|(f & Hau & Hf & Hbt)]; [by left|].
      right. exists f, b, tags. split; [exact Hau|].
      split; [set_solver|]. split; [set_solver|]. split; [|exact Hm].
      rewrite !known_app, known_items. set_solver. }
    destruct ru as [[e|]|[]]; cbn [on_Exception].
    + rewrite perform_lift_display. cbv beta iota zeta.
      rewrite Hcalls, Hasks. split; [done|]. split.
      { constructor; [done|]. cbn. by rewrite app_nil_r. }
      by apply Hfin.
    + destruct Hru as (_ & _ & e & He & _). discriminate He.
    + rewrite <- (app_nil_r (_ ++ _ ++ _ ++ tu)). rewrite Hcalls, Hasks.
      split; [done|]. split.
      { constructor; [done|]. cbn. by rewrite app_nil_r. }
      by apply Hfin.
  - cbn. act. rewrite known_app, asks_app, calls_app, known_items, asks_items. cbn.
    split; [done|]. split; [|by left]. rewrite app_nil_r. by constructor.
Qed.

(** *** app.py, the script in full *)

Lemma Quiet_sound {A} (p : Script A) :
  Quiet p -> forall G s, no_click (known (log_of G p s)) ->
  asks (log_of G p s) = []
  /\ Forall (fun c => is_mutating c = false) (calls (known (log_of G p s))).
Proof.
  unfold log_of, no_click.
  induction 1 as [a|r|label key k Hk IH|ef k Hef Hk IH]; intros G s; cbn.
  1,2: intros _; split; [done|constructor].
  - destruct (setting_step G s _) as [b s1]. cbn in b. specialize (IH G s1).
    destruct b.
    + destruct (perform G (k true) s1) as [[t r] s2]. cbn.
      intros Hno. destruct (Hno label key). apply list_elem_of_here.
    + destruct (perform G (k false) s1) as [[t r] s2]. cbn in *.
      intros Hno. apply IH. intros l' k' Hin. apply (Hno l' k').
      by apply list_elem_of_further.
  - destruct (setting_step G s ef) as [a s1]. specialize (IH a G s1).
    destruct (perform G (k a) s1) as [[t r] s2]. cbn in *.
    intros Hno. destruct ef as [ev|service|c|err m|path| |label]; cbn in *.
    3: by destruct Hef.
    2-6: apply IH; exact Hno.
    assert (forall l' k', existT (Widget (St.button l' k')) true ∉ known t) as Hno'.
    { intros l' k' Hin. apply (Hno l' k'). by apply list_elem_of_further. }
    destruct (IH Hno') as [Ha Hc]. split; [exact Ha|].
    destruct ev as [c|err m|prompt|wd|d]; cbn; try exact Hc.
    constructor; [|exact Hc].
    destruct (is_mutating c) eqn:Hm; [|done]. destruct Hef. by exists c.
Qed.

Lemma Quiet_lift {A} (p : Prog A) : Idle p -> Quiet (lift p).
Proof.
  induction 1 as [a|r|label key k Hk IH|ev k Hev Hk IH]; cbn.
  - constructor.
  - constructor.
  - by apply Quiet_button.
  - by apply Quiet_Do.
Qed.

Lemma Quiet_bind {A B} (p : Script A) (f : A -> Script B) :
  Quiet p -> (forall a, Quiet (f a)) -> Quiet (p ≫= f).
Proof.
  intros Hp Hf. induction Hp as [a|r|label key k Hk IH|ef k Hef Hk IH]; cbn.
  - apply Hf.
  - constructor.
  - apply Quiet_button. exact IH.
  - apply Quiet_Do; [done|]. intros a. apply IH.
Qed.

Lemma Quiet_attempt {A} (p : Script A) clause :
  Quiet p -> (forall r q, clause r = Some q -> Quiet q) -> Quiet (attempt p clause).
Proof.
  intros Hp Hc. induction Hp as [a|r|label key k Hk IH|ef k Hef Hk IH]; cbn.
  - constructor.
  - destruct (clause r) as [q|] eqn:Hq; [by apply (Hc r)|constructor].
  - apply Quiet_button. exact IH.
  - apply Quiet_Do; [done|]. intros a. apply IH.
Qed.

Lemma Quiet_on_Exception {A} (h : Exn -> Script A) :
  (forall e, Quiet (h e)) -> forall r q, on_Exception h r = Some q -> Quiet q.
Proof. intros Hh [e|] q; cbn; [intros [= <-]; apply Hh|discriminate]. Qed.

Lemma s3_create_form_is_idle cfg : Idle (App.s3_create_form cfg).
Proof.
  unfold App.s3_create_form, App.rerun, widget, display, call.
  cbn. repeat idle_step.
Qed.

Lemma selectbox_is_idle label options : Idle (App.selectbox label options).
Proof. unfold App.selectbox, widget. cbn. repeat idle_step. Qed.

Lemma display_is_idle d : Idle (display d).
Proof. unfold display. repeat idle_step. Qed.

Lemma upload_form_is_quiet selected_bucket : Quiet (upload_form selected_bucket).
Proof.
  unfold upload_form, file_uploader. cbn. apply Quiet_Do; [by intros []|].
  intros [f|]; cbn; [|constructor].
  apply Quiet_button. constructor.
Qed.

Lemma s3_buckets_is_quiet cfg : Quiet (s3_buckets cfg).
Proof.
  unfold s3_buckets. apply Quiet_attempt.
  - apply Quiet_bind.
    + apply Quiet_lift. unfold call. repeat idle_step.
    + intros resp. apply Quiet_bind; [apply Quiet_lift, bucket_loop_is_idle|].
      intros my_buckets. destruct (bool_decide (my_buckets ≠ [])).
      * apply Quiet_bind; [apply Quiet_lift, selectbox_is_idle|].
        intros b. apply upload_form_is_quiet.
      * apply Quiet_lift, display_is_idle.
  - apply Quiet_on_Exception. intros e. apply Quiet_lift, display_is_idle.
Qed.

Lemma create_zone_form_is_quiet cfg : Quiet (create_zone_form cfg).
Proof.
  unfold create_zone_form, widget. cbn. apply Quiet_Do.
  { intros (c & Hev & _). discriminate Hev. }
  intros domain. apply Quiet_button. constructor.
Qed.

Lemma make_client_is_quiet service : Quiet (make_client service).
Proof. apply Quiet_Do; [by intros []|]. intros [e|[]]; constructor. Qed.

Lemma page_is_quiet cfg : Quiet (page cfg).
Proof.
  unfold page. apply Quiet_bind; [apply Quiet_lift, selectbox_is_idle|].
  intros menu.
  destruct (bool_decide (menu = "EC2 (Servers)")).
  { apply Quiet_bind; [apply make_client_is_quiet|].
    intros _. apply Quiet_lift, ec2_section_is_idle. }
  destruct (bool_decide (menu = "S3 (Storage)")).
  { apply Quiet_bind; [apply make_client_is_quiet|]. intros _.
    apply Quiet_bind; [apply Quiet_lift, s3_create_form_is_idle|].
    intros _. apply s3_buckets_is_quiet. }
  destruct (bool_decide (menu = "Route53 (DNS)")).
  { apply Quiet_bind; [apply make_client_is_quiet|]. intros _.
    apply Quiet_bind; [apply create_zone_form_is_quiet|].
    intros _. apply Quiet_lift, route53_section_is_idle. }
  constructor.
Qed.

(** Without a request and without a mutating call, the provider and what
    stands beside it are as they were. *)
Lemma whole_kept_without_sending {A} (O : Operator) (p : Script A) :
  forall w o x,
    asks (log_of (whole O) p (w, o, x)) = [] ->
    Forall (fun c => is_mutating c = false) (calls (known (log_of (whole O) p (w, o, x)))) ->
    let s' := (perform (whole O) p (w, o, x)).2 in
    s'.1.1 = w /\ s'.2 = x.
Proof.
  unfold log_of.
  induction p as [a|r|ef k IH]; intros w o x; cbn; [done..|].
  destruct ef as [ev|service|c|err m|path| |label]; cbn.
  2: { specialize (IH (inr tt) w o x).
       destruct (perform (whole O) (k (inr tt)) (w, o, x)) as [[t r] s2]. cbn in *.
       exact IH. }
  - destruct ev as [c|err m|prompt|wd|d]; cbn.
    + pose proof (api_read_only w c) as Hro.
      destruct (api w c) as [a w1]. cbn in *. specialize (IH a w1 o x).
      destruct (perform (whole O) (k a) (w1, o, x)) as [[t r] s2]. cbn in *.
      intros Ha Hc. apply Forall_cons in Hc as [Hm Hc]. rewrite <- (Hro Hm).
      by apply IH.
    + specialize (IH tt w o x).
      destruct (perform (whole O) (k tt) (w, o, x)) as [[t r] s2]. cbn in *. exact IH.
    + destruct (op_confirm O o prompt) as [b o1]. specialize (IH b w o1 x).
      destruct (perform (whole O) (k b) (w, o1, x)) as [[t r] s2]. cbn in *. exact IH.
    + destruct (op_widget O o wd) as [v o1]. specialize (IH v w o1 x).
      destruct (perform (whole O) (k v) (w, o1, x)) as [[t r] s2]. cbn in *. exact IH.
    + specialize (IH tt w o x).
      destruct (perform (whole O) (k tt) (w, o, x)) as [[t r] s2]. cbn in *. exact IH.
  - destruct (serve (w, x) c) as [a [w1 x1]].
    destruct (perform (whole O) (k a) (w1, o, x1)) as [[t r] s2]. cbn. discriminate.
  - specialize (IH tt w o x).
    destruct (perform (whole O) (k tt) (w, o, x)) as [[t r] s2]. cbn in *. exact IH.
  - specialize (IH (bool_decide (path ∈ files x)) w o x).
    destruct (perform (whole O) (k _) (w, o, x)) as [[t r] s2]. cbn in *. exact IH.
  - specialize (IH (clock x) w o x).
    destruct (perform (whole O) (k _) (w, o, x)) as [[t r] s2]. cbn in *. exact IH.
  - specialize (IH (chosen_file x) w o x).
    destruct (perform (whole O) (k _) (w, o, x)) as [[t r] s2]. cbn in *. exact IH.
Qed.

(** X28.  The page in full, with the zone form and the file upload: in a
    run in which no button is clicked it sends no request and makes no
    mutating provider call, whatever the setting, also when a domain is
    typed or a file is chosen.  Against the provider, the state of the
    provider and the objects stored are then as they were. *)
Theorem whole_page_waits_for_a_click (cfg : Config) :
  (forall (G : Setting) (s : setting_state G),
     no_click (known (log_of G (page cfg) s)) ->
     asks (log_of G (page cfg) s) = []
     /\ Forall (fun c => is_mutating c = false) (calls (known (log_of G (page cfg) s))))
  /\ (forall (O : Operator) (w : World) (o : op_state O) (x : Outside),
        no_click (known (log_of (whole O) (page cfg) (w, o, x))) ->
        let s' := (perform (whole O) (page cfg) (w, o, x)).2 in
        s'.1.1 = w /\ s'.2 = x).
Proof.
  split.
  - intros G s. apply Quiet_sound, page_is_quiet.
  - intros O w o x Hno.
    destruct (Quiet_sound _ (page_is_quiet cfg) (whole O) (w, o, x) Hno) as [Ha Hc].
    by apply whole_kept_without_sending.
Qed.

Lemma chosen_file_is_not_sent :
  let s' := (perform (whole (choosing 1)) (page cfg0) (four_buckets, tt, report_chosen)).2 in
  s'.1.1 = four_buckets /\ s'.2 = report_chosen.
Proof.
  apply (proj2 (whole_page_waits_for_a_click cfg0) (choosing 1) four_buckets tt
           report_chosen).
  intros label key H. vm_compute in H.
  members H; entry_eq H; discriminate H.
Defined.

(** *** Creating a zone and using it *)

Lemma clean_id_of_reply (id : string) :
  has_slash id = false -> split_last "/" ("/hostedzone/" ++ id) = id.
Proof.
  intros H. unfold split_last. cbv [String.append]. cbn.
  by rewrite split_last_from_whole.
Qed.

Lemma find_zone_with_zone (w : World) (z : WZone) :
  find_zone w (wz_id z) = None -> find_zone (with_zone z w) (wz_id z) = Some z.
Proof.
  intros H. unfold find_zone, with_zone in *. cbn [zones].
  rewrite find_app_r by done. cbn. by rewrite bool_decide_true.
Qed.

Lemma set_tagging_with_zone (w : World) id name tags0 rs tags :
  find_zone w id = None ->
  set_tagging id tags (with_zone (mkWZone id name tags0 rs) w)
  = with_zone (mkWZone id name (inr tags) rs) w.
Proof.
  intros H. unfold set_tagging, with_zone. cbn [zones instances buckets parameters].
  f_equal. rewrite map_app. cbn. rewrite bool_decide_true by done. f_equal.
  unfold find_zone in H. induction (zones w) as [|z zs IH]; cbn in *; [done|].
  destruct (bool_decide (wz_id z = id)); [discriminate H|]. by rewrite IH.
Qed.

(** [create_zone] against the provider, when the provider has a new id. *)
Lemma create_zone_run cfg O (w : World) (o : op_state O) (x : Outside) d id rest :
  d <> "" -> zone_ids x = id :: rest -> has_slash id = false -> find_zone w id = None ->
  perform (whole O) (create_zone cfg d) (w, o, x)
  = ([existT (MakeClient "route53") (inr tt);
      existT Clock (clock x);
      existT (Say false (CreatingZone d)) tt;
      existT (Ask (create_hosted_zone d (d ++ "-" ++ pretty (clock x))
                     (Some ("Managed by platform-cli", false))))
        (inr ("/hostedzone/" ++ id)%string);
      existT (Say false (ZoneCreated id)) tt;
      existT (Ask (change_tags_for_resource "hostedzone" id (ownership_tags cfg))) (inr tt);
      existT (Say false TagsAdded) tt],
     inr tt,
     (with_zone (mkWZone id (fqdn d) (inr (tags_dict (ownership_tags cfg))) []) w, o,
      without_zone_id x)).
Proof.
  intros Hd Hids Hid Hfresh. unfold create_zone. cbn -[serve].
  assert (serve (w, x) (create_hosted_zone d (d ++ "-" ++ pretty (clock x))
                          (Some ("Managed by platform-cli", false)))
          = (inr ("/hostedzone/" ++ id)%string,
             (with_zone (mkWZone id (fqdn d) (inr ∅) []) w, without_zone_id x))) as ->.
  { unfold serve. rewrite bool_decide_false by done. by rewrite Hids. }
  cbn -[serve]. rewrite (clean_id_of_reply id Hid).
  assert (serve (with_zone (mkWZone id (fqdn d) (inr ∅) []) w, without_zone_id x)
            (change_tags_for_resource "hostedzone" id (ownership_tags cfg))
          = (inr tt,
             (with_zone (mkWZone id (fqdn d) (inr (tags_dict (ownership_tags cfg))) []) w,
              without_zone_id x))) as ->.
  { unfold serve. rewrite bool_decide_true by done. cbn [negb].
    rewrite (find_zone_with_zone w (mkWZone id (fqdn d) (inr ∅) [])) by exact Hfresh.
    cbn [wz_tagging]. rewrite set_tagging_with_zone by exact Hfresh. reflexivity. }
  reflexivity.
Qed.

(** X29.  Against the provider: when the provider has a new id for the
    zone, [create_zone] for a name that is not empty prints the three
    progress lines with the bare id and leaves one more zone, which carries
    the two ownership tags.  That id is the one the record commands take:
    [add_record] run next with the id printed passes the ownership check and
    leaves its record in the new zone. *)
Theorem created_zone_takes_records (cfg : Config) (O : Operator) (w : World)
    (o : op_state O) (x : Outside) (domain_name id : string) (rest : list string)
    (subdomain ip_address : string) :
  domain_name <> "" ->
  zone_ids x = id :: rest ->
  has_slash id = false ->
  find_zone w id = None ->
  let '(t1, r1, s1) := perform (whole O) (create_zone cfg domain_name) (w, o, x) in
  let '(t2, r2, s2) :=
    perform (whole O) (lift (Route53.add_record cfg id subdomain ip_address)) s1 in
  r1 = inr tt
  /\ says t1 = [(false, CreatingZone domain_name); (false, ZoneCreated id);
                (false, TagsAdded)]
  /\ s1.1.1 = with_zone (mkWZone id (fqdn domain_name)
                           (inr (tags_dict (ownership_tags cfg))) []) w
  /\ r2 = inr tt
  /\ calls (known t2)
     = [list_tags_for_resource "hostedzone" id;
        get_hosted_zone id;
        change_resource_record_sets id
          (Route53.change_batch "UPSERT" (subdomain ++ "." ++ fqdn domain_name)%string
             ip_address)]
  /\ echoes (known t2)
     = [(false, AddingRecord (subdomain ++ "." ++ fqdn domain_name)%string ip_address);
        (false, RecordAdded)]
  /\ find_zone s2.1.1 id
     = Some (mkWZone id (fqdn domain_name) (inr (tags_dict (ownership_tags cfg)))
               [a_record (subdomain ++ "." ++ fqdn domain_name)%string 300 ip_address]).
Proof.
  intros Hd Hids Hid Hfresh.
  rewrite (create_zone_run cfg O w o x domain_name id rest Hd Hids Hid Hfresh).
  rewrite perform_lift, run_in_whole.
  set (z := mkWZone id (fqdn domain_name) (inr (tags_dict (ownership_tags cfg))) []).
  pose proof (find_zone_with_zone w z Hfresh) as Hz.
  rewrite (add_record_run cfg O (with_zone z w) o id z (tags_dict (ownership_tags cfg))
             subdomain ip_address Hz eq_refl (ownership_tags_are_managed cfg)).
  cbv beta iota zeta. rewrite known_items.
  split; [done|]. split; [done|]. split; [done|]. split; [done|].
  split; [done|]. split; [done|].
  cbn [fst snd]. rewrite (find_zone_set_records _ _ z) by exact Hz. reflexivity.
Qed.

Lemma new_zone_takes_the_www_record :
  let '(t1, r1, s1) :=
    perform (whole (replying true)) (create_zone cfg0 "example.com")
      (one_managed, tt, report_chosen) in
  let '(t2, r2, s2) :=
    perform (whole (replying true)) (lift (Route53.add_record cfg0 "Z3" "www" "1.2.3.4"))
      s1 in
  r1 = inr tt
  /\ says t1 = [(false, CreatingZone "example.com"); (false, ZoneCreated "Z3");
                (false, TagsAdded)]
  /\ s1.1.1 = with_zone (mkWZone "Z3" (fqdn "example.com")
                           (inr (tags_dict (ownership_tags cfg0))) []) one_managed
  /\ r2 = inr tt
  /\ calls (known t2)
     = [list_tags_for_resource "hostedzone" "Z3";
        get_hosted_zone "Z3";
        change_resource_record_sets "Z3"
          (Route53.change_batch "UPSERT" ("www" ++ "." ++ fqdn "example.com")%string
             "1.2.3.4")]
  /\ echoes (known t2)
     = [(false, AddingRecord ("www" ++ "." ++ fqdn "example.com")%string "1.2.3.4");
        (false, RecordAdded)]
  /\ find_zone s2.1.1 "Z3"
     = Some (mkWZone "Z3" (fqdn "example.com") (inr (tags_dict (ownership_tags cfg0)))
               [a_record ("www" ++ "." ++ fqdn "example.com")%string 300 "1.2.3.4"]).
Proof.
  apply (created_zone_takes_records cfg0 (replying true) one_managed tt report_chosen
           "example.com" "Z3" [] "www" "1.2.3.4"); [done|reflexivity|reflexivity|reflexivity].
Defined.

(** *** main.py, the command lines *)

Lemma Avoids_lift (P : Effect -> Prop) {A} (p : Prog A) :
  Never (fun ev => P (Known ev)) p -> Avoids P (lift p).
Proof. induction 1 as [a|r|ev k Hev Hk IH]; cbn; by constructor. Qed.

(** One step of a proof that a command never launches, by its shape. *)
Ltac clause_cases H :=
  unfold except_Exception, except_ClientError, except_all in H;
  repeat case_match; try discriminate H; injection H as <-.

Ltac no_launch_step :=
  match goal with
  | |- forall _, _ => intro
  | |- Never _ (Ret _) => constructor
  | |- Never _ (mret _) => constructor
  | |- Never _ (Raise _) => constructor
  | |- Never _ (_ ≫= _) => apply Never_bind
  | |- Never _ (try_except _ _) =>
      apply Never_try; [|let r := fresh "r" in let q := fresh "q" in
                         let Hq := fresh "Hq" in intros r q Hq; clause_cases Hq]
  | |- Never _ (for_each _ _ _) => apply Never_for_each
  | |- Never _ (Vis _ _) =>
      apply Never_Vis; [let Hl := fresh "Hl" in
                        intros (?&?&?&?&?&?&Hl); discriminate Hl|]
  | |- Never _ (if ?b then _ else _) => destruct b
  | |- Never _ (match ?x with _ => _ end) => destruct x
  end.

Ltac avoid_step :=
  match goal with
  | |- forall _, _ => intro
  | |- Avoids _ (Done _) => constructor
  | |- Avoids _ (Throw _) => constructor
  | |- Avoids _ (Do _ _) =>
      apply Avoids_Do; [let Hl := fresh "Hl" in
                        intros (?&?&?&?&?&?&Hl); discriminate Hl|]
  | |- Avoids _ (if ?b then _ else _) => destruct b
  | |- Avoids _ (match ?x with _ => _ end) => destruct x
  | |- context [match ?a with inl _ => _ | inr _ => _ end] => destruct a; cbn
  | |- Avoids _ _ => progress cbn
  | |- Avoids _ _ => progress unfold say, say_err, ask, path_exists, time, make_client
  end.

Lemma Avoids_with_client (P : Effect -> Prop) service {A} (body : Prog A) :
  ~ P (MakeClient service) -> Never (fun ev => P (Known ev)) body ->
  Avoids P (with_client service body).
Proof.
  intros Hc Hb. apply Avoids_Do; [exact Hc|].
  intros [e|[]]; [constructor|by apply Avoids_lift].
Qed.

Lemma building_is_no_launch service : ~ launches (MakeClient service).
Proof. intros (?&?&?&?&?&?&Hl). discriminate Hl. Qed.

Lemma ec2_commands_do_not_launch cfg (a : Ec2Args) :
  (forall ty key name, a <> ec2_create ty key name) ->
  Never (fun ev => launches (Known ev)) (ec2_body cfg a).
Proof.
  intros Ha. destruct a as [ty key name| |id|id|id]; [by destruct (Ha ty key name)|..];
    unfold ec2_body, Ec2.list, Ec2.list_instance, Ec2.stop, Ec2.start, Ec2.terminate,
      Ec2.fetch_tags, first, call, echo, echo_err, confirm;
    repeat no_launch_step.
Qed.

Lemma s3_commands_do_not_launch cfg (a : S3Args) : Avoids launches (s3 cfg a).
Proof.
  destruct a as [name public| |name path]; unfold s3.
  - apply Avoids_with_client; [apply building_is_no_launch|].
    unfold S3.create, call, echo, echo_err, confirm. repeat no_launch_step.
  - apply Avoids_with_client; [apply building_is_no_launch|].
    unfold S3.list, S3.list_bucket, call, echo, echo_err. repeat no_launch_step.
  - unfold upload. cbn. repeat avoid_step.
Qed.

Lemma route53_commands_do_not_launch cfg (a : Route53Args) : Avoids launches (route53 cfg a).
Proof.
  destruct a as [d| |z sub ip|z sub ip]; unfold route53.
  - unfold create_zone. cbn. repeat avoid_step.
  - apply Avoids_with_client; [apply building_is_no_launch|].
    unfold Route53.list, Route53.list_zone, call, echo, echo_err. repeat no_launch_step.
  - apply Avoids_with_client; [apply building_is_no_launch|].
    unfold Route53.add_record, call, echo, echo_err. repeat no_launch_step.
  - apply Avoids_with_client; [apply building_is_no_launch|].
    unfold Route53.delete_record, call, echo, echo_err. repeat no_launch_step.
Qed.

Lemma info_does_not_launch environ : Avoids launches (info environ).
Proof. unfold info. cbn. repeat avoid_step. Qed.

(** The states counted stay counted states, and no other state becomes one,
    when an instance is started, stopped or terminated. *)
Lemma counted_before (next : string -> string) :
  next = after_start \/ next = after_stop \/ next = after_terminate ->
  forall s, next s ∈ counted_states -> s ∈ counted_states.
Proof.
  unfold counted_states, after_start, after_stop, after_terminate.
  intros [-> | [-> | ->]] s; repeat case_bool_decide; subst; cbn; try done.
  1-3: intros _; in_list.
  intros Hin. members Hin; discriminate Hin.
Qed.

Lemma count_set_state cfg ids (next : string -> string) (w : World) :
  (forall s, next s ∈ counted_states -> s ∈ counted_states) ->
  cap_count cfg (set_state ids next w) <= cap_count cfg w.
Proof.
  intros Hnext. unfold cap_count, set_state. cbn [instances].
  induction (instances w) as [|i l IH]; cbn; [lia|].
  assert (counts_toward_cap cfg
            (if bool_decide (wi_id i ∈ ids)
             then mkWInstance (wi_id i) (next (wi_state i)) (wi_type i) (wi_ip i) (wi_tags i)
             else i) = true -> counts_toward_cap cfg i = true) as Himp.
  { case_bool_decide; [|done]. unfold counts_toward_cap. cbn.
    intros [Hm Hs]%andb_true_iff. rewrite Hm. cbn.
    apply bool_decide_eq_true. apply Hnext. by apply bool_decide_eq_true in Hs. }
  destruct (counts_toward_cap cfg (if bool_decide _ then _ else i)) eqn:Hc.
  - rewrite (Himp eq_refl). cbn. lia.
  - destruct (counts_toward_cap cfg i); cbn; lia.
Qed.

(** A provider call other than a launch does not raise the count. *)
Lemma api_count_without_launch cfg (w : World) (c : ApiCall) :
  ~ launches (Known (Api c)) -> cap_count cfg (api w c).2 <= cap_count cfg w.
Proof.
  intros Hc. destruct c.
  2: { destruct Hc. by repeat eexists. }
  all: unfold api; repeat case_match; cbn [snd]; try lia.
  all: try (apply count_set_state, counted_before; tauto).
  all: unfold cap_count; cbn; lia.
Qed.

Lemma serve_keeps_the_instances (w : World) (x : Outside) (c : Request) :
  instances (serve (w, x) c).2.1 = instances w.
Proof. unfold serve. destruct c; repeat case_match; reflexivity. Qed.

(** A script that never launches does not raise the count. *)
Lemma count_kept_without_launch cfg (O : Operator) {A} (p : Script A) :
  Avoids launches p ->
  forall w o x,
    cap_count cfg (perform (whole O) p (w, o, x)).2.1.1 <= cap_count cfg w.
Proof.
  induction 1 as [a|r|ef k Hef Hk IH]; intros w o x; cbn -[serve]; [lia..|].
  destruct ef as [ev|service|c|err m|path| |label]; cbn -[serve].
  2: { specialize (IH (inr tt) w o x).
       destruct (perform (whole O) (k (inr tt)) (w, o, x)) as [[t r] s2]. cbn in *.
       exact IH. }
  - destruct ev as [c|err m|prompt|wd|d]; cbn.
    + pose proof (api_count_without_launch cfg w c Hef) as Hle.
      destruct (api w c) as [a w1]. cbn in *. specialize (IH a w1 o x).
      destruct (perform (whole O) (k a) (w1, o, x)) as [[t r] s2]. cbn in *. lia.
    + specialize (IH tt w o x).
      destruct (perform (whole O) (k tt) (w, o, x)) as [[t r] s2]. cbn in *. exact IH.
    + destruct (op_confirm O o prompt) as [b o1]. specialize (IH b w o1 x).
      destruct (perform (whole O) (k b) (w, o1, x)) as [[t r] s2]. cbn in *. exact IH.
    + destruct (op_widget O o wd) as [v o1]. specialize (IH v w o1 x).
      destruct (perform (whole O) (k v) (w, o1, x)) as [[t r] s2]. cbn in *. exact IH.
    + specialize (IH tt w o x).
      destruct (perform (whole O) (k tt) (w, o, x)) as [[t r] s2]. cbn in *. exact IH.
  - pose proof (serve_keeps_the_instances w x c) as Hi.
    destruct (serve (w, x) c) as [a [w1 x1]]. cbn in Hi. specialize (IH a w1 o x1).
    destruct (perform (whole O) (k a) (w1, o, x1)) as [[t r] s2]. cbn in *.
    unfold cap_count in *. by rewrite <- Hi.
  - specialize (IH tt w o x).
    destruct (perform (whole O) (k tt) (w, o, x)) as [[t r] s2]. cbn in *. exact IH.
  - specialize (IH (bool_decide (path ∈ files x)) w o x).
    destruct (perform (whole O) (k _) (w, o, x)) as [[t r] s2]. cbn in *. exact IH.
  - specialize (IH (clock x) w o x).
    destruct (perform (whole O) (k _) (w, o, x)) as [[t r] s2]. cbn in *. exact IH.
  - specialize (IH (chosen_file x) w o x).
    destruct (perform (whole O) (k _) (w, o, x)) as [[t r] s2]. cbn in *. exact IH.
Qed.

(** [create] against the provider: the count afterwards. *)
Lemma create_bounds_the_count cfg (O : Operator) (w : World) (o : op_state O) ty key name :
  cap_count cfg (world_after O (Ec2.create cfg ty key name) (w, o))
  <= Nat.max Ec2.MAX_INSTANCES (cap_count cfg w).
Proof.
  destruct (decide (ty ∈ Ec2.ALLOWED_TYPES)) as [Hty|Hty].
  2: { unfold world_after, final_state. rewrite create_type_not_allowed by done.
       cbn. lia. }
  destruct (le_lt_dec Ec2.MAX_INSTANCES (cap_count cfg w)) as [Hcap|Hcap].
  { unfold world_after, final_state. rewrite create_at_cap by done. cbn. lia. }
  destruct (parameters w !! Ec2.SSM_AMI_PATH) as [ami|] eqn:Hami.
  2: { rewrite create_without_image by done. lia. }
  unfold world_after, final_state.
  rewrite (create_launches cfg O w o ty key name ami Hty Hcap Hami).
  cbn [fst snd]. rewrite cap_count_with_instance, launched_counts.
  unfold Ec2.MAX_INSTANCES in *. lia.
Qed.

(** One command line. *)
Lemma command_line_bounds_the_count environ (O : Operator) (args : Args) w o x :
  let cfg := config_of_environ environ in
  cap_count cfg (perform (whole O) (cli environ args) (w, o, x)).2.1.1
  <= Nat.max Ec2.MAX_INSTANCES (cap_count cfg w)
  /\ ((forall ty key name, args <> cmd_ec2 (ec2_create ty key name)) ->
      cap_count cfg (perform (whole O) (cli environ args) (w, o, x)).2.1.1
      <= cap_count cfg w).
Proof.
  cbv zeta.
  assert (forall p : Script unit,
            Avoids launches p ->
            cap_count (config_of_environ environ) (perform (whole O) p (w, o, x)).2.1.1
            <= Nat.max Ec2.MAX_INSTANCES (cap_count (config_of_environ environ) w)
            /\ (True ->
                cap_count (config_of_environ environ) (perform (whole O) p (w, o, x)).2.1.1
                <= cap_count (config_of_environ environ) w)) as Hav.
  { intros p Hp.
    pose proof (count_kept_without_launch (config_of_environ environ) O p Hp w o x).
    split; [lia|done]. }
  destruct args as [|a|a|a]; unfold cli.
  - destruct (Hav _ (info_does_not_launch environ)) as [H1 H2]. split; [exact H1|auto].
  - assert (forall a' : Ec2Args,
              (forall ty key name, a' <> ec2_create ty key name) ->
              cap_count (config_of_environ environ)
                (perform (whole O) (ec2 (config_of_environ environ) a') (w, o, x)).2.1.1
              <= Nat.max Ec2.MAX_INSTANCES (cap_count (config_of_environ environ) w)
              /\ ((forall ty key name, cmd_ec2 a' <> cmd_ec2 (ec2_create ty key name)) ->
                  cap_count (config_of_environ environ)
                    (perform (whole O) (ec2 (config_of_environ environ) a') (w, o, x)).2.1.1
                  <= cap_count (config_of_environ environ) w)) as Hother.
    { intros a' Ha.
      destruct (Hav _ (Avoids_with_client launches "ec2" _ (building_is_no_launch "ec2")
                         (ec2_commands_do_not_launch (config_of_environ environ) a' Ha)))
        as [H1 H2].
      split; [exact H1|auto]. }
    destruct a as [ty key name| |id|id|id]; [|by apply Hother..].
    split.
    + unfold ec2, ec2_body. rewrite perform_with_client_whole, perform_lift, run_in_whole.
      pose proof (create_bounds_the_count (config_of_environ environ) O w o
                    (default "t3.micro" ty) key (default "my-server" name)) as Hle.
      unfold world_after, final_state in Hle.
      destruct (run (system O) _ (w, o)) as [[t r] [w' o']]. exact Hle.
    + intros Hne. by destruct (Hne ty key name).
  - destruct (Hav _ (s3_commands_do_not_launch (config_of_environ environ) a)) as [H1 H2].
    split; [exact H1|auto].
  - destruct (Hav _ (route53_commands_do_not_launch (config_of_environ environ) a))
      as [H1 H2].
    split; [exact H1|auto].
Qed.

(** X30.  Against the provider: command lines run one after the other never
    take the number of counted instances above the limit.  After any
    sequence of commands of the tool (info, the three groups) the count is
    at most the larger of [MAX_INSTANCES] and the count at the start; a
    sequence without [ec2 create] does not raise it at all.  Starting,
    stopping and terminating move instances between states without adding a
    counted one, and the other groups do not touch instances. *)
Theorem command_lines_keep_the_limit (environ : gmap string string) (O : Operator)
    (lines : list Args) (w : World) (o : op_state O) (x : Outside) :
  let cfg := config_of_environ environ in
  let w' := (after_all O environ lines (w, o, x)).1.1 in
  cap_count cfg w' <= Nat.max Ec2.MAX_INSTANCES (cap_count cfg w)
  /\ ((forall ty key name, cmd_ec2 (ec2_create ty key name) ∉ lines) ->
      cap_count cfg w' <= cap_count cfg w).
Proof.
  cbv zeta. revert w o x. induction lines as [|args lines IH]; intros w o x; cbn.
  { split; [lia|done]. }
  destruct (command_line_bounds_the_count environ O args w o x) as [H1 H2].
  destruct (perform (whole O) (cli environ args) (w, o, x)) as [[t r] [[w1 o1] x1]].
  cbn in *. destruct (IH w1 o1 x1) as [IH1 IH2]. split.
  - lia.
  - intros Hno.
    assert (cap_count (config_of_environ environ) w1
            <= cap_count (config_of_environ environ) w) as Hle.
    { apply H2. intros ty key name ->. apply (Hno ty key name). apply list_elem_of_here. }
    assert (cap_count (config_of_environ environ)
              (after_all O environ lines (w1, o1, x1)).1.1
            <= cap_count (config_of_environ environ) w1) as Hle'.
    { apply IH2. intros ty key name Hin. apply (Hno ty key name).
      by apply list_elem_of_further. }
    lia.
Qed.

(** *** The command lines, with their client *)

Lemma instance_line_body cfg op instance_id :
  ec2_body cfg (instance_line op instance_id) = instance_command cfg op instance_id.
Proof. by destruct op. Qed.

Lemma record_line_body cfg op zone_id subdomain ip_address :
  route53 cfg (record_line op zone_id subdomain ip_address)
  = with_client "route53" (record_command cfg op zone_id subdomain ip_address).
Proof. by destruct op. Qed.

(** A command line whose client is built runs its command in the setting
    the construction leaves. *)
Lemma command_line_once_built {A} (G : Setting) service (body : Prog A)
    (s : setting_state G) u :
  (setting_step G s (MakeClient service)).1 = inr u ->
  let s1 := (setting_step G s (MakeClient service)).2 in
  known (log_of G (with_client service body) s) = trace_of (env_of G) body s1
  /\ result_of G (with_client service body) s = (run (env_of G) body s1).1.2.
Proof.
  unfold log_of, result_of, trace_of. rewrite perform_with_client.
  destruct (setting_step G s (MakeClient service)) as [[e|u'] s1]; cbn [fst snd];
    [discriminate|].
  intros _. rewrite perform_lift.
  destruct (run (env_of G) body s1) as [[t r] s2]. cbn.
  split; [apply known_items|reflexivity].
Qed.

(** A command line whose client cannot be built: the exception leaves it,
    and the attempt is all that happened. *)
Lemma command_line_not_built {A} (G : Setting) service (body : Prog A)
    (s : setting_state G) e :
  (setting_step G s (MakeClient service)).1 = inl e ->
  log_of G (with_client service body) s = [existT (MakeClient service) (inl e)]
  /\ result_of G (with_client service body) s = inl (Exception e).
Proof.
  unfold log_of, result_of. rewrite perform_with_client.
  destruct (setting_step G s (MakeClient service)) as [[e'|u] s1]; cbn; [|discriminate].
  by intros [= ->].
Qed.

(** X3.  [stop], [start] and [terminate] as a command line runs them.  When
    the client cannot be built, the exception leaves the command: nothing
    was called and nothing printed.  Once the client is built no exception
    leaves the command.  A failed fetch is printed as an error and stays the
    only provider call; so does an answer without a reservation or without
    an instance, for which the message is that of [IndexError].  Every
    provider call that fails is printed as an error. *)
Theorem instance_commands_report_every_failure (cfg : Config) (G : Setting)
    (s : setting_state G) (op : InstanceOp) (instance_id : string) :
  let line := ec2 cfg (instance_line op instance_id) in
  let built := setting_step G s (MakeClient "ec2") in
  let fetched := (setting_step G built.2 (Known (Api (describe_instances [instance_id] [])))).1 in
  let t := log_of G line s in
  match built.1 with
  | inl e =>
      result_of G line s = inl (Exception e)
      /\ t = [existT (MakeClient "ec2") (inl e)]
  | inr _ =>
      result_of G line s = inr tt
      /\ (forall e, fetched = inl e ->
            calls (known t) = [describe_instances [instance_id] []]
            /\ echoes (known t) = [(true, Error e)])
      /\ (forall rs, fetched = inr rs -> rs = [] \/ (exists rs', rs = mkReservation [] :: rs') ->
            calls (known t) = [describe_instances [instance_id] []]
            /\ echoes (known t)
               = [(true, Error (mkExn IndexError "list index out of range"))])
      /\ (forall c e, existT (Api c) (inl e) ∈ known t -> (true, Error e) ∈ echoes (known t))
  end.
Proof.
  cbv zeta. unfold ec2. rewrite instance_line_body.
  destruct (setting_step G s (MakeClient "ec2")).1 as [e|u] eqn:Hbuilt.
  - destruct (command_line_not_built G "ec2" (instance_command cfg op instance_id) s e Hbuilt)
      as [Hlog Hres].
    by rewrite Hlog, Hres.
  - destruct (command_line_once_built G "ec2" (instance_command cfg op instance_id) s u Hbuilt)
      as [Hlog Hres].
    rewrite Hlog, Hres.
    apply (instance_command_reports_from_the_fetch_on cfg (env_of G)).
Qed.

Lemma stop_without_a_region_raises :
  result_of unconfigured (ec2 cfg_unset (ec2_stop "i-1")) tt
  = inl (Exception (mkExn BotoCoreError "You must specify a region."))
  /\ log_of unconfigured (ec2 cfg_unset (ec2_stop "i-1")) tt
     = [existT (MakeClient "ec2") (inl (mkExn BotoCoreError "You must specify a region."))].
Proof.
  exact (instance_commands_report_every_failure cfg_unset unconfigured tt Stop "i-1").
Defined.

(** X11.  [add_record] and [delete_record] as a command line runs them.
    When the client cannot be built, the exception leaves the command:
    nothing was called and nothing printed.  Once the client is built no
    exception leaves the command.  Whatever the setting, a change they send
    is for the zone given, comes after the tag fetch returned managed tags
    and after the zone's name was fetched, and is the one UPSERT (for
    [delete_record]: DELETE) of the type-A record set named
    subdomain.zone-name with TTL 300.  A call that fails is the last call,
    and the last line printed is the error line of that step. *)
Theorem record_commands_change_after_both_fetches (cfg : Config) (G : Setting)
    (s : setting_state G) (op : RecordOp) (zone_id subdomain ip_address : string) :
  let line := route53 cfg (record_line op zone_id subdomain ip_address) in
  let built := setting_step G s (MakeClient "route53") in
  let t := log_of G line s in
  (forall zid chs,
     change_resource_record_sets zid chs ∈ calls (known t) ->
     zid = zone_id
     /\ exists tags zone_name,
          existT (Api (list_tags_for_resource "hostedzone" zone_id)) (inr tags) ∈ known t
          /\ isManaged cfg (tags_dict tags) = true
          /\ existT (Api (get_hosted_zone zone_id)) (inr zone_name) ∈ known t
          /\ chs = Route53.change_batch (record_action op)
                     (subdomain ++ "." ++ zone_name) ip_address)
  /\ (forall c e, existT (Api c) (inl e) ∈ known t ->
        last (calls (known t)) = Some c
        /\ last (echoes (known t)) = Some (true, failure_message op c e))
  /\ match built.1 with
     | inl e =>
         result_of G line s = inl (Exception e)
         /\ t = [existT (MakeClient "route53") (inl e)]
     | inr _ => result_of G line s = inr tt
     end.
Proof.
  cbv zeta. rewrite record_line_body.
  destruct (setting_step G s (MakeClient "route53")).1 as [e|u] eqn:Hbuilt.
  - destruct (command_line_not_built G "route53"
                (record_command cfg op zone_id subdomain ip_address) s e Hbuilt)
      as [Hlog Hres].
    rewrite Hlog, Hres. cbn.
    split; [intros zid chs H; by apply elem_of_nil in H|].
    split; [intros c e' H; by apply elem_of_nil in H|done].
  - destruct (command_line_once_built G "route53"
                (record_command cfg op zone_id subdomain ip_address) s u Hbuilt)
      as [Hlog Hres].
    rewrite Hlog, Hres.
    destruct (record_command_from_the_fetch_on cfg (env_of G)
                (setting_step G s (MakeClient "route53")).2 op zone_id subdomain ip_address)
      as (Hr & Hchange & Hfail).
    split; [exact Hchange|]. split; [exact Hfail|exact Hr].
Qed.

Lemma permission_failure_is_printed :
  last (echoes (known (log_of (whole (replying true))
                         (route53 cfg0 (route53_add_record "Z9" "www" "1.2.3.4"))
                         (one_zone, tt, report_chosen))))
  = Some (true, PermissionCheckError (client_error "NoSuchHostedZone")).
Proof.
  destruct (record_commands_change_after_both_fetches cfg0 (whole (replying true))
              (one_zone, tt, report_chosen) AddRecord "Z9" "www" "1.2.3.4")
    as (_ & Hfail & _).
  destruct (Hfail (list_tags_for_resource "hostedzone" "Z9")
              (client_error "NoSuchHostedZone")) as [_ Hlast].
  - vm_compute. apply list_elem_of_here.
  - exact Hlast.
Defined.

(** X9.  The bucket [create] as a command line runs it, for a name of ASCII
    characters.  When the client cannot be built, the exception leaves the
    command: nothing was called and nothing printed.  Once it is built, the
    provider calls are an initial part of: create the bucket, tag it, set or
    remove the public access block, for the lower-cased name.  A call that
    fails is the last one: a [ClientError] is printed as an AWS error and
    the command ends normally; any other exception leaves the command, and
    nothing went to the error stream.  When no call fails, none or all three
    were made; after all three the command ends normally, and so it does,
    without any call, when the prompt was answered no. *)
Theorem s3_create_stops_at_the_first_failure (cfg : Config) (G : Setting)
    (s : setting_state G) (bucket_name : string) (public : bool) :
  ascii_only bucket_name = true ->
  let line := s3 cfg (s3_create bucket_name public) in
  let steps := create_steps cfg (lower bucket_name) public in
  let built := setting_step G s (MakeClient "s3") in
  let t := log_of G line s in
  let result := result_of G line s in
  calls (known t) `prefix_of` steps
  /\ (forall c e, existT (Api c) (inl e) ∈ known t ->
        last (calls (known t)) = Some c
        /\ (exn_class e = ClientError ->
            result = inr tt /\ last (echoes (known t)) = Some (true, AwsError e))
        /\ (exn_class e <> ClientError ->
            result = inl (Exception e) /\ no_error_echo (known t)))
  /\ ((forall c e, existT (Api c) (inl e) ∉ known t) ->
      calls (known t) = [] \/ calls (known t) = steps)
  /\ (calls (known t) = steps -> (forall c e, existT (Api c) (inl e) ∉ known t) ->
      result = inr tt)
  /\ (confirmations (known t) = [("Are you absolutely sure?", false)] ->
      result = inr tt /\ calls (known t) = [])
  /\ (forall e, built.1 = inl e ->
        result = inl (Exception e) /\ t = [existT (MakeClient "s3") (inl e)]).
Proof.
  intros _. cbv zeta. unfold s3.
  destruct (setting_step G s (MakeClient "s3")).1 as [e|u] eqn:Hbuilt.
  - destruct (command_line_not_built G "s3" (S3.create cfg bucket_name public) s e Hbuilt)
      as [Hlog Hres].
    rewrite Hlog, Hres. cbn.
    split; [apply prefix_nil|].
    split; [intros c e' H; by apply elem_of_nil in H|].
    split; [by left|].
    split; [intros H; destruct public; discriminate H|].
    split; [discriminate|].
    by intros e' [= ->].
  - destruct (command_line_once_built G "s3" (S3.create cfg bucket_name public) s u Hbuilt)
      as [Hlog Hres].
    rewrite Hlog, Hres.
    destruct (bucket_create_from_the_prompt_on cfg (env_of G)
                (setting_step G s (MakeClient "s3")).2 bucket_name public)
      as (Hprefix & Hfail & Hnone).
    split; [exact Hprefix|]. split; [exact Hfail|].
    split; [intros Hno; by destruct (Hnone Hno)|].
    split; [intros _ Hno; by destruct (Hnone Hno)|].
    split; [|discriminate].
    intros Hdeclined. destruct public.
    + destruct (create_public_declined cfg (env_of G) _ bucket_name Hdeclined)
        as (Hc & _ & Hr).
      by split.
    + by rewrite private_create_asks_nothing in Hdeclined.
Qed.

Lemma create_without_region_raises :
  result_of (whole (replying true)) (s3 cfg_unset (s3_create "Reports" false))
    (three_buckets, tt, report_chosen)
  = inl (Exception (mkExn BotoCoreError "Parameter validation failed"))
  /\ no_error_echo (known (log_of (whole (replying true))
                             (s3 cfg_unset (s3_create "Reports" false))
                             (three_buckets, tt, report_chosen))).
Proof.
  destruct (s3_create_stops_at_the_first_failure cfg_unset (whole (replying true))
              (three_buckets, tt, report_chosen) "Reports" false eq_refl)
    as (_ & Hfail & _).
  destruct (Hfail (create_bucket "reports" (Some None))
              (mkExn BotoCoreError "Parameter validation failed")) as (_ & _ & Hraised).
  - vm_compute. apply list_elem_of_here.
  - apply Hraised. discriminate.
Defined.
